(** * Optogenetics stimulus controller: state machine and pulse/train engine

    A shallow embedding of the two firmware variants of the repository,

    - [Svedberg]: OptogeneticController_Svedberg/ChrimsonOptogeneticController_Svedberg.ino
      (pulse mode: number of pulses, pulse width, inter-pulse interval);
    - [NH]: ChrimsonOptogeneticController_NH/ChrimsonOptogeneticController_NH.ino
      (duty-cycle mode: frequency, period, duty cycle, up time, down time).

    The globals of a sketch become one context record [Ctx] that every
    function takes and returns.  One iteration of the [while (true)] loop of
    [loop()] is [loop_body]; its input is what the iteration samples from
    the outside: the decoded host command, the clock and the input pins.
    Everything a function does to the outside (pin writes, messages to the
    host, blocking delays) is appended to the effect log [out] of the
    context.

    Conventions.
    - [unsigned long] timers are [Z] values in [0, 2^32); their difference
      wraps around ([elapsed]).
    - [int] counters are [Z]; the firmware never lets them come near the
      range of a 32-bit [int].
    - All reads of the clock inside one call return the same value [now].
    - [_params] is an array of [float].  In the Svedberg variant every value
      stored is an integer, so the array is a [list Z]; in the NH variant
      derived parameters are quotients, so the array is a [list Q] (exact
      rational arithmetic in place of single-precision rounding; a division
      by zero, which gives an infinity or a NaN on the device, is outside
      the model and excluded by hypothesis where it matters).
    - An array write with an index outside the array is undefined behaviour
      in C; the embedding is guarded: such a write returns [OutOfBounds]. *)

From Stdlib Require Import ZArith QArith Bool List String Ascii Lia Lra.
From stdpp Require Import base list.
Import ListNotations.

Local Open Scope Z_scope.

(** ** Shared vocabulary *)

Inductive Pin : Type :=
| PIN_CHRIMSON_TRIGGER | PIN_TRIAL_INIT | PIN_CUE_ON | PIN_CANCEL
| PIN_CHRIMSON_STIM | PIN_CHRIMSON_RECEIPT | PIN_CHR2_STIM | PIN_CHR2_RECEIPT
| PIN_PHOTOMETRY_LED | PIN_CHRIMSON_PWR | PIN_CHR2_PWR.

Scheme Boolean Equality for Pin.

(** Messages to the host, by semantic content (the wire format is the
    sigil followed by the fields). *)
Inductive Message (V : Type) : Type :=
| MsgState (st : Z)                          (* "$" state *)
| MsgEvent (ev : Z) (timestamp : Z)          (* "&" event " " time *)
| MsgResult (code : Z)                       (* "`" result code *)
| MsgParam (id : nat) (v : V)                (* "^ " id " " name of id " " value *)
| MsgHostInit                                (* the enumerations of hostInit, then "~" *)
| MsgText (txt : string) (vals : list V).    (* free text with the numbers it embeds *)

Arguments MsgState {V}.
Arguments MsgEvent {V}.
Arguments MsgResult {V}.
Arguments MsgParam {V}.
Arguments MsgHostInit {V}.
Arguments MsgText {V}.

(** What the firmware does to the outside. *)
Inductive Effect (V : Type) : Type :=
| DigitalWrite (p : Pin) (high : bool)
| AnalogWrite (p : Pin) (v : V)
| SendMessage (m : Message V)
| Delay (ms : Z).

Arguments DigitalWrite {V}.
Arguments AnalogWrite {V}.
Arguments SendMessage {V}.
Arguments Delay {V}.

(** Result of a call that may index an array out of range. *)
Inductive Res (A : Type) : Type :=
| Ok (a : A)
| OutOfBounds.

Arguments Ok {A}.
Arguments OutOfBounds {A}.

Definition bind {A B : Type} (r : Res A) (k : A -> Res B) : Res B :=
  match r with
  | Ok a => k a
  | OutOfBounds => OutOfBounds
  end.

(** What one loop iteration samples. *)
Record Input : Type := mkInput {
  now : Z;                (* millis() *)
  command : ascii;        (* decoded command, ' ' when no message ended *)
  args : Z * Z;           (* its two integer arguments, 0 when absent *)
  pins : Pin -> bool      (* digitalRead *)
}.

Definition digitalRead (i : Input) (p : Pin) : bool := pins i p.

(** [unsigned long] subtraction: modulo 2^32. *)
Definition elapsed (t1 t0 : Z) : Z := (t1 - t0) mod 4294967296.

(** [constrain(x, lo, hi)] of the Arduino core. *)
Definition constrain (x lo hi : Z) : Z :=
  if x <? lo then lo else if hi <? x then hi else x.

Notation "s |> f" := (f s) (at level 49, left associativity, only parsing).

(** *** Reading an effect log *)

Fixpoint count {A : Type} (f : A -> bool) (l : list A) : nat :=
  match l with
  | [] => 0%nat
  | x :: l' => ((if f x then 1 else 0) + count f l')%nat
  end.

(** [digitalWrite(p, level)]. *)
Definition is_write {V} (p : Pin) (level : bool) (e : Effect V) : bool :=
  match e with
  | DigitalWrite q b => Pin_beq q p && Bool.eqb b level
  | _ => false
  end.

(** [analogWrite(p, _)]: a write to the power output of a channel. *)
Definition is_power {V} (p : Pin) (e : Effect V) : bool :=
  match e with
  | AnalogWrite q _ => Pin_beq q p
  | _ => false
  end.

(** [delay(_)]: a blocking wait. *)
Definition is_delay {V} (e : Effect V) : bool :=
  match e with
  | Delay _ => true
  | _ => false
  end.

(** A result-code message. *)
Definition is_result {V} (code : Z) (e : Effect V) : bool :=
  match e with
  | SendMessage (MsgResult c) => c =? code
  | _ => false
  end.

(** An event marker. *)
Definition is_event {V} (ev : Z) (e : Effect V) : bool :=
  match e with
  | SendMessage (MsgEvent c _) => c =? ev
  | _ => false
  end.

(** *** Inputs for the examples *)

Definition no_pins : Pin -> bool := fun _ => false.


(** An iteration at time [t] in which the message [c a b] ends. *)
Definition msg (t : Z) (c : ascii) (a b : Z) : Input :=
  mkInput t c (a, b) no_pins.

(** An iteration at time [t] with no message. *)
Definition tick (t : Z) : Input := msg t " " 0 0.

(** [n] iterations without message, one millisecond apart, from [t0]. *)
Definition ticks (t0 : Z) (n : nat) : list Input :=
  map (fun k => tick (t0 + Z.of_nat k)) (seq 0 n).

(** ** The Svedberg variant (pulse mode) *)

Module Svedberg.

Inductive State : Type :=
| _INIT | IDLE_STATE | INIT_EXP | WAIT_REQUEST_STATE | CHRIMSON_STIM_STATE
| CHR2_STIM_STATE | OPTO_LADDER_STATE | DAN_TAG_STATE | UPDATE_PARAMS_STATE.

Scheme Boolean Equality for State.

(** The value of the enumerator, as [String(_state)] prints it. *)
Definition state_num (st : State) : Z :=
  match st with
  | _INIT => 0 | IDLE_STATE => 1 | INIT_EXP => 2 | WAIT_REQUEST_STATE => 3
  | CHRIMSON_STIM_STATE => 4 | CHR2_STIM_STATE => 5 | OPTO_LADDER_STATE => 6
  | DAN_TAG_STATE => 7 | UPDATE_PARAMS_STATE => 8
  end.

(** [enum EventMarkers], the markers the modelled functions send. *)
Definition EVENT_EXP_INIT : Z := 0.
Definition EVENT_TRIAL_INIT : Z := 1.
Definition EVENT_CUE_ON : Z := 2.
Definition EVENT_BOSS_CHRIMSON_REQUEST : Z := 3.
Definition EVENT_UI_CHRIMSON_REQUEST : Z := 9.
Definition EVENT_CHRIMSON_ERROR : Z := 12.
Definition EVENT_UI_CHR2_REQUEST : Z := 13.

(** [enum ResultCode]. *)
Definition CODE_CHRIMSON : Z := 0.
Definition CODE_CHR2 : Z := 1.
Definition CODE_CHRIMSON_CANCEL : Z := 2.
Definition CODE_CHR2_CANCEL : Z := 3.
Definition CODE_UI_CHRIMSON : Z := 4.
Definition CODE_UI_CHR2 : Z := 5.
Definition CODE_OPTOTAG : Z := 6.
Definition CODE_DANTAG : Z := 7.

(** [enum ParamID]: indices into [_params]. *)
Definition _DEBUG : nat := 0.
Definition OPTO_ENABLED : nat := 1.
Definition CANCEL_ENABLED : nat := 2.
Definition CHRIMSON_NUM_PULSES : nat := 3.
Definition CHRIMSON_PULSE_WIDTH : nat := 4.
Definition CHRIMSON_IPI : nat := 5.
Definition CHR2_NUM_PULSES : nat := 6.
Definition CHR2_PULSE_WIDTH : nat := 7.
Definition CHR2_IPI : nat := 8.
Definition CHRIMSON_CHR2_NUM_PULSES : nat := 9.
Definition CHRIMSON_CHR2_PULSE_WIDTH : nat := 10.
Definition CHRIMSON_CHR2_IPI : nat := 11.
Definition CHRIMSON_AOUT_1_VALUE : nat := 12.
Definition CHRIMSON_AOUT_2_VALUE : nat := 13.
Definition CHRIMSON_AOUT_3_VALUE : nat := 14.
Definition CHRIMSON_AOUT_4_VALUE : nat := 15.
Definition CHRIMSON_AOUT_5_VALUE : nat := 16.
Definition CHRIMSON_AOUT_6_VALUE : nat := 17.
Definition CHR2_AOUT_1_VALUE : nat := 18.
Definition CHR2_AOUT_2_VALUE : nat := 19.
Definition CHR2_AOUT_3_VALUE : nat := 20.
Definition CHR2_AOUT_4_VALUE : nat := 21.
Definition CHR2_AOUT_5_VALUE : nat := 22.
Definition CHR2_AOUT_6_VALUE : nat := 23.
Definition STIM_TRAIN_DELAY : nat := 24.
Definition PHOTOMETRY_ON : nat := 25.
Definition PHOT_TOGGLE_DELAY : nat := 26.
Definition CHRIMSON_TRAINS_BEFORE_CHR2 : nat := 27.
Definition CHRIMSON_TRAINS_AFTER_CHR2 : nat := 28.
Definition CHR2_NUM_TRAINS : nat := 29.
Definition _NUM_PARAMS : nat := 30.

(** [setChrimsonLED] and [setChR2LED] read [_params[CHRIMSON_AOUT_VALUE]]
    and [_params[CHR2_AOUT_VALUE]]; the sketch declares neither enumerator
    (only [..._AOUT_1_VALUE] to [..._AOUT_6_VALUE]), so the two indices are
    parameters of the model. *)
Class AoutIndex : Type := {
  CHRIMSON_AOUT_VALUE : nat;
  CHR2_AOUT_VALUE : nat
}.

(** The initial values of [_params]. *)
Definition params_init : list Z :=
  [ 1; 1; 1;
    5; 10; 100;
    5; 5; 35;
    200; 10; 3000;
    100; 200; 400; 800; 1600; 2000;
    100; 200; 400; 800; 1600; 2000;
    1000; 0; 1000;
    2; 2; 1 ].

(** The [bool] globals and function statics. *)
Inductive BoolVar : Type :=
| _BOSS_CHRIMSON_stim_in_progress | _BOSS_CHR2_stim_in_progress
| _UI_CHRIMSON_stim_in_progress | _UI_CHR2_stim_in_progress
| singleTrainMode | inPulse | dingdong
| _hold | _isParamsUpdateStarted | _isParamsUpdateDone
| _ready_for_next_trial | _ready_for_cue | _photometry_LED_enabled
| ladder_delayAfterPhase    (* static delayAfterPhase of opto_ladder_state *)
| dan_delayAfterPhase.      (* static delayAfterPhase of dan_tag_state *)

(** The integer globals and function statics ([int], [long],
    [unsigned long]). *)
Inductive IntVar : Type :=
| _resultCode | _exp_timer | pulseTimer | pulseIndex | currentTrain
| currentAout | ipiTimer | chR2ipiTimer | _photometry_toggle_timer
| ladder_phase | ladder_delayStartTime   (* statics of opto_ladder_state *)
| dan_phase | dan_delayStartTime         (* statics of dan_tag_state *)
| chrimsonidx | chr2idx.                 (* statics of runChR2ChrimsonPulses *)

Scheme Boolean Equality for BoolVar.
Scheme Boolean Equality for IntVar.

Record Ctx : Type := mkCtx {
  _state : State;
  _prevState : State;
  _command : ascii;
  _arguments : Z * Z;
  _argcopy : Z * Z;
  bools : BoolVar -> bool;
  ints : IntVar -> Z;
  chrimsonLadder : list Z;      (* float chrimsonLadder[5] *)
  chr2Ladder : list Z;          (* float chr2Ladder[5] *)
  _params : list Z;             (* float _params[_NUM_PARAMS] *)
  out : list (Effect Z)         (* effects so far, most recent first *)
}.

(** Reading a variable: [inPulse s], [pulseIndex s]. *)
Definition getB (x : BoolVar) (s : Ctx) : bool := bools s x.
Definition getZ (x : IntVar) (s : Ctx) : Z := ints s x.
Coercion getB : BoolVar >-> Funclass.
Coercion getZ : IntVar >-> Funclass.

Definition set__state (v : State) (s : Ctx) : Ctx :=
  mkCtx v (_prevState s) (_command s) (_arguments s) (_argcopy s) (bools s)
    (ints s) (chrimsonLadder s) (chr2Ladder s) (_params s) (out s).
Definition set__prevState (v : State) (s : Ctx) : Ctx :=
  mkCtx (_state s) v (_command s) (_arguments s) (_argcopy s) (bools s)
    (ints s) (chrimsonLadder s) (chr2Ladder s) (_params s) (out s).
Definition set__command (v : ascii) (s : Ctx) : Ctx :=
  mkCtx (_state s) (_prevState s) v (_arguments s) (_argcopy s) (bools s)
    (ints s) (chrimsonLadder s) (chr2Ladder s) (_params s) (out s).
Definition set__arguments (v : Z * Z) (s : Ctx) : Ctx :=
  mkCtx (_state s) (_prevState s) (_command s) v (_argcopy s) (bools s)
    (ints s) (chrimsonLadder s) (chr2Ladder s) (_params s) (out s).
Definition set__argcopy (v : Z * Z) (s : Ctx) : Ctx :=
  mkCtx (_state s) (_prevState s) (_command s) (_arguments s) v (bools s)
    (ints s) (chrimsonLadder s) (chr2Ladder s) (_params s) (out s).
Definition setB (x : BoolVar) (v : bool) (s : Ctx) : Ctx :=
  mkCtx (_state s) (_prevState s) (_command s) (_arguments s) (_argcopy s)
    (fun y => if BoolVar_beq x y then v else bools s y)
    (ints s) (chrimsonLadder s) (chr2Ladder s) (_params s) (out s).
Definition setZ (x : IntVar) (v : Z) (s : Ctx) : Ctx :=
  mkCtx (_state s) (_prevState s) (_command s) (_arguments s) (_argcopy s)
    (bools s) (fun y => if IntVar_beq x y then v else ints s y)
    (chrimsonLadder s) (chr2Ladder s) (_params s) (out s).
Definition set_chrimsonLadder (v : list Z) (s : Ctx) : Ctx :=
  mkCtx (_state s) (_prevState s) (_command s) (_arguments s) (_argcopy s)
    (bools s) (ints s) v (chr2Ladder s) (_params s) (out s).
Definition set_chr2Ladder (v : list Z) (s : Ctx) : Ctx :=
  mkCtx (_state s) (_prevState s) (_command s) (_arguments s) (_argcopy s)
    (bools s) (ints s) (chrimsonLadder s) v (_params s) (out s).
Definition set__params (v : list Z) (s : Ctx) : Ctx :=
  mkCtx (_state s) (_prevState s) (_command s) (_arguments s) (_argcopy s)
    (bools s) (ints s) (chrimsonLadder s) (chr2Ladder s) v (out s).
Definition set_out (v : list (Effect Z)) (s : Ctx) : Ctx :=
  mkCtx (_state s) (_prevState s) (_command s) (_arguments s) (_argcopy s)
    (bools s) (ints s) (chrimsonLadder s) (chr2Ladder s) (_params s) v.

(** The globals as their initialisers leave them. *)
Definition boot : Ctx :=
  mkCtx _INIT _INIT " "%char (0, 0) (0, 0)
    (fun x => match x with
              | _isParamsUpdateDone | _ready_for_next_trial | _ready_for_cue
              | _photometry_LED_enabled => true
              | _ => false
              end)
    (fun x => match x with _resultCode => -1 | _ => 0 end)
    [0; 0; 0; 0; 0] [0; 0; 0; 0; 0] params_init [].

(** *** Outputs *)

Definition emit (e : Effect Z) (s : Ctx) : Ctx := set_out (e :: out s) s.
Definition digitalWrite (p : Pin) (high : bool) : Ctx -> Ctx :=
  emit (DigitalWrite p high).
Definition analogWrite (p : Pin) (v : Z) : Ctx -> Ctx :=
  emit (AnalogWrite p v).
Definition sendMessage (m : Message Z) : Ctx -> Ctx :=
  emit (SendMessage m).

(** [_params[p]] for an enumerator [p]. *)
Definition param (p : nat) (s : Ctx) : Z := default 0 (_params s !! p).

(** [if (_params[_DEBUG]) sendMessage(...)]. *)
Definition debug (txt : string) (vals : list Z) (s : Ctx) : Ctx :=
  if param _DEBUG s =? 0 then s else sendMessage (MsgText txt vals) s.

(** [_params[id] = v] for an index that comes from the host. *)
Definition store_param (id v : Z) (s : Ctx) : Res Ctx :=
  if (0 <=? id) && (id <? Z.of_nat _NUM_PARAMS)
  then Ok (set__params (<[Z.to_nat id := v]> (_params s)) s)
  else OutOfBounds.

Definition signedMillis (i : Input) : Z := now i.
Definition millis (i : Input) : Z := now i.

Section Firmware.
Context `{AoutIndex}.

(** *** Hardware controls *)

Definition setChrimsonLED (turnOn : bool) (s : Ctx) : Ctx :=
  if turnOn
  then s |> analogWrite PIN_CHRIMSON_PWR (param CHRIMSON_AOUT_VALUE s)
         |> digitalWrite PIN_CHRIMSON_STIM true
  else s |> analogWrite PIN_CHRIMSON_PWR 0
         |> digitalWrite PIN_CHRIMSON_STIM false.

Definition setChR2LED (turnOn : bool) (s : Ctx) : Ctx :=
  if turnOn
  then s |> analogWrite PIN_CHR2_PWR (param CHR2_AOUT_VALUE s)
         |> digitalWrite PIN_CHR2_STIM true
  else s |> analogWrite PIN_CHR2_PWR 0
         |> digitalWrite PIN_CHR2_STIM false.

Definition setChrimsonReceipt (turnOn : bool) : Ctx -> Ctx :=
  digitalWrite PIN_CHRIMSON_RECEIPT turnOn.

Definition setChR2Receipt (turnOn : bool) : Ctx -> Ctx :=
  digitalWrite PIN_CHR2_RECEIPT turnOn.

Definition setAnalogOutput (channel value : Z) (s : Ctx) : Ctx :=
  if channel =? 1 then analogWrite PIN_CHRIMSON_PWR value s
  else if channel =? 2 then analogWrite PIN_CHR2_PWR value s
  else s.

Definition handleAnalogOutput (s : Ctx) : Ctx :=
  if Ascii.eqb (_command s) "A"
  then setAnalogOutput (fst (_arguments s)) (snd (_arguments s)) s
  else s.

Definition setPhotometryLED (i : Input) (turnOn isParamChange : bool)
    (s : Ctx) : Ctx :=
  if isParamChange
     && (signedMillis i - _photometry_toggle_timer s <? param PHOT_TOGGLE_DELAY s)
  then s
  else if turnOn
  then s |> digitalWrite PIN_PHOTOMETRY_LED true
         |> setB _photometry_LED_enabled true
  else s |> digitalWrite PIN_PHOTOMETRY_LED false
         |> setB _photometry_LED_enabled false.

Definition checkPhotometryLED (i : Input) (s : Ctx) : Ctx :=
  if Ascii.eqb (_command s) "Y" then
    let s := debug "Received command to toggle LEDs. Attempting to toggle params." [] s in
    let s :=
      if param PHOTOMETRY_ON s =? 1 then
        let s := set__params (<[PHOTOMETRY_ON := 0]> (_params s)) s in
        debug "New PHOTOMETRY_ON should be 0. It is =" [param PHOTOMETRY_ON s] s
      else
        let s := set__params (<[PHOTOMETRY_ON := 1]> (_params s)) s in
        debug "New PHOTOMETRY_ON should be 1. It is =" [param PHOTOMETRY_ON s] s in
    let s := sendMessage
               (MsgParam PHOTOMETRY_ON (param PHOTOMETRY_ON s)) s in
    debug "Parameter changed to" [Z.of_nat PHOTOMETRY_ON; param PHOTOMETRY_ON s] s
  else setPhotometryLED i (param PHOTOMETRY_ON s =? 1) true s.

(** *** Stimulation functions *)

Definition runChrimsonTrain (i : Input) (s : Ctx) : Ctx :=
  (* === Start pulse === *)
  let s :=
    if negb (inPulse s)
       && (pulseIndex s <? param CHRIMSON_NUM_PULSES s)
       && (param CHRIMSON_IPI s <=? elapsed (millis i) (ipiTimer s))
    then s |> setChrimsonLED true
           |> setZ pulseTimer (millis i)
           |> setB inPulse true
           |> debug "Chrimson Pulse ON" [pulseIndex s + 1]
    else s in
  (* === End pulse === *)
  let s :=
    if inPulse s
       && (param CHRIMSON_PULSE_WIDTH s <=? elapsed (millis i) (pulseTimer s))
    then s |> setChrimsonLED false
           |> setB inPulse false
           |> setZ ipiTimer (millis i)
           |> debug "Chrimson Pulse OFF" [pulseIndex s + 1]
           |> setZ pulseIndex (pulseIndex s + 1)
    else s in
  (* === Train complete === *)
  if param CHRIMSON_NUM_PULSES s <=? pulseIndex s then
    let s := setZ pulseIndex 0 s in
    let s := setZ currentTrain (currentTrain s + 1) s in
    let s := setZ currentAout (constrain (currentTrain s) 0 4) s in
    let s := debug "Completed Chrimson Train" [currentTrain s] s in
    let s := debug "Exiting Chrimson Stim State." [] s in
    if singleTrainMode s then
      let s :=
        if _UI_CHRIMSON_stim_in_progress s
           && negb (_BOSS_CHRIMSON_stim_in_progress s)
        then setZ _resultCode CODE_UI_CHRIMSON s
        else if _BOSS_CHRIMSON_stim_in_progress s
                && negb (_UI_CHRIMSON_stim_in_progress s)
        then setZ _resultCode CODE_CHRIMSON s
        else s |> setZ _resultCode CODE_CHRIMSON
               |> sendMessage (MsgText "WARNING: Ambiguous stim source - defaulting to CHRIMSON" []) in
      s |> sendMessage (MsgResult (_resultCode s))
        |> setB _UI_CHRIMSON_stim_in_progress false
        |> setB _BOSS_CHRIMSON_stim_in_progress false
        |> setZ _resultCode (-1)
        |> set__state WAIT_REQUEST_STATE
        |> setB singleTrainMode false
    else s
  else s.

Definition runChR2Train (i : Input) (s : Ctx) : Ctx :=
  (* === Start pulse === *)
  let s :=
    if negb (inPulse s)
       && (pulseIndex s <? param CHR2_NUM_PULSES s)
       && (param CHR2_IPI s <=? elapsed (millis i) (chR2ipiTimer s))
    then s |> setChR2LED true
           |> setZ pulseTimer (millis i)
           |> setB inPulse true
           |> debug "ChR2 Pulse ON" [pulseIndex s + 1]
    else s in
  (* === End pulse === *)
  let s :=
    if inPulse s
       && (param CHR2_PULSE_WIDTH s <=? elapsed (millis i) (pulseTimer s))
    then s |> setChR2LED false
           |> setB inPulse false
           |> setZ chR2ipiTimer (millis i)
           |> debug "ChR2 Pulse OFF" [pulseIndex s + 1]
           |> setZ pulseIndex (pulseIndex s + 1)
    else s in
  (* === Train complete === *)
  if param CHR2_NUM_PULSES s <=? pulseIndex s then
    let s := setZ pulseIndex 0 s in
    let s := setZ currentTrain (currentTrain s + 1) s in
    let s := debug "Completed ChR2 Train" [currentTrain s] s in
    if singleTrainMode s then
      let s :=
        if _UI_CHR2_stim_in_progress s && negb (_BOSS_CHR2_stim_in_progress s)
        then setZ _resultCode CODE_UI_CHR2 s
        else if _BOSS_CHR2_stim_in_progress s
                && negb (_UI_CHR2_stim_in_progress s)
        then setZ _resultCode CODE_CHR2 s
        else s |> setZ _resultCode CODE_CHR2
               |> sendMessage (MsgText "WARNING: Ambiguous ChR2 stim source - defaulting to CHR2" []) in
      s |> sendMessage (MsgResult (_resultCode s))
        |> setB _UI_CHR2_stim_in_progress false
        |> setB _BOSS_CHR2_stim_in_progress false
        |> setZ _resultCode (-1)
        |> set__state WAIT_REQUEST_STATE
        |> setB singleTrainMode false
    else s
  else s.

Definition stimulateChrimson (s : Ctx) : Ctx :=
  s |> setZ currentTrain 0
    |> setZ pulseIndex 0
    |> setB inPulse false
    |> setZ currentAout 0
    |> setB singleTrainMode true
    |> debug "Starting CHRIMSON stimulation." [].

Definition stimulateChR2 (s : Ctx) : Ctx :=
  s |> setZ currentTrain 0
    |> setZ pulseIndex 0
    |> setB inPulse false
    |> setB singleTrainMode true
    |> debug "Starting CHR2 stimulation." [].

(** [resetTrain] is defined in the sketch and called nowhere. *)
Definition resetTrain (i : Input) (s : Ctx) : Ctx :=
  s |> setZ pulseIndex 0
    |> setZ currentTrain 0
    |> setZ currentAout 0
    |> setB inPulse false
    |> setZ pulseTimer (millis i).

(** [runChR2ChrimsonPulses], the engine of the dual-channel tagging
    program. *)
Definition runChR2ChrimsonPulses (i : Input) (s : Ctx) : Res Ctx :=
  let s := if 6 <=? chrimsonidx s then setZ chrimsonidx 0 s else s in
  let s := if 6 <=? chr2idx s then setZ chr2idx 0 s else s in
  (* === Start pulse === *)
  bind
    (if negb (inPulse s)
        && (pulseIndex s <? param CHRIMSON_CHR2_NUM_PULSES s)
        && (param CHRIMSON_CHR2_IPI s <=? elapsed (millis i) (ipiTimer s))
     then
       bind
         (if dingdong s then
            (* chrimsonLadder[chrimsonidx] of a float[5] *)
            match chrimsonLadder s !! Z.to_nat (chrimsonidx s) with
            | Some v =>
                Ok (s |> setAnalogOutput 1 v
                      |> setZ chrimsonidx (chrimsonidx s + 1)
                      |> setB dingdong false)
            | None => OutOfBounds
            end
          else
            match chr2Ladder s !! Z.to_nat (chr2idx s) with
            | Some v =>
                Ok (s |> setAnalogOutput 2 v
                      |> setZ chr2idx (chr2idx s + 1)
                      |> setB dingdong true)
            | None => OutOfBounds
            end)
         (fun s' =>
            Ok (s' |> setZ pulseTimer (millis i)
                   |> setB inPulse true
                   |> debug "Chrimson/ChR2 Pulse ON" [pulseIndex s' + 1]))
     else Ok s)
    (fun s =>
       (* === End pulse === *)
       let s :=
         if inPulse s
            && (param CHRIMSON_CHR2_PULSE_WIDTH s <=? elapsed (millis i) (pulseTimer s))
         then s |> setChrimsonLED false
                |> setChR2LED false
                |> setB inPulse false
                |> setZ ipiTimer (millis i)
                |> debug "Chrimson/ChR2 Pulse OFF" [pulseIndex s + 1]
                |> setZ pulseIndex (pulseIndex s + 1)
         else s in
       (* === Train complete === *)
       if param CHRIMSON_CHR2_NUM_PULSES s <=? pulseIndex s then
         let s := setZ pulseIndex 0 s in
         let s := setZ currentAout (constrain (currentTrain s) 0 4) s in
         let s := debug "Completed Chrimson ChR2 pulses" [] s in
         let s := debug "Exiting Chrimson ChR2 Stim State." [] s in
         if singleTrainMode s then
           let s :=
             if _UI_CHRIMSON_stim_in_progress s
                && negb (_BOSS_CHRIMSON_stim_in_progress s)
             then setZ _resultCode CODE_UI_CHRIMSON s
             else if _BOSS_CHRIMSON_stim_in_progress s
                     && negb (_UI_CHRIMSON_stim_in_progress s)
             then setZ _resultCode CODE_CHRIMSON s
             else s |> setZ _resultCode CODE_CHRIMSON
                    |> sendMessage (MsgText "WARNING: Ambiguous stim source - defaulting to CHRIMSON" []) in
           Ok (s |> sendMessage (MsgResult (_resultCode s))
                 |> setB _UI_CHRIMSON_stim_in_progress false
                 |> setB _BOSS_CHRIMSON_stim_in_progress false
                 |> setZ _resultCode (-1)
                 |> set__state WAIT_REQUEST_STATE
                 |> setB singleTrainMode false)
         else Ok s
       else Ok s).

(** *** Transition checks *)

Definition checkQuit (s : Ctx) : bool * Ctx :=
  if Ascii.eqb (_command s) "Q"
  then (true, set__state IDLE_STATE s)
  else (false, s).

Definition checkTrialStart (i : Input) (s : Ctx) : Ctx :=
  if _ready_for_next_trial s && negb (digitalRead i PIN_TRIAL_INIT) then
    s |> setB _ready_for_next_trial false
      |> setB _ready_for_cue true
      |> sendMessage (MsgEvent EVENT_TRIAL_INIT (signedMillis i - _exp_timer s))
  else if negb (_ready_for_next_trial s) && digitalRead i PIN_TRIAL_INIT then
    setB _ready_for_next_trial true s
  else s.

Definition checkReferenceEvent (i : Input) (s : Ctx) : Ctx :=
  if _ready_for_cue s && digitalRead i PIN_CUE_ON then
    s |> sendMessage (MsgEvent EVENT_CUE_ON (signedMillis i - _exp_timer s))
      |> setB _ready_for_cue false
  else s.

(** [checkWarnings] is defined in the sketch and called nowhere. *)
Definition checkWarnings (i : Input) (s : Ctx) : Ctx :=
  if _BOSS_CHRIMSON_stim_in_progress s || _UI_CHRIMSON_stim_in_progress s then
    s |> sendMessage (MsgText "WARNING: Updated params during ongoing Chrimson stimulation" [])
      |> sendMessage (MsgEvent EVENT_CHRIMSON_ERROR (signedMillis i - _exp_timer s))
  else s.

Definition checkParamUpdate (s : Ctx) : Res (bool * Ctx) :=
  if Ascii.eqb (_command s) "P" then
    let s := set__argcopy (fst (_arguments s), snd (_arguments s)) s in
    let s := setB _isParamsUpdateStarted true s in
    let s := setB _isParamsUpdateDone false s in
    bind (store_param (fst (_arguments s)) (snd (_arguments s)) s) (fun s =>
    let s := set__state UPDATE_PARAMS_STATE s in
    let s := debug "Parameter changed to" [fst (_arguments s); snd (_arguments s)] s in
    Ok (true, s))
  else Ok (false, s).

Definition checkUpdateComplete (s : Ctx) : bool * Ctx :=
  if Ascii.eqb (_command s) "O" then
    let s := setB _isParamsUpdateStarted false s in
    let s := setB _isParamsUpdateDone true s in
    let s := set__state (_prevState s) s in
    let s := setB _hold false s in
    let s := debug "Parameter update complete." [] s in
    (true, s)
  else (false, s).

Definition checkChrimsonRequest (i : Input) (s : Ctx) : bool * Ctx :=
  if digitalRead i PIN_CHRIMSON_TRIGGER then
    let s := debug "Received CHRIMSON request from BOSS arduino. Sending receipt." [] s in
    let s := sendMessage (MsgEvent EVENT_BOSS_CHRIMSON_REQUEST
                            (signedMillis i - _exp_timer s)) s in
    let s := setB _UI_CHRIMSON_stim_in_progress false s in
    let s := setB _BOSS_CHRIMSON_stim_in_progress true s in
    let s := stimulateChrimson s in
    let s := set__state CHRIMSON_STIM_STATE s in
    let s := setChrimsonReceipt true s in
    (true, s)
  else if Ascii.eqb (_command s) "C" then
    let s := debug "Received CHRIMSON request from HOST. Sending receipt to BOSS." [] s in
    let s := sendMessage (MsgEvent EVENT_UI_CHRIMSON_REQUEST
                            (signedMillis i - _exp_timer s)) s in
    let s := setB _UI_CHRIMSON_stim_in_progress true s in
    let s := setB _BOSS_CHRIMSON_stim_in_progress false s in
    let s := stimulateChrimson s in
    let s := sendMessage (MsgText "R" []) s in
    let s := debug "Killed HOST request with R message." [] s in
    let s := set__command " " s in
    let s := set__state CHRIMSON_STIM_STATE s in
    let s := setChrimsonReceipt true s in
    (true, s)
  else (false, s).

Definition checkChr2Request (i : Input) (s : Ctx) : bool * Ctx :=
  if Ascii.eqb (_command s) "D" then
    let s := debug "Received CHR2 request from HOST. Sending receipt to BOSS." [] s in
    let s := sendMessage (MsgEvent EVENT_UI_CHR2_REQUEST
                            (signedMillis i - _exp_timer s)) s in
    let s := setB _UI_CHR2_stim_in_progress true s in
    let s := setB _BOSS_CHR2_stim_in_progress false s in
    let s := setChR2Receipt true s in
    let s := stimulateChR2 s in
    let s := sendMessage (MsgText "R" []) s in
    let s := debug "Killed HOST request with R message." [] s in
    let s := set__command " " s in
    let s := set__state CHR2_STIM_STATE s in
    (true, s)
  else (false, s).

Definition checkStimChrimson (i : Input) (s : Ctx) : Ctx :=
  let s := runChrimsonTrain i s in
  if 1 <=? currentTrain s then
    s |> setZ currentTrain 0
      |> setZ pulseIndex 0
      |> set__state WAIT_REQUEST_STATE
  else s.

Definition checkStimChR2 (i : Input) (s : Ctx) : Ctx :=
  let s := runChR2Train i s in
  if 1 <=? currentTrain s then
    s |> setZ currentTrain 0
      |> setZ pulseIndex 0
      |> set__state WAIT_REQUEST_STATE
  else s.

(** *** State functions *)

Definition idle_state (i : Input) (s : Ctx) : Res Ctx :=
  let s :=
    if State_beq (_state s) (_prevState s) then s else
      let s := sendMessage (MsgText "-" []) s in
      let s := sendMessage (MsgText "Optogenetics_Controller4" []) s in
      let s := sendMessage (MsgText "Version Code: PULSE_MODE_MAY_2025" []) s in
      let s := set__prevState (_state s) s in
      let s := sendMessage (MsgState (state_num (_state s))) s in
      let s := setChrimsonReceipt false s in
      let s := setChR2Receipt false s in
      let s := setAnalogOutput 1 0 s in
      let s := setAnalogOutput 2 0 s in
      let s := setChrimsonLED false s in
      let s := setChR2LED false s in
      let s := setZ _resultCode (-1) s in
      debug "Idle." [] s in
  if Ascii.eqb (_command s) "G" then Ok (set__state INIT_EXP s)
  else if Ascii.eqb (_command s) "C" then Ok (set__state CHRIMSON_STIM_STATE s)
  else if Ascii.eqb (_command s) "D" then Ok (set__state CHR2_STIM_STATE s)
  else if Ascii.eqb (_command s) "L" then Ok (set__state OPTO_LADDER_STATE s)
  else if Ascii.eqb (_command s) "M" then Ok (set__state DAN_TAG_STATE s)
  else
    let s := checkPhotometryLED i s in
    bind (checkParamUpdate s) (fun '(updating, s) =>
    if updating then Ok s else Ok (set__state IDLE_STATE s)).

Definition init_exp (i : Input) (s : Ctx) : Ctx :=
  if State_beq (_state s) (_prevState s) then s else
    let s := setZ _exp_timer (signedMillis i) s in
    let s := sendMessage (MsgEvent EVENT_EXP_INIT (signedMillis i - _exp_timer s)) s in
    let s := set__prevState (_state s) s in
    let s := sendMessage (MsgState (state_num (_state s))) s in
    let s := debug "Experiment Started." [] s in
    set__state WAIT_REQUEST_STATE s.

Definition wait_request_state (i : Input) (s : Ctx) : Res Ctx :=
  let s :=
    if State_beq (_state s) (_prevState s) then s else
      let s := set__prevState (_state s) s in
      let s := sendMessage (MsgState (state_num (_state s))) s in
      debug "Awaiting command from BOSS arduino." [] s in
  let '(quit, s) := checkQuit s in
  if quit then Ok s else
  let s := checkTrialStart i s in
  let s := checkReferenceEvent i s in
  bind (checkParamUpdate s) (fun '(updating, s) =>
  if updating then Ok s else
  let '(requested, s) := checkChrimsonRequest i s in
  if requested then Ok s else
  let '(requested, s) := checkChr2Request i s in
  if requested then Ok s else
  let s := checkPhotometryLED i s in
  if Ascii.eqb (_command s) "L" then Ok (set__state OPTO_LADDER_STATE s)
  else Ok (set__state WAIT_REQUEST_STATE s)).

Definition Chrimson_stim_state (i : Input) (s : Ctx) : Ctx :=
  let s :=
    if State_beq (_state s) (_prevState s) then s else
      let s := set__prevState (_state s) s in
      let s := sendMessage (MsgState (state_num (_state s))) s in
      debug "Stimulating CHRIMSON and sending receipt to BOSS arduino." [] s in
  let '(quit, s) := checkQuit s in
  if quit then s else
  let s := checkStimChrimson i s in
  let '(requested, s) := checkChrimsonRequest i s in
  if requested then s else
  checkPhotometryLED i s.

Definition Chr2_stim_state (i : Input) (s : Ctx) : Ctx :=
  let s :=
    if State_beq (_state s) (_prevState s) then s else
      let s := set__prevState (_state s) s in
      let s := sendMessage (MsgState (state_num (_state s))) s in
      debug "Stimulating CHR2 and sending receipt to BOSS arduino." [] s in
  let '(quit, s) := checkQuit s in
  if quit then s else
  let s := checkStimChR2 i s in
  let '(requested, s) := checkChr2Request i s in
  if requested then s else
  checkPhotometryLED i s.

Definition update_params_state (s : Ctx) : Res Ctx :=
  bind
    (if _hold s then Ok s else
       let s := sendMessage (MsgState (state_num (_state s))) s in
       let s := setB _hold true s in
       let id := fst (_argcopy s) in
       let value := snd (_argcopy s) in
       bind (store_param id value s) (fun s =>
       Ok (debug "Parameter updated to" [id; value] s)))
    (fun s =>
       let s :=
         if Ascii.eqb (_command s) "O" then
           let s := setB _isParamsUpdateStarted false s in
           let s := setB _isParamsUpdateDone true s in
           let s := set__state (_prevState s) s in
           let s := setB _hold false s in
           debug "Parameter update complete." [] s
         else s in
       let '(quit, s) := checkQuit s in
       if quit then Ok s else
       let '(complete, s) := checkUpdateComplete s in
       if complete then Ok s else
       Ok (set__state UPDATE_PARAMS_STATE s)).

Definition opto_ladder_state (i : Input) (s : Ctx) : Ctx :=
  let s :=
    if State_beq (_state s) (_prevState s) then s else
      let s := set__prevState (_state s) s in
      let s := sendMessage (MsgState (state_num (_state s))) s in
      let s := setZ pulseIndex 0 s in
      let s := setZ currentTrain 0 s in
      let s := setZ currentAout 0 s in
      let s := setB inPulse false s in
      let s := setZ ladder_phase 0 s in
      let s := setB ladder_delayAfterPhase false s in
      let s := set_chrimsonLadder
                 [ param CHRIMSON_AOUT_1_VALUE s; param CHRIMSON_AOUT_2_VALUE s;
                   param CHRIMSON_AOUT_3_VALUE s; param CHRIMSON_AOUT_4_VALUE s;
                   param CHRIMSON_AOUT_5_VALUE s ] s in
      debug "Performing OptoLadder Experiment." [] s in
  if ladder_phase s =? 0 then
    if currentTrain s <? param CHRIMSON_TRAINS_BEFORE_CHR2 s then
      runChrimsonTrain i s
    else if negb (ladder_delayAfterPhase s) then
      s |> setZ ladder_delayStartTime (millis i)
        |> setB ladder_delayAfterPhase true
        |> debug "Phase 0 complete. Delay before Phase 1." []
    else if param STIM_TRAIN_DELAY s <=? elapsed (millis i) (ladder_delayStartTime s) then
      s |> setZ ladder_phase (ladder_phase s + 1)
        |> setZ currentTrain 0
        |> setZ pulseIndex 0
        |> setB ladder_delayAfterPhase false
    else s
  else if ladder_phase s =? 1 then
    if currentTrain s <? param CHR2_NUM_TRAINS s then
      runChR2Train i s
    else if negb (ladder_delayAfterPhase s) then
      s |> setZ ladder_delayStartTime (millis i)
        |> setB ladder_delayAfterPhase true
        |> debug "Phase 1 complete. Delay before Phase 2." []
    else if param STIM_TRAIN_DELAY s <=? elapsed (millis i) (ladder_delayStartTime s) then
      s |> setZ ladder_phase (ladder_phase s + 1)
        |> setZ currentTrain 0
        |> setZ pulseIndex 0
        |> setB ladder_delayAfterPhase false
    else s
  else if ladder_phase s =? 2 then
    if currentTrain s <? param CHRIMSON_TRAINS_AFTER_CHR2 s then
      runChrimsonTrain i s
    else
      let s := sendMessage (MsgText "R" []) s in
      let s := debug "Optotagging complete." [] s in
      let s := set__state WAIT_REQUEST_STATE s in
      let s := setZ _resultCode CODE_OPTOTAG s in
      let s := sendMessage (MsgResult (_resultCode s)) s in
      debug "Moving to WAIT_REQUEST_STATE" [] s
  else s.

(** [a[idx] = v] for a [float a[5]]. *)
Definition store_float5 (idx : nat) (v : Z) (a : list Z) : Res (list Z) :=
  if (idx <? 5)%nat then Ok (<[idx := v]> a) else OutOfBounds.

Definition dan_tag_state (i : Input) (s : Ctx) : Res Ctx :=
  bind
    (if State_beq (_state s) (_prevState s) then Ok s else
       let s := set__prevState (_state s) s in
       let s := sendMessage (MsgState (state_num (_state s))) s in
       let s := setZ pulseIndex 0 s in
       let s := setZ currentAout 0 s in
       let s := setB inPulse false s in
       let s := setZ dan_phase 0 s in
       let s := setB dan_delayAfterPhase false s in
       bind (store_float5 0 (param CHRIMSON_AOUT_1_VALUE s) (chrimsonLadder s)) (fun a =>
       bind (store_float5 1 (param CHRIMSON_AOUT_2_VALUE s) a) (fun a =>
       bind (store_float5 2 (param CHRIMSON_AOUT_3_VALUE s) a) (fun a =>
       bind (store_float5 3 (param CHRIMSON_AOUT_4_VALUE s) a) (fun a =>
       bind (store_float5 4 (param CHRIMSON_AOUT_5_VALUE s) a) (fun a =>
       bind (store_float5 5 (param CHRIMSON_AOUT_6_VALUE s) a) (fun a =>
       let s := set_chrimsonLadder a s in
       bind (store_float5 0 (param CHR2_AOUT_1_VALUE s) (chr2Ladder s)) (fun b =>
       bind (store_float5 1 (param CHR2_AOUT_2_VALUE s) b) (fun b =>
       bind (store_float5 2 (param CHR2_AOUT_3_VALUE s) b) (fun b =>
       bind (store_float5 3 (param CHR2_AOUT_4_VALUE s) b) (fun b =>
       bind (store_float5 4 (param CHR2_AOUT_5_VALUE s) b) (fun b =>
       bind (store_float5 5 (param CHR2_AOUT_6_VALUE s) b) (fun b =>
       let s := set_chr2Ladder b s in
       Ok (debug "Performing opto tagging dan params Experiment." [] s))))))))))))))
    (fun s =>
       if pulseIndex s <? param CHRIMSON_CHR2_NUM_PULSES s then
         runChR2ChrimsonPulses i s
       else if negb (dan_delayAfterPhase s) then
         Ok (s |> setZ dan_delayStartTime (millis i)
               |> setB dan_delayAfterPhase true
               |> debug "Phase 1 complete. Delay before Phase 2." [])
       else if param STIM_TRAIN_DELAY s <=? elapsed (millis i) (dan_delayStartTime s) then
         Ok (s |> setZ dan_phase (dan_phase s + 1)
               |> setZ pulseIndex 0
               |> setB dan_delayAfterPhase false)
       else Ok s).

(** *** The main loop *)

(** [mySetup], run each time [loop()] is entered. *)
Definition mySetup (s : Ctx) : Ctx :=
  let s := setChrimsonLED false s in
  let s := setChrimsonReceipt false s in
  let s := setChR2LED false s in
  let s := setChR2Receipt false s in
  let s := set__state _INIT s in
  let s := set__prevState _INIT s in
  let s := set__command " " s in
  let s := set__arguments (0, 0) s in
  let s := setZ _resultCode (-1) s in
  let s := setZ _exp_timer 0 s in
  let s := setZ _photometry_toggle_timer 0 s in
  let s := debug "Initial CHRIMSON pulse width, IPI"
             [param CHRIMSON_PULSE_WIDTH s; param CHRIMSON_IPI s] s in
  let s := setB _photometry_LED_enabled true s in
  let s := setB _BOSS_CHRIMSON_stim_in_progress false s in
  let s := setB _UI_CHRIMSON_stim_in_progress false s in
  let s := setB _hold false s in
  let s := setB _isParamsUpdateStarted false s in
  let s := setB _isParamsUpdateDone true s in
  let s := setB _ready_for_next_trial true s in
  let s := setB _ready_for_cue true s in
  sendMessage MsgHostInit s.

(** One iteration of the [while (true)] loop.  The command ['R'] breaks
    out of it; [loop()] returns, is entered again and runs [mySetup]. *)
Definition loop_body (i : Input) (s : Ctx) : Res Ctx :=
  let s := set__command (command i) s in
  let s := set__arguments (args i) s in
  if Ascii.eqb (_command s) "R" then Ok (mySetup s) else
  let s := handleAnalogOutput s in
  match _state s with
  | _INIT => idle_state i s
  | IDLE_STATE => idle_state i s
  | INIT_EXP => Ok (init_exp i s)
  | WAIT_REQUEST_STATE => wait_request_state i s
  | CHRIMSON_STIM_STATE => Ok (Chrimson_stim_state i s)
  | CHR2_STIM_STATE => Ok (Chr2_stim_state i s)
  | OPTO_LADDER_STATE => Ok (opto_ladder_state i s)
  | DAN_TAG_STATE => dan_tag_state i s
  | UPDATE_PARAMS_STATE => update_params_state s
  end.

(** The iterations of the loop over a list of inputs. *)
Fixpoint run (inputs : list Input) (s : Ctx) : Res Ctx :=
  match inputs with
  | [] => Ok s
  | i :: rest => bind (loop_body i s) (run rest)
  end.

End Firmware.

End Svedberg.

(** ** The NH variant (duty-cycle mode) *)

Module NH.

Inductive State : Type :=
| _INIT | IDLE_STATE | INIT_EXP | WAIT_REQUEST_STATE | CHRIMSON_STIM_STATE
| CHR2_STIM_STATE | OPTO_LADDER_STATE | UPDATE_PARAMS_STATE.

Scheme Boolean Equality for State.

Definition state_num (st : State) : Z :=
  match st with
  | _INIT => 0 | IDLE_STATE => 1 | INIT_EXP => 2 | WAIT_REQUEST_STATE => 3
  | CHRIMSON_STIM_STATE => 4 | CHR2_STIM_STATE => 5 | OPTO_LADDER_STATE => 6
  | UPDATE_PARAMS_STATE => 7
  end.

(** [enum EventMarkers], the markers the modelled functions send. *)
Definition EVENT_EXP_INIT : Z := 0.
Definition EVENT_TRIAL_INIT : Z := 1.
Definition EVENT_CUE_ON : Z := 2.
Definition EVENT_BOSS_CHRIMSON_REQUEST : Z := 3.
Definition EVENT_BOSS_CHRIMSON_STIM_BEGIN : Z := 4.
Definition EVENT_BOSS_CHRIMSON_STIM_END : Z := 5.
Definition EVENT_BOSS_CHR2_STIM_END : Z := 8.
Definition EVENT_UI_CHRIMSON_REQUEST : Z := 9.
Definition EVENT_UI_CHRIMSON_STIM_BEGIN : Z := 10.
Definition EVENT_UI_CHRIMSON_STIM_END : Z := 11.
Definition EVENT_CHRIMSON_ERROR : Z := 12.
Definition EVENT_UI_CHR2_REQUEST : Z := 13.
Definition EVENT_UI_CHR2_STIM_BEGIN : Z := 14.
Definition EVENT_UI_CHR2_STIM_END : Z := 15.

(** [enum ResultCode]. *)
Definition CODE_CHRIMSON : Z := 0.
Definition CODE_CHR2 : Z := 1.
Definition CODE_CHRIMSON_CANCEL : Z := 2.
Definition CODE_CHR2_CANCEL : Z := 3.
Definition CODE_UI_CHRIMSON : Z := 4.
Definition CODE_UI_CHR2 : Z := 5.
Definition CODE_OPTOTAG : Z := 6.

(** [enum ParamID]: indices into [_params]. *)
Definition _DEBUG : nat := 0.
Definition OPTO_ENABLED : nat := 1.
Definition CANCEL_ENABLED : nat := 2.
Definition CHRIMSON_FREQUENCY : nat := 3.
Definition CHRIMSON_PERIOD : nat := 4.
Definition CHRIMSON_DURATION : nat := 5.
Definition CHRIMSON_DUTY_CYCLE : nat := 6.
Definition CHRIMSON_UP_TIME : nat := 7.
Definition CHRIMSON_DOWN_TIME : nat := 8.
Definition CHR2_FREQUENCY : nat := 9.
Definition CHR2_PERIOD : nat := 10.
Definition CHR2_DURATION : nat := 11.
Definition CHR2_DUTY_CYCLE : nat := 12.
Definition CHR2_UP_TIME : nat := 13.
Definition CHR2_DOWN_TIME : nat := 14.
Definition UI_CHRIMSON_FREQUENCY : nat := 15.
Definition UI_CHRIMSON_PERIOD : nat := 16.
Definition UI_CHRIMSON_DURATION : nat := 17.
Definition UI_CHRIMSON_DUTY_CYCLE : nat := 18.
Definition UI_CHRIMSON_UP_TIME : nat := 19.
Definition UI_CHRIMSON_DOWN_TIME : nat := 20.
Definition UI_CHR2_FREQUENCY : nat := 21.
Definition UI_CHR2_PERIOD : nat := 22.
Definition UI_CHR2_DURATION : nat := 23.
Definition UI_CHR2_DUTY_CYCLE : nat := 24.
Definition UI_CHR2_UP_TIME : nat := 25.
Definition UI_CHR2_DOWN_TIME : nat := 26.
Definition CHRIMSON_AOUT_1_VALUE : nat := 27.
Definition CHRIMSON_AOUT_2_VALUE : nat := 28.
Definition CHRIMSON_AOUT_3_VALUE : nat := 29.
Definition CHRIMSON_AOUT_4_VALUE : nat := 30.
Definition CHRIMSON_AOUT_5_VALUE : nat := 31.
Definition CHR2_AOUT_VALUE : nat := 32.
Definition STIM_TRAIN_DELAY : nat := 33.
Definition PHOTOMETRY_ON : nat := 34.
Definition PHOT_TOGGLE_DELAY : nat := 35.
Definition CHRIMSON_TRAINS_BEFORE_CHR2 : nat := 36.
Definition CHRIMSON_TRAINS_AFTER_CHR2 : nat := 37.
Definition CHR2_NUM_TRAINS : nat := 38.
Definition _NUM_PARAMS : nat := 39.

(** The initial values of [_params]. *)
Definition params_init : list Q :=
  [ 1; 0; 1;
    1; 1000; 1000; 50; 500; 500;
    10; 100; 250; 35; 35; 65;
    1; 1000; 1000; 50; 500; 500;
    10; 100; 250; 35; 35; 65;
    0; 0; 0; 0; 0;
    0; 0; 0; 1000;
    0; 0; 0 ]%Q.

Inductive BoolVar : Type :=
| _BOSS_CHRIMSON_stim_in_progress | _BOSS_CHR2_stim_in_progress
| _UI_CHRIMSON_stim_in_progress | _UI_CHR2_stim_in_progress
| _duty_state_CHRIMSON | _duty_state_CHR2
| _hold | _isParamsUpdateStarted | _isParamsUpdateDone
| _ready_for_next_trial | _ready_for_cue | _photometry_LED_enabled
| inPulse.

(** The integer globals, and the statics of [opto_ladder_state] that the
    function uses; these statics have the names of file-scope variables
    and hide them inside the function. *)
Inductive IntVar : Type :=
| _resultCode | _exp_timer
| _time_CHRIMSON_stimulated | _CHRIMSON_refractory_clock | _duty_timer_CHRIMSON
| _time_CHR2_stimulated | _CHR2_refractory_clock | _duty_timer_CHR2
| _photometry_toggle_timer
| stateEntryTime | phase | currentTrain | pulseIndex | lastPulseTime
| chrimsonValueIndex
| ladder_stateEntryTime   (* static stateEntryTime of opto_ladder_state *)
| ladder_phase            (* static phase of opto_ladder_state *)
| ladder_currentTrain.    (* static currentTrain of opto_ladder_state *)

Scheme Boolean Equality for BoolVar.
Scheme Boolean Equality for IntVar.

Record Ctx : Type := mkCtx {
  _state : State;
  _prevState : State;
  _command : ascii;
  _arguments : Z * Z;
  _argcopy : Z * Z;
  bools : BoolVar -> bool;
  ints : IntVar -> Z;
  _params : list Q;             (* float _params[_NUM_PARAMS] *)
  out : list (Effect Q)         (* effects so far, most recent first *)
}.

Definition getB (x : BoolVar) (s : Ctx) : bool := bools s x.
Definition getZ (x : IntVar) (s : Ctx) : Z := ints s x.
Coercion getB : BoolVar >-> Funclass.
Coercion getZ : IntVar >-> Funclass.

Definition set__state (v : State) (s : Ctx) : Ctx :=
  mkCtx v (_prevState s) (_command s) (_arguments s) (_argcopy s) (bools s)
    (ints s) (_params s) (out s).
Definition set__prevState (v : State) (s : Ctx) : Ctx :=
  mkCtx (_state s) v (_command s) (_arguments s) (_argcopy s) (bools s)
    (ints s) (_params s) (out s).
Definition set__command (v : ascii) (s : Ctx) : Ctx :=
  mkCtx (_state s) (_prevState s) v (_arguments s) (_argcopy s) (bools s)
    (ints s) (_params s) (out s).
Definition set__arguments (v : Z * Z) (s : Ctx) : Ctx :=
  mkCtx (_state s) (_prevState s) (_command s) v (_argcopy s) (bools s)
    (ints s) (_params s) (out s).
Definition set__argcopy (v : Z * Z) (s : Ctx) : Ctx :=
  mkCtx (_state s) (_prevState s) (_command s) (_arguments s) v (bools s)
    (ints s) (_params s) (out s).
Definition setB (x : BoolVar) (v : bool) (s : Ctx) : Ctx :=
  mkCtx (_state s) (_prevState s) (_command s) (_arguments s) (_argcopy s)
    (fun y => if BoolVar_beq x y then v else bools s y)
    (ints s) (_params s) (out s).
Definition setZ (x : IntVar) (v : Z) (s : Ctx) : Ctx :=
  mkCtx (_state s) (_prevState s) (_command s) (_arguments s) (_argcopy s)
    (bools s) (fun y => if IntVar_beq x y then v else ints s y)
    (_params s) (out s).
Definition set__params (v : list Q) (s : Ctx) : Ctx :=
  mkCtx (_state s) (_prevState s) (_command s) (_arguments s) (_argcopy s)
    (bools s) (ints s) v (out s).
Definition set_out (v : list (Effect Q)) (s : Ctx) : Ctx :=
  mkCtx (_state s) (_prevState s) (_command s) (_arguments s) (_argcopy s)
    (bools s) (ints s) (_params s) v.

(** The globals as their initialisers leave them. *)
Definition boot : Ctx :=
  mkCtx _INIT _INIT " "%char (0, 0) (0, 0)
    (fun x => match x with
              | _isParamsUpdateDone | _ready_for_next_trial | _ready_for_cue
              | _photometry_LED_enabled => true
              | _ => false
              end)
    (fun x => match x with _resultCode => -1 | _ => 0 end)
    params_init [].

(** *** Outputs *)

Definition emit (e : Effect Q) (s : Ctx) : Ctx := set_out (e :: out s) s.
Definition digitalWrite (p : Pin) (high : bool) : Ctx -> Ctx :=
  emit (DigitalWrite p high).
Definition analogWrite (p : Pin) (v : Q) : Ctx -> Ctx :=
  emit (AnalogWrite p v).
Definition sendMessage (m : Message Q) : Ctx -> Ctx :=
  emit (SendMessage m).
Definition delay (ms : Z) : Ctx -> Ctx :=
  emit (Delay ms).

(** [_params[p]] for an enumerator [p]. *)
Definition param (p : nat) (s : Ctx) : Q := default 0%Q (_params s !! p).

(** [_params[p] = v] for an enumerator [p]. *)
Definition set_param (p : nat) (v : Q) (s : Ctx) : Ctx :=
  set__params (<[p := v]> (_params s)) s.

(** [if (_params[_DEBUG]) sendMessage(...)]. *)
Definition debug (txt : string) (vals : list Q) (s : Ctx) : Ctx :=
  if Qeq_bool (param _DEBUG s) 0 then s else sendMessage (MsgText txt vals) s.

(** [_params[id] = v] for an index that comes from the host. *)
Definition store_param (id v : Z) (s : Ctx) : Res Ctx :=
  if (0 <=? id) && (id <? Z.of_nat _NUM_PARAMS)
  then Ok (set_param (Z.to_nat id) (inject_Z v) s)
  else OutOfBounds.

Definition signedMillis (i : Input) : Z := now i.

(** [d > p] for an integer [d] and a [float] parameter [p]. *)
Definition exceeds (d : Z) (p : Q) : bool := negb (Qle_bool (inject_Z d) p).

(** *** Hardware controls *)

Definition setChrimsonLED (turnOn : bool) (s : Ctx) : Ctx :=
  if turnOn
  then s |> analogWrite PIN_CHRIMSON_PWR (param CHRIMSON_AOUT_1_VALUE s)
         |> digitalWrite PIN_CHRIMSON_STIM true
  else s |> analogWrite PIN_CHRIMSON_PWR 0%Q
         |> digitalWrite PIN_CHRIMSON_STIM false.

Definition setChR2LED (turnOn : bool) (s : Ctx) : Ctx :=
  if turnOn
  then s |> analogWrite PIN_CHR2_PWR (param CHR2_AOUT_VALUE s)
         |> digitalWrite PIN_CHR2_STIM true
  else s |> analogWrite PIN_CHR2_PWR 0%Q
         |> digitalWrite PIN_CHR2_STIM false.

Definition setChrimsonReceipt (turnOn : bool) : Ctx -> Ctx :=
  digitalWrite PIN_CHRIMSON_RECEIPT turnOn.

Definition setChR2Receipt (turnOn : bool) : Ctx -> Ctx :=
  digitalWrite PIN_CHR2_RECEIPT turnOn.

Definition setAnalogOutput (channel value : Z) (s : Ctx) : Ctx :=
  if channel =? 1 then analogWrite PIN_CHRIMSON_PWR (inject_Z value) s
  else if channel =? 2 then analogWrite PIN_CHR2_PWR (inject_Z value) s
  else s.

Definition setPhotometryLED (i : Input) (turnOn isParamChange : bool)
    (s : Ctx) : Ctx :=
  if isParamChange
     && negb (Qle_bool (param PHOT_TOGGLE_DELAY s)
                (inject_Z (signedMillis i - _photometry_toggle_timer s)))
  then s
  else if turnOn
  then s |> digitalWrite PIN_PHOTOMETRY_LED true
         |> setB _photometry_LED_enabled true
  else s |> digitalWrite PIN_PHOTOMETRY_LED false
         |> setB _photometry_LED_enabled false.

Definition checkPhotometryLED (i : Input) (s : Ctx) : Ctx :=
  if Ascii.eqb (_command s) "Y" then
    let s := debug "Received command to toggle LEDs. Attempting to toggle params." [] s in
    let s :=
      if Qeq_bool (param PHOTOMETRY_ON s) 1 then
        let s := set_param PHOTOMETRY_ON 0%Q s in
        debug "New PHOTOMETRY_ON should be 0. It is =" [param PHOTOMETRY_ON s] s
      else
        let s := set_param PHOTOMETRY_ON 1%Q s in
        debug "New PHOTOMETRY_ON should be 1. It is =" [param PHOTOMETRY_ON s] s in
    let s := sendMessage
               (MsgParam PHOTOMETRY_ON (param PHOTOMETRY_ON s)) s in
    debug "Parameter changed to"
      [inject_Z (Z.of_nat PHOTOMETRY_ON); param PHOTOMETRY_ON s] s
  else setPhotometryLED i (Qeq_bool (param PHOTOMETRY_ON s) 1) true s.

(** *** Stimulation functions *)

Definition stimulateChrimson (i : Input) (s : Ctx) : Ctx :=
  let s := setZ _time_CHRIMSON_stimulated (signedMillis i) s in
  let s := setChrimsonLED true s in
  let s := setZ _duty_timer_CHRIMSON (_time_CHRIMSON_stimulated s) s in
  let s := setB _duty_state_CHRIMSON true s in
  debug "Begin Chrimson Lamp ON." [] s.

Definition stimulateChR2 (i : Input) (s : Ctx) : Ctx :=
  let s := setZ _time_CHR2_stimulated (signedMillis i) s in
  let s := setChR2LED true s in
  let s := setZ _duty_timer_CHR2 (_time_CHR2_stimulated s) s in
  let s := setB _duty_state_CHR2 true s in
  debug "Begin CHRIMSON Lamp ON." [] s.

(** [delay(CHRIMSON_PERIOD)] and [delay(CHR2_PERIOD)] below pass the
    enumerators themselves (4 and 10), not the parameters they index. *)
Definition runChrimsonTrain (i : Input) (s : Ctx) : Ctx :=
  let s :=
    if negb (inPulse s) && (pulseIndex s <? 5) then
      let s := setZ _time_CHRIMSON_stimulated (signedMillis i) s in
      let s := setChrimsonLED true s in
      let s := setZ _duty_timer_CHRIMSON (_time_CHRIMSON_stimulated s) s in
      let s := setB _duty_state_CHRIMSON true s in
      let s := setB inPulse true s in
      debug "Begin Chrimson Pulse" [inject_Z (pulseIndex s + 1)] s
    else s in
  if inPulse s then
    if _duty_state_CHRIMSON s
       && exceeds (signedMillis i - _duty_timer_CHRIMSON s) (param CHRIMSON_UP_TIME s)
    then
      s |> analogWrite PIN_CHRIMSON_PWR 0%Q
        |> setB _duty_state_CHRIMSON false
        |> setZ _duty_timer_CHRIMSON (signedMillis i)
    else if negb (_duty_state_CHRIMSON s)
            && exceeds (signedMillis i - _duty_timer_CHRIMSON s) (param CHRIMSON_DOWN_TIME s)
    then
      let s := setZ pulseIndex (pulseIndex s + 1) s in
      if pulseIndex s <? 5 then
        s |> setChrimsonLED true
          |> setB _duty_state_CHRIMSON true
          |> setZ _duty_timer_CHRIMSON (signedMillis i)
          |> debug "Restarting Duty Cycle for Pulse" [inject_Z (pulseIndex s + 1)]
      else
        let s := setChrimsonLED false s in
        let s := setB inPulse false s in
        let s := setZ pulseIndex 0 s in
        let s := setZ currentTrain (currentTrain s + 1) s in
        let s := delay (Z.of_nat CHRIMSON_PERIOD) s in
        debug "Completed Chrimson Train" [inject_Z (currentTrain s)] s
    else s
  else s.

Definition runChR2Train (i : Input) (s : Ctx) : Ctx :=
  let s :=
    if negb (inPulse s) && (pulseIndex s <? 5) then
      let s := setZ _time_CHR2_stimulated (signedMillis i) s in
      let s := analogWrite PIN_CHR2_PWR (param CHR2_AOUT_VALUE s) s in
      let s := setZ _duty_timer_CHR2 (_time_CHR2_stimulated s) s in
      let s := setB _duty_state_CHR2 true s in
      let s := setB inPulse true s in
      debug "Begin ChR2 Pulse" [inject_Z (pulseIndex s + 1)] s
    else s in
  if inPulse s then
    if _duty_state_CHR2 s
       && exceeds (signedMillis i - _duty_timer_CHR2 s) (param CHR2_UP_TIME s)
    then
      s |> analogWrite PIN_CHR2_PWR 0%Q
        |> setB _duty_state_CHR2 false
        |> setZ _duty_timer_CHR2 (signedMillis i)
    else if negb (_duty_state_CHR2 s)
            && exceeds (signedMillis i - _duty_timer_CHR2 s) (param CHR2_DOWN_TIME s)
    then
      let s := setZ pulseIndex (pulseIndex s + 1) s in
      if pulseIndex s <? 5 then
        s |> setChR2LED true
          |> setB _duty_state_CHR2 true
          |> setZ _duty_timer_CHR2 (signedMillis i)
          |> debug "Restarting Duty Cycle for ChR2 Pulse" [inject_Z (pulseIndex s + 1)]
      else
        let s := setChR2LED false s in
        let s := setB inPulse false s in
        let s := setZ pulseIndex 0 s in
        let s := setZ currentTrain (currentTrain s + 1) s in
        let s := delay (Z.of_nat CHR2_PERIOD) s in
        debug "Completed ChR2 Train" [inject_Z (currentTrain s)] s
    else s
  else s.

Definition resetTrain (s : Ctx) : Ctx :=
  s |> setZ pulseIndex 0
    |> setZ currentTrain 0
    |> setZ pulseIndex 0
    |> setZ lastPulseTime 0
    |> setB inPulse false
    |> setZ chrimsonValueIndex 0.

(** *** Stimulation checks *)

(** [~(clock - stimulated < 100)]: the bitwise complement of the
    comparison's 0 or 1, used as a condition. *)
Definition not_refractory (clock stimulated : Z) : bool :=
  negb (Z.lnot (if clock - stimulated <? 100 then 1 else 0) =? 0).

Definition checkChrimsonRequest (i : Input) (s : Ctx) : bool * Ctx :=
  if digitalRead i PIN_CHRIMSON_TRIGGER
     && not_refractory (_CHRIMSON_refractory_clock s) (_time_CHRIMSON_stimulated s)
  then
    let s := debug "Received CHRIMSON request from BOSS arduino. Sending receipt." [] s in
    let s := sendMessage (MsgEvent EVENT_BOSS_CHRIMSON_REQUEST
                            (signedMillis i - _exp_timer s)) s in
    let s := setB _UI_CHRIMSON_stim_in_progress false s in
    let s := setB _BOSS_CHRIMSON_stim_in_progress true s in
    let s := setChrimsonReceipt true s in
    let s := stimulateChrimson i s in
    let s := sendMessage (MsgEvent EVENT_BOSS_CHRIMSON_STIM_BEGIN
                            (_time_CHRIMSON_stimulated s - _exp_timer s)) s in
    let s := debug "Current Duty Cycle high time, low time"
               [param CHRIMSON_UP_TIME s; param CHRIMSON_DOWN_TIME s] s in
    (true, set__state CHRIMSON_STIM_STATE s)
  else if Ascii.eqb (_command s) "C"
          && not_refractory (_CHRIMSON_refractory_clock s) (_time_CHRIMSON_stimulated s)
  then
    let s := debug "Received CHRIMSON request from HOST. Sending receipt to BOSS." [] s in
    let s := sendMessage (MsgEvent EVENT_UI_CHRIMSON_REQUEST
                            (signedMillis i - _exp_timer s)) s in
    let s := setB _UI_CHRIMSON_stim_in_progress true s in
    let s := setB _BOSS_CHRIMSON_stim_in_progress false s in
    let s := setChrimsonReceipt true s in
    let s := stimulateChrimson i s in
    let s := sendMessage (MsgEvent EVENT_UI_CHRIMSON_STIM_BEGIN
                            (_time_CHRIMSON_stimulated s - _exp_timer s)) s in
    let s := sendMessage (MsgText "R" []) s in
    let s := debug "Killed HOST request with R message." [] s in
    (true, set__state CHRIMSON_STIM_STATE s)
  else (false, s).

Definition checkChr2Request (i : Input) (s : Ctx) : bool * Ctx :=
  if Ascii.eqb (_command s) "D"
     && not_refractory (_CHR2_refractory_clock s) (_time_CHR2_stimulated s)
  then
    let s := debug "Received CHR2 request from HOST. Sending receipt to BOSS." [] s in
    let s := sendMessage (MsgEvent EVENT_UI_CHR2_REQUEST
                            (signedMillis i - _exp_timer s)) s in
    let s := setB _UI_CHR2_stim_in_progress true s in
    let s := setB _BOSS_CHR2_stim_in_progress false s in
    let s := setChR2Receipt true s in
    let s := stimulateChR2 i s in
    let s := sendMessage (MsgEvent EVENT_UI_CHR2_STIM_BEGIN
                            (_time_CHR2_stimulated s - _exp_timer s)) s in
    let s := sendMessage (MsgText "R" []) s in
    let s := debug "Killed HOST request with R message." [] s in
    (true, set__state CHR2_STIM_STATE s)
  else (false, s).

(** The block that ends a Chrimson session with result [code]. *)
Definition endChrimson (i : Input) (ev code : Z) (txt : string) (s : Ctx) : Ctx :=
  let s := setChrimsonLED false s in
  let s := setChrimsonReceipt false s in
  let s := sendMessage (MsgEvent ev (signedMillis i - _exp_timer s)) s in
  let s := setB _BOSS_CHRIMSON_stim_in_progress false s in
  let s := setB _UI_CHRIMSON_stim_in_progress false s in
  let s := setB _duty_state_CHRIMSON false s in
  let s := setZ _time_CHRIMSON_stimulated 0 s in
  let s := setZ _resultCode code s in
  let s := sendMessage (MsgResult (_resultCode s)) s in
  let s := setZ _resultCode (-1) s in
  debug txt [] s.

Definition checkStimChrimson (i : Input) (s : Ctx) : Ctx :=
  if _BOSS_CHRIMSON_stim_in_progress s then
    if negb (Qeq_bool (param CANCEL_ENABLED s) 0) && digitalRead i PIN_CANCEL then
      endChrimson i EVENT_BOSS_CHRIMSON_STIM_END CODE_CHRIMSON_CANCEL
        "CANCELED BY EVENT INPUT - End Boss CHRIMSON stim (lamp OFF)." s
    else if exceeds (signedMillis i - _time_CHRIMSON_stimulated s)
              (param CHRIMSON_DURATION s) then
      endChrimson i EVENT_BOSS_CHRIMSON_STIM_END CODE_CHRIMSON
        "End Boss CHRIMSON stim (lamp OFF)." s
    else if exceeds (signedMillis i - _duty_timer_CHRIMSON s) (param CHRIMSON_UP_TIME s)
            && _duty_state_CHRIMSON s then
      let s := debug "CHRIMSON Duty UP. HIGH time (ms)"
                 [param CHRIMSON_UP_TIME s;
                  inject_Z (signedMillis i - _duty_timer_CHRIMSON s)] s in
      s |> setChrimsonLED false
        |> setB _duty_state_CHRIMSON false
        |> setZ _duty_timer_CHRIMSON (signedMillis i)
    else if exceeds (signedMillis i - _duty_timer_CHRIMSON s) (param CHRIMSON_DOWN_TIME s)
            && negb (_duty_state_CHRIMSON s) then
      let s := debug "CHRIMSON Duty LO. LOW time (ms)"
                 [param CHRIMSON_DOWN_TIME s;
                  inject_Z (signedMillis i - _duty_timer_CHRIMSON s)] s in
      s |> setB _duty_state_CHRIMSON true
        |> setChrimsonLED true
        |> setZ _duty_timer_CHRIMSON (signedMillis i)
    else s
  else if _UI_CHRIMSON_stim_in_progress s then
    if exceeds (signedMillis i - _time_CHRIMSON_stimulated s)
         (param UI_CHRIMSON_DURATION s) then
      endChrimson i EVENT_UI_CHRIMSON_STIM_END CODE_UI_CHRIMSON
        "End UI CHRIMSON stim (lamp OFF)." s
    else if exceeds (signedMillis i - _duty_timer_CHRIMSON s) (param UI_CHRIMSON_UP_TIME s)
            && _duty_state_CHRIMSON s then
      s |> setChrimsonLED false
        |> setZ _duty_timer_CHRIMSON (signedMillis i)
        |> setB _duty_state_CHRIMSON false
        |> debug "CHRIMSON Duty UP." []
    else if exceeds (signedMillis i - _duty_timer_CHRIMSON s) (param UI_CHRIMSON_DOWN_TIME s)
            && negb (_duty_state_CHRIMSON s) then
      s |> setChrimsonLED true
        |> setB _duty_state_CHRIMSON true
        |> setZ _duty_timer_CHRIMSON (signedMillis i)
        |> debug "CHRIMSON Duty LOW." []
    else s
  else s.

(** The block that ends a ChR2 session with result [code]. *)
Definition endChR2 (i : Input) (ev code : Z) (txt : string) (s : Ctx) : Ctx :=
  let s := setChR2LED false s in
  let s := setChR2Receipt false s in
  let s := sendMessage (MsgEvent ev (signedMillis i - _exp_timer s)) s in
  let s := setB _BOSS_CHR2_stim_in_progress false s in
  let s := setB _UI_CHR2_stim_in_progress false s in
  let s := setB _duty_state_CHR2 false s in
  let s := setZ _time_CHR2_stimulated 0 s in
  let s := setZ _resultCode code s in
  let s := sendMessage (MsgResult (_resultCode s)) s in
  let s := setZ _resultCode (-1) s in
  debug txt [] s.

Definition checkStimChR2 (i : Input) (s : Ctx) : Ctx :=
  if _BOSS_CHR2_stim_in_progress s then
    if negb (Qeq_bool (param CANCEL_ENABLED s) 0) && digitalRead i PIN_CANCEL then
      endChR2 i EVENT_BOSS_CHR2_STIM_END CODE_CHR2_CANCEL
        "CANCELED BY EVENT INPUT - End Boss CHR2 stim (lamp OFF)." s
    else if exceeds (signedMillis i - _time_CHR2_stimulated s) (param CHR2_DURATION s) then
      endChR2 i EVENT_BOSS_CHR2_STIM_END CODE_CHR2 "End Boss CHR2 stim (lamp OFF)." s
    else if exceeds (signedMillis i - _duty_timer_CHR2 s) (param CHR2_UP_TIME s)
            && _duty_state_CHR2 s then
      let s := debug "CHR2 Duty UP. HIGH time (ms)"
                 [param CHR2_UP_TIME s; inject_Z (signedMillis i - _duty_timer_CHR2 s)] s in
      s |> setChR2LED false
        |> setB _duty_state_CHR2 false
        |> setZ _duty_timer_CHR2 (signedMillis i)
    else if exceeds (signedMillis i - _duty_timer_CHR2 s) (param CHR2_DOWN_TIME s)
            && negb (_duty_state_CHR2 s) then
      let s := debug "CHR2 Duty LO. LOW time (ms)"
                 [param CHR2_DOWN_TIME s; inject_Z (signedMillis i - _duty_timer_CHR2 s)] s in
      s |> setB _duty_state_CHR2 true
        |> setChR2LED true
        |> setZ _duty_timer_CHR2 (signedMillis i)
    else s
  else if _UI_CHR2_stim_in_progress s then
    if exceeds (signedMillis i - _time_CHR2_stimulated s) (param UI_CHR2_DURATION s) then
      endChR2 i EVENT_UI_CHR2_STIM_END CODE_UI_CHR2 "End UI CHR2 stim (lamp OFF)." s
    else if exceeds (signedMillis i - _duty_timer_CHR2 s) (param UI_CHR2_UP_TIME s)
            && _duty_state_CHR2 s then
      s |> setChR2LED false
        |> setZ _duty_timer_CHR2 (signedMillis i)
        |> setB _duty_state_CHR2 false
        |> debug "CHR2 Duty UP." []
    else if exceeds (signedMillis i - _duty_timer_CHR2 s) (param UI_CHR2_DOWN_TIME s)
            && negb (_duty_state_CHR2 s) then
      s |> setChR2LED true
        |> setB _duty_state_CHR2 true
        |> setZ _duty_timer_CHR2 (signedMillis i)
        |> debug "CHR2 Duty LOW." []
    else s
  else s.

(** *** Transition checks *)

Definition checkQuit (s : Ctx) : bool * Ctx :=
  if Ascii.eqb (_command s) "Q"
  then (true, set__state IDLE_STATE s)
  else (false, s).

Definition checkTrialStart (i : Input) (s : Ctx) : Ctx :=
  if _ready_for_next_trial s && negb (digitalRead i PIN_TRIAL_INIT) then
    s |> setB _ready_for_next_trial false
      |> setB _ready_for_cue true
      |> sendMessage (MsgEvent EVENT_TRIAL_INIT (signedMillis i - _exp_timer s))
  else if negb (_ready_for_next_trial s) && digitalRead i PIN_TRIAL_INIT then
    setB _ready_for_next_trial true s
  else s.

Definition checkReferenceEvent (i : Input) (s : Ctx) : Ctx :=
  if _ready_for_cue s && digitalRead i PIN_CUE_ON then
    s |> sendMessage (MsgEvent EVENT_CUE_ON (signedMillis i - _exp_timer s))
      |> setB _ready_for_cue false
  else s.

Definition checkWarnings (i : Input) (s : Ctx) : Ctx :=
  if _BOSS_CHRIMSON_stim_in_progress s || _UI_CHRIMSON_stim_in_progress s then
    s |> sendMessage (MsgText "WARNING: Updated params during ongoing Chrimson stimulation" [])
      |> sendMessage (MsgEvent EVENT_CHRIMSON_ERROR (signedMillis i - _exp_timer s))
  else s.

Definition checkParamUpdate (s : Ctx) : Res (bool * Ctx) :=
  if Ascii.eqb (_command s) "P" then
    let s := set__argcopy (fst (_arguments s), snd (_arguments s)) s in
    let s := setB _isParamsUpdateStarted true s in
    let s := setB _isParamsUpdateDone false s in
    bind (store_param (fst (_arguments s)) (snd (_arguments s)) s) (fun s =>
    let s := set__state UPDATE_PARAMS_STATE s in
    let s := debug "Parameter changed to"
               [inject_Z (fst (_arguments s)); inject_Z (snd (_arguments s))] s in
    Ok (true, s))
  else Ok (false, s).

Definition checkUpdateComplete (s : Ctx) : bool * Ctx :=
  if Ascii.eqb (_command s) "O" then
    let s := setB _isParamsUpdateStarted false s in
    let s := setB _isParamsUpdateDone true s in
    let s := set__state (_prevState s) s in
    let s := setB _hold false s in
    let s := debug "Parameter update complete." [] s in
    (true, s)
  else (false, s).

(** *** Dependent parameters *)

(** The five parameters of a stimulation mode that depend on each other.
    [update_params_state] carries the same five blocks for the modes
    CHRIMSON, UI_CHRIMSON and CHR2; [verbose] tells whether the blocks of
    the mode have the extra debug lines. *)
Record Triple : Type := mkTriple {
  FREQUENCY : nat;
  PERIOD : nat;
  DUTY_CYCLE : nat;
  UP_TIME : nat;
  DOWN_TIME : nat;
  verbose : bool
}.

Definition chrimson : Triple :=
  mkTriple CHRIMSON_FREQUENCY CHRIMSON_PERIOD CHRIMSON_DUTY_CYCLE
    CHRIMSON_UP_TIME CHRIMSON_DOWN_TIME true.
Definition ui_chrimson : Triple :=
  mkTriple UI_CHRIMSON_FREQUENCY UI_CHRIMSON_PERIOD UI_CHRIMSON_DUTY_CYCLE
    UI_CHRIMSON_UP_TIME UI_CHRIMSON_DOWN_TIME true.
Definition chr2 : Triple :=
  mkTriple CHR2_FREQUENCY CHR2_PERIOD CHR2_DUTY_CYCLE
    CHR2_UP_TIME CHR2_DOWN_TIME false.
(** The sketch has no blocks for this mode. *)
Definition ui_chr2 : Triple :=
  mkTriple UI_CHR2_FREQUENCY UI_CHR2_PERIOD UI_CHR2_DUTY_CYCLE
    UI_CHR2_UP_TIME UI_CHR2_DOWN_TIME false.

(** [if (_params[_DEBUG]) sendMessage(...)] of the verbose modes. *)
Definition vdebug (t : Triple) (txt : string) (vals : list Q) (s : Ctx) : Ctx :=
  if verbose t then debug txt vals s else s.

(** [sendMessage("^ " + String(P) + " P " + String(_params[P]))]. *)
Definition echo (p : nat) (s : Ctx) : Ctx :=
  sendMessage (MsgParam p (param p s)) s.

(** The five [if (_argcopy[0] == ...)] blocks of one mode, in the order
    of the sketch.  In each, [id] is [_argcopy[0]] and [value] is
    [float(_argcopy[1])]. *)
Definition on_DUTY_CYCLE (t : Triple) (s : Ctx) : Ctx :=
  let id := fst (_argcopy s) in
  let value := inject_Z (snd (_argcopy s)) in
  if id =? Z.of_nat (DUTY_CYCLE t) then
    let cycle_time := param (PERIOD t) s in
    let s := debug "cycle_time, float(_argcopy[1])" [cycle_time; value] s in
    let s := set_param (UP_TIME t) (value / 100 * cycle_time)%Q s in
    let s := vdebug t "_params[UP_TIME]" [param (UP_TIME t) s] s in
    let s := echo (UP_TIME t) s in
    let s := set_param (DOWN_TIME t) (cycle_time - param (UP_TIME t) s)%Q s in
    echo (DOWN_TIME t) s
  else s.

Definition on_UP_TIME (t : Triple) (s : Ctx) : Ctx :=
  let id := fst (_argcopy s) in
  let value := inject_Z (snd (_argcopy s)) in
  if id =? Z.of_nat (UP_TIME t) then
    let cycle_time := param (PERIOD t) s in
    let s := set_param (DUTY_CYCLE t) (100 * value / cycle_time)%Q s in
    let s := echo (DUTY_CYCLE t) s in
    let s := set_param (DOWN_TIME t) (cycle_time - value)%Q s in
    echo (DOWN_TIME t) s
  else s.

Definition on_DOWN_TIME (t : Triple) (s : Ctx) : Ctx :=
  let id := fst (_argcopy s) in
  let value := inject_Z (snd (_argcopy s)) in
  if id =? Z.of_nat (DOWN_TIME t) then
    let cycle_time := param (PERIOD t) s in
    let s := set_param (UP_TIME t) (cycle_time - value)%Q s in
    let s := echo (UP_TIME t) s in
    let s := set_param (DUTY_CYCLE t) (100 * param (UP_TIME t) s / cycle_time)%Q s in
    echo (DUTY_CYCLE t) s
  else s.

Definition on_FREQUENCY (t : Triple) (s : Ctx) : Ctx :=
  let id := fst (_argcopy s) in
  let value := inject_Z (snd (_argcopy s)) in
  if id =? Z.of_nat (FREQUENCY t) then
    let s := set_param (PERIOD t) (1000 / value)%Q s in
    let s := echo (PERIOD t) s in
    let cycle_time := param (PERIOD t) s in
    let s := vdebug t "cycle_time, float(_params[DUTY_CYCLE])"
               [cycle_time; param (DUTY_CYCLE t) s] s in
    let s := set_param (UP_TIME t) (param (DUTY_CYCLE t) s / 100 * cycle_time)%Q s in
    let s := vdebug t "_params[UP_TIME]" [param (UP_TIME t) s] s in
    let s := echo (UP_TIME t) s in
    let s := set_param (DOWN_TIME t) (cycle_time - param (UP_TIME t) s)%Q s in
    echo (DOWN_TIME t) s
  else s.

Definition on_PERIOD (t : Triple) (s : Ctx) : Ctx :=
  let id := fst (_argcopy s) in
  let value := inject_Z (snd (_argcopy s)) in
  if id =? Z.of_nat (PERIOD t) then
    let s := set_param (FREQUENCY t) (1000 / value)%Q s in
    let s := echo (FREQUENCY t) s in
    let cycle_time := value in
    let s := vdebug t "cycle_time, float(_params[DUTY_CYCLE])"
               [cycle_time; param (DUTY_CYCLE t) s] s in
    let s := set_param (UP_TIME t) (param (DUTY_CYCLE t) s / 100 * cycle_time)%Q s in
    let s := vdebug t "_params[UP_TIME]" [param (UP_TIME t) s] s in
    let s := echo (UP_TIME t) s in
    let s := set_param (DOWN_TIME t) (cycle_time - param (UP_TIME t) s)%Q s in
    echo (DOWN_TIME t) s
  else s.

Definition recompute (t : Triple) (s : Ctx) : Ctx :=
  s |> on_DUTY_CYCLE t |> on_UP_TIME t |> on_DOWN_TIME t
    |> on_FREQUENCY t |> on_PERIOD t.

(** *** State functions *)

Definition idle_state (i : Input) (s : Ctx) : Res Ctx :=
  let s :=
    if State_beq (_state s) (_prevState s) then s else
      let s := sendMessage (MsgText "-" []) s in
      let s := sendMessage (MsgText "Optogenetics_Controller4" []) s in
      let s := sendMessage (MsgText "Version Code: MAY 1 2025 NH" []) s in
      let s := set__prevState (_state s) s in
      let s := sendMessage (MsgState (state_num (_state s))) s in
      let s := setChrimsonReceipt false s in
      let s := setChR2Receipt false s in
      let s := setAnalogOutput 1 0 s in
      let s := setAnalogOutput 2 0 s in
      let s := setChrimsonLED false s in
      let s := setChR2LED false s in
      let s := setZ _resultCode (-1) s in
      debug "Idle." [] s in
  if Ascii.eqb (_command s) "G" then Ok (set__state INIT_EXP s)
  else if Ascii.eqb (_command s) "L" then Ok (set__state OPTO_LADDER_STATE s)
  else
    let s := checkPhotometryLED i s in
    bind (checkParamUpdate s) (fun '(updating, s) =>
    if updating then Ok s else Ok (set__state IDLE_STATE s)).

Definition init_exp (i : Input) (s : Ctx) : Ctx :=
  if State_beq (_state s) (_prevState s) then s else
    let s := setZ _exp_timer (signedMillis i) s in
    let s := sendMessage (MsgEvent EVENT_EXP_INIT (signedMillis i - _exp_timer s)) s in
    let s := set__prevState (_state s) s in
    let s := sendMessage (MsgState (state_num (_state s))) s in
    let s := debug "Experiment Started." [] s in
    set__state WAIT_REQUEST_STATE s.

Definition wait_request_state (i : Input) (s : Ctx) : Res Ctx :=
  let s :=
    if State_beq (_state s) (_prevState s) then s else
      let s := set__prevState (_state s) s in
      let s := sendMessage (MsgState (state_num (_state s))) s in
      debug "Awaiting command from BOSS arduino." [] s in
  let '(quit, s) := checkQuit s in
  if quit then Ok s else
  let s := checkTrialStart i s in
  let s := checkReferenceEvent i s in
  bind (checkParamUpdate s) (fun '(updating, s) =>
  if updating then Ok s else
  let '(requested, s) := checkChrimsonRequest i s in
  if requested then Ok s else
  let '(requested, s) := checkChr2Request i s in
  if requested then Ok s else
  let s := checkPhotometryLED i s in
  Ok (set__state WAIT_REQUEST_STATE s)).

Definition Chrimson_stim_state (i : Input) (s : Ctx) : Ctx :=
  let s :=
    if State_beq (_state s) (_prevState s) then s else
      let s := set__prevState (_state s) s in
      let s := sendMessage (MsgState (state_num (_state s))) s in
      debug "Stimulating CHRIMSON and sending receipt to BOSS arduino." [] s in
  let '(quit, s) := checkQuit s in
  if quit then s else
  let s := checkStimChrimson i s in
  let '(requested, s) := checkChrimsonRequest i s in
  if requested then s else
  let s := checkPhotometryLED i s in
  if negb (_UI_CHRIMSON_stim_in_progress s)
     && negb (_BOSS_CHRIMSON_stim_in_progress s)
  then set__state WAIT_REQUEST_STATE s
  else s.

Definition Chr2_stim_state (i : Input) (s : Ctx) : Ctx :=
  let s :=
    if State_beq (_state s) (_prevState s) then s else
      let s := set__prevState (_state s) s in
      let s := sendMessage (MsgState (state_num (_state s))) s in
      debug "Stimulating CHR2 and sending receipt to BOSS arduino." [] s in
  let '(quit, s) := checkQuit s in
  if quit then s else
  let s := checkStimChR2 i s in
  let '(requested, s) := checkChr2Request i s in
  if requested then s else
  let s := checkPhotometryLED i s in
  if negb (_UI_CHR2_stim_in_progress s) && negb (_BOSS_CHR2_stim_in_progress s)
  then set__state WAIT_REQUEST_STATE s
  else s.

Definition update_params_state (i : Input) (s : Ctx) : Ctx :=
  let s :=
    if _hold s then s else
      let s := sendMessage (MsgState (state_num (_state s))) s in
      let s := checkWarnings i s in
      let s := setB _hold true s in
      let s := debug "The current _argcopy[0], _argcopy[1], CHRIMSON_DUTY_CYCLE"
                 [inject_Z (fst (_argcopy s)); inject_Z (snd (_argcopy s));
                  inject_Z (Z.of_nat CHRIMSON_DUTY_CYCLE)] s in
      let s := recompute chrimson s in
      let s := recompute ui_chrimson s in
      let s :=
        if (Qeq_bool (param PHOTOMETRY_ON s) 1 && negb (_photometry_LED_enabled s))
           || (Qeq_bool (param PHOTOMETRY_ON s) 0 && _photometry_LED_enabled s)
        then
          let s := debug "Photometry LED parameter changed. If there's a toggle delay, the LED state will change after it elapses" [] s in
          let s := setZ _photometry_toggle_timer (signedMillis i) s in
          if Qeq_bool (param PHOTOMETRY_ON s) 1
          then setB _photometry_LED_enabled true s
          else setB _photometry_LED_enabled false s
        else s in
      let s := recompute chr2 s in
      debug "Collecting parameter update from Matlab HOST...holding in update_params_state()" [] s in
  let '(quit, s) := checkQuit s in
  if quit then s else
  let '(complete, s) := checkUpdateComplete s in
  if complete then s else
  set__state UPDATE_PARAMS_STATE s.

(** The train counts compared below are the enumerators
    [CHRIMSON_TRAINS_BEFORE_CHR2], [CHR2_NUM_TRAINS] and
    [CHRIMSON_TRAINS_AFTER_CHR2] (36, 38 and 37), and the counter compared
    is the function's own static, which the train functions do not
    touch: they count in the file-scope [currentTrain]. *)
Definition opto_ladder_state (i : Input) (s : Ctx) : Ctx :=
  let s :=
    if State_beq (_state s) (_prevState s) then s else
      let s := set__prevState (_state s) s in
      let s := sendMessage (MsgState (state_num (_state s))) s in
      let s := debug "Performing OptoLadder Experiment." [] s in
      let s := setZ ladder_stateEntryTime (now i) s in
      let s := setZ ladder_phase 0 s in
      resetTrain s in
  if ladder_phase s =? 0 then
    if ladder_currentTrain s <? Z.of_nat CHRIMSON_TRAINS_BEFORE_CHR2 then
      runChrimsonTrain i s
    else
      s |> setZ ladder_phase (ladder_phase s + 1) |> resetTrain
  else if ladder_phase s =? 1 then
    if ladder_currentTrain s <? Z.of_nat CHR2_NUM_TRAINS then
      runChR2Train i s
    else
      s |> setZ ladder_phase (ladder_phase s + 1) |> resetTrain
  else if ladder_phase s =? 2 then
    if ladder_currentTrain s <? Z.of_nat CHRIMSON_TRAINS_AFTER_CHR2 then
      runChrimsonTrain i s
    else
      s |> setZ ladder_stateEntryTime 0 |> set__state IDLE_STATE
  else s.

(** *** The main loop *)

Definition mySetup (s : Ctx) : Ctx :=
  let s := setChrimsonLED false s in
  let s := setChrimsonReceipt false s in
  let s := setChR2LED false s in
  let s := setChR2Receipt false s in
  let s := set__state _INIT s in
  let s := set__prevState _INIT s in
  let s := set__command " " s in
  let s := set__arguments (0, 0) s in
  let s := setZ _resultCode (-1) s in
  let s := setZ _exp_timer 0 s in
  let s := setZ _time_CHRIMSON_stimulated 0 s in
  let s := setZ _CHRIMSON_refractory_clock 0 s in
  let s := setZ _duty_timer_CHRIMSON 0 s in
  let s := setZ _photometry_toggle_timer 0 s in
  let s := debug "Initial Duty Cycle high time, low time"
             [param CHRIMSON_UP_TIME s; param CHRIMSON_DOWN_TIME s] s in
  let s := setB _photometry_LED_enabled true s in
  let s := setB _BOSS_CHRIMSON_stim_in_progress false s in
  let s := setB _UI_CHRIMSON_stim_in_progress false s in
  let s := setB _duty_state_CHRIMSON false s in
  let s := setB _hold false s in
  let s := setB _isParamsUpdateStarted false s in
  let s := setB _isParamsUpdateDone true s in
  let s := setB _ready_for_next_trial true s in
  let s := setB _ready_for_cue true s in
  sendMessage MsgHostInit s.

(** One iteration of the [while (true)] loop.  The command ['R'] breaks
    out of it; [loop()] returns, is entered again and runs [mySetup]. *)
Definition loop_body (i : Input) (s : Ctx) : Res Ctx :=
  let s := set__command (command i) s in
  let s := set__arguments (args i) s in
  if Ascii.eqb (_command s) "R" then Ok (mySetup s) else
  match _state s with
  | _INIT => idle_state i s
  | IDLE_STATE => idle_state i s
  | INIT_EXP => Ok (init_exp i s)
  | WAIT_REQUEST_STATE => wait_request_state i s
  | CHRIMSON_STIM_STATE => Ok (Chrimson_stim_state i s)
  | CHR2_STIM_STATE => Ok (Chr2_stim_state i s)
  | OPTO_LADDER_STATE => Ok (opto_ladder_state i s)
  | UPDATE_PARAMS_STATE => Ok (update_params_state i s)
  end.

Fixpoint run (inputs : list Input) (s : Ctx) : Res Ctx :=
  match inputs with
  | [] => Ok s
  | i :: rest => bind (loop_body i s) (run rest)
  end.

End NH.

(** * Properties *)

(** ** Vocabulary of the statements *)

(** The level of the most recent write to the pin [p] in an effect log
    (most recent first). *)
Fixpoint last_write {V : Type} (p : Pin) (l : list (Effect V)) : option bool :=
  match l with
  | [] => None
  | DigitalWrite q b :: l' => if Pin_beq q p then Some b else last_write p l'
  | _ :: l' => last_write p l'
  end.


Module SvedbergSpec.
Import Svedberg.

(** The examples index the power levels with the first ladder entries. *)
#[export] Instance first_level : AoutIndex :=
  {| CHRIMSON_AOUT_VALUE := CHRIMSON_AOUT_1_VALUE;
     CHR2_AOUT_VALUE := CHR2_AOUT_1_VALUE |}.

(** The device after [mySetup], before the first loop iteration. *)
Definition start : Ctx := mySetup boot.

(** The same with [_DEBUG] off. *)
Definition quiet : Ctx := set__params (<[_DEBUG := 0]> params_init) start.

(** The array [_params] has [_NUM_PARAMS] entries. *)
Definition wf (s : Ctx) : Prop := length (_params s) = _NUM_PARAMS.

Definition in_range (id : Z) : Prop := 0 <= id < Z.of_nat _NUM_PARAMS.

(** Counts over the effect log of a context. *)
Definition ons (p : Pin) (s : Ctx) : nat := count (is_write p true) (out s).
Definition offs (p : Pin) (s : Ctx) : nat := count (is_write p false) (out s).
Definition power_writes (p : Pin) (s : Ctx) : nat := count (is_power p) (out s).
Definition delays (s : Ctx) : nat := count is_delay (out s).
Definition results (code : Z) (s : Ctx) : nat := count (is_result code) (out s).


(** The level the pin [p] was last set to. *)
Definition level (p : Pin) (s : Ctx) : option bool := last_write p (out s).


(** The context after the iterations [inputs] from [start] ([start]
    itself if an iteration indexes out of bounds). *)
Definition after (inputs : list Input) : Ctx :=
  match run inputs start with
  | Ok s => s
  | OutOfBounds => start
  end.




(** The same up to 1004 ms: the first pulse is on. *)
Definition first_pulse_on : list Input :=
  [tick 1; msg 2 "G" 0 0; tick 3; tick 4; msg 1000 "C" 0 0] ++ ticks 1001 4.

(** *** The parameter update *)

(** The entry action of UPDATE_PARAMS has run, or the index it will
    write at is one of the array. *)
Definition held (s : Ctx) : Prop :=
  _hold s = true \/ in_range (fst (_argcopy s)).

(** An iteration whose command is none of ['O'], ['Q'] and ['R']. *)
Definition passive (i : Input) : Prop :=
  command i <> "O"%char /\ command i <> "Q"%char /\ command i <> "R"%char.

(** The states whose function looks for a parameter update. *)
Definition accepting (s : Ctx) : Prop :=
  _state s = IDLE_STATE \/ _state s = WAIT_REQUEST_STATE \/ _state s = _INIT.

(** The warning events sent so far. *)
Definition warnings (s : Ctx) : nat :=
  count (is_event EVENT_CHRIMSON_ERROR) (out s).


(** A Chrimson session asked for by the host and left with ['Q'], then
    a parameter written in IDLE; the last iteration is the first one in
    UPDATE_PARAMS. *)
Definition update_during_session : list Input :=
  [tick 1; msg 2 "G" 0 0; tick 3; tick 4; msg 1000 "C" 0 0;
   msg 1001 "Q" 0 0; msg 1002 "P" 3 5; tick 1003].


(** A Chrimson session asked for by the host and left with ['Q'], then
    the ladder asked for in IDLE and [n] iterations of it. *)
Definition ladder_after_session (n : nat) : list Input :=
  [tick 1; msg 2 "G" 0 0; tick 3; tick 4; msg 5 "C" 0 0; msg 6 "Q" 0 0;
   msg 7 "L" 0 0] ++ ticks 8 n.

(** The ladder asked for in IDLE after start-up and [n] iterations of
    it. *)
Definition ladder (n : nat) : list Input :=
  [tick 1; msg 2 "L" 0 0] ++ ticks 3 n.

(** *** The two train engines as one

    [runChrimsonTrain] and [runChR2Train] are the same three blocks over
    the same bookkeeping variables; they differ in the pins, the
    parameters, the inter-pulse timer and the session flags. *)
Inductive Channel : Type := Chrimson | ChR2.

Definition stim (c : Channel) : Pin :=
  match c with Chrimson => PIN_CHRIMSON_STIM | ChR2 => PIN_CHR2_STIM end.
Definition pwr (c : Channel) : Pin :=
  match c with Chrimson => PIN_CHRIMSON_PWR | ChR2 => PIN_CHR2_PWR end.
Definition NUM_PULSES (c : Channel) : nat :=
  match c with Chrimson => CHRIMSON_NUM_PULSES | ChR2 => CHR2_NUM_PULSES end.
Definition PULSE_WIDTH (c : Channel) : nat :=
  match c with Chrimson => CHRIMSON_PULSE_WIDTH | ChR2 => CHR2_PULSE_WIDTH end.
Definition IPI (c : Channel) : nat :=
  match c with Chrimson => CHRIMSON_IPI | ChR2 => CHR2_IPI end.
Definition ipi (c : Channel) : IntVar :=
  match c with Chrimson => ipiTimer | ChR2 => chR2ipiTimer end.
Definition ui (c : Channel) : BoolVar :=
  match c with
  | Chrimson => _UI_CHRIMSON_stim_in_progress
  | ChR2 => _UI_CHR2_stim_in_progress
  end.
Definition boss (c : Channel) : BoolVar :=
  match c with
  | Chrimson => _BOSS_CHRIMSON_stim_in_progress
  | ChR2 => _BOSS_CHR2_stim_in_progress
  end.
Definition code_ui (c : Channel) : Z :=
  match c with Chrimson => CODE_UI_CHRIMSON | ChR2 => CODE_UI_CHR2 end.
Definition code_boss (c : Channel) : Z :=
  match c with Chrimson => CODE_CHRIMSON | ChR2 => CODE_CHR2 end.

Definition other (c : Channel) : Channel :=
  match c with Chrimson => ChR2 | ChR2 => Chrimson end.

Section Engine.
Context `{AoutIndex}.

(** The function that begins a session of channel [c]. *)
Definition stimulate (c : Channel) : Ctx -> Ctx :=
  match c with Chrimson => stimulateChrimson | ChR2 => stimulateChR2 end.

Definition led (c : Channel) : bool -> Ctx -> Ctx :=
  match c with Chrimson => setChrimsonLED | ChR2 => setChR2LED end.

(** The block "Start pulse". *)
Definition start_pulse (c : Channel) (i : Input) (s : Ctx) : Ctx :=
  if negb (inPulse s)
     && (pulseIndex s <? param (NUM_PULSES c) s)
     && (param (IPI c) s <=? elapsed (millis i) (ipi c s))
  then s |> led c true
         |> setZ pulseTimer (millis i)
         |> setB inPulse true
         |> debug (match c with
                   | Chrimson => "Chrimson Pulse ON"
                   | ChR2 => "ChR2 Pulse ON"
                   end) [pulseIndex s + 1]
  else s.

(** The block "End pulse". *)
Definition end_pulse (c : Channel) (i : Input) (s : Ctx) : Ctx :=
  if inPulse s
     && (param (PULSE_WIDTH c) s <=? elapsed (millis i) (pulseTimer s))
  then s |> led c false
         |> setB inPulse false
         |> setZ (ipi c) (millis i)
         |> debug (match c with
                   | Chrimson => "Chrimson Pulse OFF"
                   | ChR2 => "ChR2 Pulse OFF"
                   end) [pulseIndex s + 1]
         |> setZ pulseIndex (pulseIndex s + 1)
  else s.

(** The [if (singleTrainMode)] part of the block "Train complete". *)
Definition single_train_exit (c : Channel) (s : Ctx) : Ctx :=
  if singleTrainMode s then
    let s :=
      if ui c s && negb (boss c s) then setZ _resultCode (code_ui c) s
      else if boss c s && negb (ui c s) then setZ _resultCode (code_boss c) s
      else s |> setZ _resultCode (code_boss c)
             |> sendMessage
                  (MsgText (match c with
                            | Chrimson => "WARNING: Ambiguous stim source - defaulting to CHRIMSON"
                            | ChR2 => "WARNING: Ambiguous ChR2 stim source - defaulting to CHR2"
                            end) []) in
    s |> sendMessage (MsgResult (_resultCode s))
      |> setB (ui c) false
      |> setB (boss c) false
      |> setZ _resultCode (-1)
      |> set__state WAIT_REQUEST_STATE
      |> setB singleTrainMode false
  else s.

(** The counting part of the block "Train complete". *)
Definition count_train (c : Channel) (s : Ctx) : Ctx :=
  let s := setZ pulseIndex 0 s in
  let s := setZ currentTrain (currentTrain s + 1) s in
  match c with
  | Chrimson =>
      let s := setZ currentAout (constrain (currentTrain s) 0 4) s in
      let s := debug "Completed Chrimson Train" [currentTrain s] s in
      debug "Exiting Chrimson Stim State." [] s
  | ChR2 => debug "Completed ChR2 Train" [currentTrain s] s
  end.

(** The block "Train complete". *)
Definition train_complete (c : Channel) (s : Ctx) : Ctx :=
  if param (NUM_PULSES c) s <=? pulseIndex s
  then single_train_exit c (count_train c s)
  else s.

Definition runTrain (c : Channel) (i : Input) (s : Ctx) : Ctx :=
  train_complete c (end_pulse c i (start_pulse c i s)).

(** The engine of channel [c], as the sketch has it. *)
Definition engine (c : Channel) : Input -> Ctx -> Ctx :=
  match c with Chrimson => runChrimsonTrain | ChR2 => runChR2Train end.

(** The engine of channel [c] called once per iteration, on iterations
    [from], ..., [from + n - 1] of the clock [clk]. *)
Fixpoint advance (c : Channel) (clk : nat -> Input) (from n : nat)
    (s : Ctx) : Ctx :=
  match n with
  | O => s
  | S n' => advance c clk (S from) n' (engine c (clk from) s)
  end.

End Engine.


(** One iteration per millisecond, no message, no pin high. *)
Definition ms_clock (k : nat) : Input := tick (Z.of_nat k).

(** What a call of the engine leaves alone unless it completes a train. *)
Definition same_session (c : Channel) (s s' : Ctx) : Prop :=
  _params s' = _params s
  /\ _state s' = _state s
  /\ singleTrainMode s' = singleTrainMode s
  /\ currentTrain s' = currentTrain s
  /\ ui c s' = ui c s
  /\ boss c s' = boss c s
  /\ (forall code, results code s' = results code s)
  /\ delays s' = delays s.

(** The call that took [s] to [s'] completed a train of channel [c]: the
    pulse index is back to 0, the train counter went up by one and, in
    single-train mode, the result code went to the host and the state
    machine was sent to WAIT_REQUEST. *)
Definition completed (c : Channel) (s s' : Ctx) : Prop :=
  pulseIndex s' = 0
  /\ inPulse s' = false
  /\ currentTrain s' = currentTrain s + 1
  /\ _params s' = _params s
  /\ delays s' = delays s
  /\ (singleTrainMode s = true ->
      _state s' = WAIT_REQUEST_STATE
      /\ singleTrainMode s' = false
      /\ exists code, (code = code_ui c \/ code = code_boss c)
                      /\ results code s' = S (results code s))
  /\ (singleTrainMode s = false ->
      _state s' = _state s /\ singleTrainMode s' = false
      /\ forall code, results code s' = results code s).





End SvedbergSpec.

Module NHSpec.
Import NH.

Definition start : Ctx := mySetup boot.

Definition wf (s : Ctx) : Prop := length (_params s) = _NUM_PARAMS.

Definition in_range (id : Z) : Prop := 0 <= id < Z.of_nat _NUM_PARAMS.

Definition same_control (s s' : Ctx) : Prop :=
  _state s' = _state s /\ _prevState s' = _prevState s
  /\ _command s' = _command s /\ _arguments s' = _arguments s
  /\ _argcopy s' = _argcopy s.

(** [s'] is [s] but for the parameters and the effect log. *)
Definition params_out_only (s s' : Ctx) : Prop :=
  exists ps o, s' = set_out o (set__params ps s).

Definition passive (i : Input) : Prop :=
  command i <> "O"%char /\ command i <> "Q"%char /\ command i <> "R"%char.

Definition accepting (s : Ctx) : Prop :=
  _state s = IDLE_STATE \/ _state s = WAIT_REQUEST_STATE \/ _state s = _INIT.

Definition power_writes (p : Pin) (s : Ctx) : nat := count (is_power p) (out s).
Definition delays (s : Ctx) : nat := count is_delay (out s).
Definition results (code : Z) (s : Ctx) : nat := count (is_result code) (out s).

(** What the ladder reads, and the results sent. *)
Definition same_ladder (s s' : Ctx) : Prop :=
  _state s' = _state s /\ _prevState s' = _prevState s
  /\ ladder_phase s' = ladder_phase s
  /\ ladder_currentTrain s' = ladder_currentTrain s
  /\ forall code, results code s' = results code s.

(** The two blocks of [runChrimsonTrain]. *)
Definition begin_pulse (i : Input) (s : Ctx) : Ctx :=
  if negb (inPulse s) && (pulseIndex s <? 5) then
    let s := setZ _time_CHRIMSON_stimulated (signedMillis i) s in
    let s := setChrimsonLED true s in
    let s := setZ _duty_timer_CHRIMSON (_time_CHRIMSON_stimulated s) s in
    let s := setB _duty_state_CHRIMSON true s in
    let s := setB inPulse true s in
    debug "Begin Chrimson Pulse" [inject_Z (pulseIndex s + 1)] s
  else s.

Definition duty_step (i : Input) (s : Ctx) : Ctx :=
  if inPulse s then
    if _duty_state_CHRIMSON s
       && exceeds (signedMillis i - _duty_timer_CHRIMSON s) (param CHRIMSON_UP_TIME s)
    then
      s |> analogWrite PIN_CHRIMSON_PWR 0%Q
        |> setB _duty_state_CHRIMSON false
        |> setZ _duty_timer_CHRIMSON (signedMillis i)
    else if negb (_duty_state_CHRIMSON s)
            && exceeds (signedMillis i - _duty_timer_CHRIMSON s) (param CHRIMSON_DOWN_TIME s)
    then
      let s := setZ pulseIndex (pulseIndex s + 1) s in
      if pulseIndex s <? 5 then
        s |> setChrimsonLED true
          |> setB _duty_state_CHRIMSON true
          |> setZ _duty_timer_CHRIMSON (signedMillis i)
          |> debug "Restarting Duty Cycle for Pulse" [inject_Z (pulseIndex s + 1)]
      else
        let s := setChrimsonLED false s in
        let s := setB inPulse false s in
        let s := setZ pulseIndex 0 s in
        let s := setZ currentTrain (currentTrain s + 1) s in
        let s := delay (Z.of_nat CHRIMSON_PERIOD) s in
        debug "Completed Chrimson Train" [inject_Z (currentTrain s)] s
    else s
  else s.

(** The ladder is in its first phase and the counter it compares is at
    its initial value. *)
Definition in_first_phase (s : Ctx) : Prop :=
  _state s = OPTO_LADDER_STATE
  /\ ladder_currentTrain s = 0
  /\ ladder_phase s = 0.

Definition level (p : Pin) (s : Ctx) : option bool := last_write p (out s).





(** The parameters of a mode that depend on each other. *)
Definition fields (t : Triple) : list nat :=
  [FREQUENCY t; PERIOD t; DUTY_CYCLE t; UP_TIME t; DOWN_TIME t].

(** The modes for which [update_params_state] has blocks. *)
Definition handled : list Triple := [chrimson; ui_chrimson; chr2].

Definition consistent (t : Triple) (s : Ctx) : Prop :=
  Qeq (param (PERIOD t) s) (1000 / param (FREQUENCY t) s)
  /\ Qeq (param (UP_TIME t) s + param (DOWN_TIME t) s) (param (PERIOD t) s)
  /\ Qeq (param (DUTY_CYCLE t) s)
         (100 * param (UP_TIME t) s / param (PERIOD t) s).

(** The blocks of [update_params_state]. *)
Definition announce (i : Input) (s : Ctx) : Ctx :=
  let s := sendMessage (MsgState (state_num (_state s))) s in
  let s := checkWarnings i s in
  let s := setB _hold true s in
  debug "The current _argcopy[0], _argcopy[1], CHRIMSON_DUTY_CYCLE"
    [inject_Z (fst (_argcopy s)); inject_Z (snd (_argcopy s));
     inject_Z (Z.of_nat CHRIMSON_DUTY_CYCLE)] s.

Definition photometry_changed (i : Input) (s : Ctx) : Ctx :=
  if (Qeq_bool (param PHOTOMETRY_ON s) 1 && negb (_photometry_LED_enabled s))
     || (Qeq_bool (param PHOTOMETRY_ON s) 0 && _photometry_LED_enabled s)
  then
    let s := debug "Photometry LED parameter changed. If there's a toggle delay, the LED state will change after it elapses" [] s in
    let s := setZ _photometry_toggle_timer (signedMillis i) s in
    if Qeq_bool (param PHOTOMETRY_ON s) 1
    then setB _photometry_LED_enabled true s
    else setB _photometry_LED_enabled false s
  else s.

Definition entry_action (i : Input) (s : Ctx) : Ctx :=
  s |> announce i |> recompute chrimson |> recompute ui_chrimson
    |> photometry_changed i |> recompute chr2
    |> debug "Collecting parameter update from Matlab HOST...holding in update_params_state()" [].

Definition transitions (s : Ctx) : Ctx :=
  let '(quit, s) := checkQuit s in
  if quit then s else
  let '(complete, s) := checkUpdateComplete s in
  if complete then s else
  set__state UPDATE_PARAMS_STATE s.

(** What the recomputation needs of the value written: a frequency or a
    period is not 0; for the other fields the period is not 0 and agrees
    with the frequency. *)
Definition authoritative_ok (t : Triple) (p : nat) (v : Z) (s : Ctx) : Prop :=
  if (p =? FREQUENCY t)%nat || (p =? PERIOD t)%nat then v <> 0
  else ~ Qeq (param (PERIOD t) s) 0
       /\ Qeq (param (PERIOD t) s) (1000 / param (FREQUENCY t) s).

(** The warning events sent so far. *)
Definition warnings (s : Ctx) : nat :=
  count (is_event EVENT_CHRIMSON_ERROR) (out s).

(** The context after the iterations [inputs] from [start] ([start]
    itself if an iteration indexes out of bounds). *)
Definition after (inputs : list Input) : Ctx :=
  match run inputs start with
  | Ok s => s
  | OutOfBounds => start
  end.

(** The host writes 20 to UI_CHR2_FREQUENCY (parameter 21); the last
    iteration is the first one in UPDATE_PARAMS. *)
Definition write_ui_chr2_frequency : list Input :=
  [tick 1; msg 2 "P" 21 20; tick 3].

(** The same for CHR2_FREQUENCY (parameter 9). *)
Definition write_chr2_frequency : list Input :=
  [tick 1; msg 2 "P" 9 20; tick 3].

(** A session of channel [c] (['C'] or ['D']) asked for by the host and
    left with ['Q'], then a parameter written in IDLE and [n] iterations in
    UPDATE_PARAMS. *)
Definition update_during_session (c : ascii) (n : nat) : list Input :=
  [tick 1; msg 2 "G" 0 0; tick 3; tick 4; msg 10 c 0 0; msg 11 "Q" 0 0;
   msg 12 "P" 3 5] ++ ticks 13 n.




(** The ladder asked for in IDLE after start-up. *)
Definition ladder_request : list Input := [tick 1; msg 2 "L" 0 0].

End NHSpec.

(** ** Facts about the Svedberg variant *)

Module SvedbergFacts.
Import Svedberg SvedbergSpec.

Lemma store_param_ok (id v : Z) (s : Ctx) :
  in_range id ->
  store_param id v s = Ok (set__params (<[Z.to_nat id := v]> (_params s)) s).
Proof.
  unfold in_range, store_param. intros [Hlo Hhi].
  apply Z.leb_le in Hlo. apply Z.ltb_lt in Hhi.
  now rewrite Hlo, Hhi.
Qed.



Lemma elapsed_same (t : Z) : elapsed t t = 0.
Proof. unfold elapsed. now rewrite Z.sub_diag. Qed.

Lemma elapsed_range (t1 t0 : Z) : 0 <= elapsed t1 t0 < 4294967296.
Proof. unfold elapsed. apply Z.mod_pos_bound. lia. Qed.

Arguments elapsed : simpl never.


Ltac unfold_engine :=
  unfold runTrain, train_complete, count_train, end_pulse, start_pulse,
    single_train_exit, led;
  cbv beta iota zeta
    delta [stim pwr NUM_PULSES PULSE_WIDTH IPI ipi ui boss code_ui code_boss].

Ltac unfold_outputs :=
  unfold debug, led, setChrimsonLED, setChR2LED, sendMessage, analogWrite,
    digitalWrite, emit, param in *.

Lemma debug_off (txt : string) (vals : list Z) (s : Ctx) :
  (param _DEBUG s =? 0) = true -> debug txt vals s = s.
Proof. intros Hd. unfold debug. now rewrite Hd. Qed.

Lemma debug_on (txt : string) (vals : list Z) (s : Ctx) :
  (param _DEBUG s =? 0) = false ->
  debug txt vals s = sendMessage (MsgText txt vals) s.
Proof. intros Hd. unfold debug. now rewrite Hd. Qed.

(** Split on the [_DEBUG] test of [s], resolve the [debug] calls on
    contexts made from [s], and simplify. *)
Ltac split_debug s :=
  let Hd := fresh "Hd" in
  destruct (param _DEBUG s =? 0) eqn:Hd; cbv zeta;
  [ repeat match goal with
    | |- context [debug ?t ?v ?X] =>
        rewrite (debug_off t v X) by (unfold param in *; cbn; exact Hd)
    end
  | repeat match goal with
    | |- context [debug ?t ?v ?X] =>
        rewrite (debug_on t v X) by (unfold param in *; cbn; exact Hd)
    end ];
  unfold_outputs; cbn.

Section Engine.
Context `{AoutIndex}.


(** The two engines of the sketch are the two instances of [runTrain]. *)
Lemma runChrimsonTrain_runTrain (i : Input) (s : Ctx) :
  runChrimsonTrain i s = runTrain Chrimson i s.
Proof. unfold runChrimsonTrain. unfold_engine. reflexivity. Qed.

Lemma runChR2Train_runTrain (i : Input) (s : Ctx) :
  runChR2Train i s = runTrain ChR2 i s.
Proof. unfold runChR2Train. unfold_engine. reflexivity. Qed.



Lemma start_pulse_idle (c : Channel) (i : Input) (s : Ctx) :
  negb (inPulse s)
  && (pulseIndex s <? param (NUM_PULSES c) s)
  && (param (IPI c) s <=? elapsed (millis i) (ipi c s)) = false ->
  start_pulse c i s = s.
Proof. intros Hc. unfold start_pulse. now rewrite Hc. Qed.

Lemma start_pulse_taken (c : Channel) (i : Input) (s : Ctx) :
  negb (inPulse s)
  && (pulseIndex s <? param (NUM_PULSES c) s)
  && (param (IPI c) s <=? elapsed (millis i) (ipi c s)) = true ->
  let s1 := start_pulse c i s in
  inPulse s1 = true /\ pulseTimer s1 = millis i
  /\ pulseIndex s1 = pulseIndex s /\ ipi c s1 = ipi c s
  /\ ons (stim c) s1 = S (ons (stim c) s)
  /\ offs (stim c) s1 = offs (stim c) s
  /\ power_writes (pwr c) s1 = S (power_writes (pwr c) s)
  /\ same_session c s s1.
Proof.
  intros Hc. unfold start_pulse. rewrite Hc.
  unfold same_session, ons, offs, power_writes, results, delays.
  destruct c; split_debug s; repeat split; reflexivity.
Qed.

Lemma end_pulse_idle (c : Channel) (i : Input) (s : Ctx) :
  inPulse s
  && (param (PULSE_WIDTH c) s <=? elapsed (millis i) (pulseTimer s)) = false ->
  end_pulse c i s = s.
Proof. intros Hc. unfold end_pulse. now rewrite Hc. Qed.

Lemma end_pulse_taken (c : Channel) (i : Input) (s : Ctx) :
  inPulse s
  && (param (PULSE_WIDTH c) s <=? elapsed (millis i) (pulseTimer s)) = true ->
  let s2 := end_pulse c i s in
  inPulse s2 = false /\ pulseIndex s2 = pulseIndex s + 1
  /\ ipi c s2 = millis i
  /\ ons (stim c) s2 = ons (stim c) s
  /\ offs (stim c) s2 = S (offs (stim c) s)
  /\ power_writes (pwr c) s2 = S (power_writes (pwr c) s)
  /\ same_session c s s2.
Proof.
  intros Hc. unfold end_pulse. rewrite Hc.
  unfold same_session, ons, offs, power_writes, results, delays.
  destruct c; split_debug s; repeat split; reflexivity.
Qed.

Lemma train_complete_idle (c : Channel) (s : Ctx) :
  pulseIndex s < param (NUM_PULSES c) s -> train_complete c s = s.
Proof.
  intros Hlt. unfold train_complete.
  apply Z.leb_gt in Hlt. now rewrite Hlt.
Qed.

Lemma count_train_spec (c : Channel) (s : Ctx) :
  let s' := count_train c s in
  pulseIndex s' = 0
  /\ currentTrain s' = currentTrain s + 1
  /\ inPulse s' = inPulse s
  /\ singleTrainMode s' = singleTrainMode s
  /\ ui c s' = ui c s /\ boss c s' = boss c s
  /\ _state s' = _state s
  /\ _params s' = _params s
  /\ ons (stim c) s' = ons (stim c) s
  /\ offs (stim c) s' = offs (stim c) s
  /\ power_writes (pwr c) s' = power_writes (pwr c) s
  /\ delays s' = delays s
  /\ forall code, results code s' = results code s.
Proof.
  unfold count_train, ons, offs, power_writes, results, delays.
  destruct c; split_debug s; repeat split; reflexivity.
Qed.

Lemma single_train_exit_spec (c : Channel) (s : Ctx) :
  let s' := single_train_exit c s in
  pulseIndex s' = pulseIndex s
  /\ currentTrain s' = currentTrain s
  /\ inPulse s' = inPulse s
  /\ _params s' = _params s
  /\ ons (stim c) s' = ons (stim c) s
  /\ offs (stim c) s' = offs (stim c) s
  /\ power_writes (pwr c) s' = power_writes (pwr c) s
  /\ delays s' = delays s
  /\ (singleTrainMode s = true ->
      _state s' = WAIT_REQUEST_STATE
      /\ singleTrainMode s' = false
      /\ exists code, (code = code_ui c \/ code = code_boss c)
                      /\ results code s' = S (results code s))
  /\ (singleTrainMode s = false -> s' = s).
Proof.
  unfold single_train_exit, ons, offs, power_writes, results, delays.
  destruct (singleTrainMode s) eqn:Hs.
  2: { repeat split; try reflexivity; intros; discriminate. }
  destruct (ui c s) eqn:Hu; destruct (boss c s) eqn:Hb;
    unfold_outputs; destruct c; cbn; repeat split; try reflexivity;
    try discriminate;
    first [ exists 4; cbn; split; [now left|reflexivity]
          | exists 0; cbn; split; [now right|reflexivity]
          | exists 5; cbn; split; [now left|reflexivity]
          | exists 1; cbn; split; [now right|reflexivity] ].
Qed.

Lemma train_complete_taken (c : Channel) (s : Ctx) :
  param (NUM_PULSES c) s <= pulseIndex s ->
  inPulse s = false ->
  let s3 := train_complete c s in
  ons (stim c) s3 = ons (stim c) s
  /\ offs (stim c) s3 = offs (stim c) s
  /\ power_writes (pwr c) s3 = power_writes (pwr c) s
  /\ completed c s s3.
Proof.
  intros Hle Hin. unfold train_complete.
  apply Z.leb_le in Hle. rewrite Hle.
  pose proof (count_train_spec c s) as Hc.
  pose proof (single_train_exit_spec c (count_train c s)) as He.
  cbv zeta in Hc, He.
  destruct Hc as (C1 & C2 & C3 & C4 & C5 & C6 & C7 & C8 & C9 & C10 & C11 & C12 & C13).
  destruct He as (E1 & E2 & E3 & E4 & E5 & E6 & E7 & E8 & E9 & E10).
  rewrite C4 in E9, E10.
  split; [congruence|]. split; [congruence|]. split; [congruence|].
  unfold completed.
  split; [congruence|]. split; [congruence|]. split; [congruence|].
  split; [congruence|]. split; [congruence|].
  split.
  - intros Hs. destruct (E9 Hs) as (E91 & E92 & code & Hcode & Hr).
    split; [assumption|]. split; [assumption|].
    exists code. split; [assumption|]. now rewrite Hr, C13.
  - intros Hs. rewrite (E10 Hs).
    split; [assumption|]. split; [congruence|]. apply C13.
Qed.

Lemma engine_runTrain (c : Channel) (i : Input) (s : Ctx) :
  engine c i s = runTrain c i s.
Proof.
  destruct c; [apply runChrimsonTrain_runTrain|apply runChR2Train_runTrain].
Qed.



Lemma completed_after (c : Channel) (s s2 s3 : Ctx) :
  same_session c s s2 -> completed c s2 s3 -> completed c s s3.
Proof.
  unfold same_session, completed.
  intros (A1 & A2 & A3 & A4 & A5 & A6 & A7 & A8)
         (B1 & B2 & B3 & B4 & B5 & B6 & B7).
  rewrite A3 in B6, B7.
  split; [assumption|]. split; [assumption|]. split; [congruence|].
  split; [congruence|]. split; [congruence|].
  split.
  - intros Hs. destruct (B6 Hs) as (Hst & Hsm & code & Hcode & Hr).
    split; [assumption|]. split; [assumption|].
    exists code. split; [assumption|]. now rewrite Hr, A7.
  - intros Hs. destruct (B7 Hs) as (Hst & Hsm & Hr).
    split; [congruence|]. split; [assumption|].
    intros code. now rewrite Hr, A7.
Qed.

(** *** One call of the engine, by cases *)



Lemma start_condition (c : Channel) (i : Input) (s : Ctx) :
  inPulse s = false ->
  pulseIndex s < param (NUM_PULSES c) s ->
  param (IPI c) s <= elapsed (now i) (ipi c s) ->
  negb (inPulse s)
  && (pulseIndex s <? param (NUM_PULSES c) s)
  && (param (IPI c) s <=? elapsed (millis i) (ipi c s)) = true.
Proof.
  intros Hin Hidx Hipi. rewrite Hin.
  apply Z.ltb_lt in Hidx. apply Z.leb_le in Hipi.
  unfold millis. now rewrite Hidx, Hipi.
Qed.

(** The interval has elapsed and the pulse width is positive: the pulse
    starts and stays on. *)
Lemma runTrain_on (c : Channel) (i : Input) (s : Ctx) :
  inPulse s = false ->
  pulseIndex s < param (NUM_PULSES c) s ->
  param (IPI c) s <= elapsed (now i) (ipi c s) ->
  0 < param (PULSE_WIDTH c) s ->
  let s' := runTrain c i s in
  inPulse s' = true /\ pulseTimer s' = now i
  /\ pulseIndex s' = pulseIndex s
  /\ ons (stim c) s' = S (ons (stim c) s)
  /\ offs (stim c) s' = offs (stim c) s
  /\ power_writes (pwr c) s' = S (power_writes (pwr c) s)
  /\ same_session c s s'.
Proof.
  intros Hin Hidx Hipi Hw.
  pose proof (start_pulse_taken c i s (start_condition c i s Hin Hidx Hipi))
    as (S1 & S2 & S3 & S4 & S5 & S6 & S7 & S8).
  cbv zeta. unfold runTrain.
  set (s1 := start_pulse c i s) in *.
  assert (Hp : _params s1 = _params s) by apply S8.
  rewrite end_pulse_idle.
  - rewrite train_complete_idle.
    + repeat split; try assumption; apply S8.
    + unfold param. rewrite Hp, S3. exact Hidx.
  - rewrite S1, S2. unfold millis. rewrite elapsed_same.
    unfold param. rewrite Hp.
    apply Z.leb_gt in Hw. exact Hw.
Qed.

(** Inside a pulse whose width has elapsed: the pulse ends; the train
    goes on, or it is complete. *)
Lemma runTrain_off (c : Channel) (i : Input) (s : Ctx) :
  inPulse s = true ->
  pulseIndex s < param (NUM_PULSES c) s ->
  param (PULSE_WIDTH c) s <= elapsed (now i) (pulseTimer s) ->
  let s' := runTrain c i s in
  ons (stim c) s' = ons (stim c) s
  /\ offs (stim c) s' = S (offs (stim c) s)
  /\ power_writes (pwr c) s' = S (power_writes (pwr c) s)
  /\ ((pulseIndex s + 1 < param (NUM_PULSES c) s
       /\ inPulse s' = false /\ pulseIndex s' = pulseIndex s + 1
       /\ ipi c s' = now i /\ same_session c s s')
      \/ (param (NUM_PULSES c) s <= pulseIndex s + 1 /\ completed c s s')).
Proof.
  intros Hin Hidx Hw. cbv zeta. unfold runTrain.
  rewrite start_pulse_idle by now rewrite Hin.
  assert (Hc : inPulse s
               && (param (PULSE_WIDTH c) s <=? elapsed (millis i) (pulseTimer s))
               = true).
  { rewrite Hin. apply Z.leb_le in Hw. exact Hw. }
  pose proof (end_pulse_taken c i s Hc) as (E1 & E2 & E3 & E4 & E5 & E6 & E7).
  set (s2 := end_pulse c i s) in *.
  assert (Hp : _params s2 = _params s) by apply E7.
  destruct (Z.lt_ge_cases (pulseIndex s + 1) (param (NUM_PULSES c) s))
    as [Hmore|Hlast].
  - rewrite train_complete_idle.
    + repeat split; try assumption. left. repeat split; try assumption;
        apply E7.
    + unfold param. rewrite Hp, E2. exact Hmore.
  - assert (Hle : param (NUM_PULSES c) s2 <= pulseIndex s2).
    { unfold param. rewrite Hp, E2. exact Hlast. }
    pose proof (train_complete_taken c s2 Hle E1) as (T1 & T2 & T3 & T4).
    repeat split; try congruence. right. split; [assumption|].
    now apply completed_after with s2.
Qed.




(** *** A whole train *)







(** *** Edges and waits of one call *)



(** *** The two channels on the same bookkeeping *)

Lemma stimulate_resets (c : Channel) (s : Ctx) :
  let s' := stimulate c s in
  pulseIndex s' = 0 /\ inPulse s' = false /\ currentTrain s' = 0
  /\ singleTrainMode s' = true
  /\ ipiTimer s' = ipiTimer s /\ chR2ipiTimer s' = chR2ipiTimer s
  /\ pulseTimer s' = pulseTimer s
  /\ (forall p, ons p s' = ons p s /\ offs p s' = offs p s).
Proof.
  unfold stimulate, stimulateChrimson, stimulateChR2, ons, offs.
  destruct c; split_debug s; repeat split; reflexivity.
Qed.

(** The engine of the other channel does not write the pin of [c]. *)
Lemma runTrain_other_pin (c : Channel) (i : Input) (s : Ctx) :
  ons (stim c) (runTrain (other c) i s) = ons (stim c) s
  /\ offs (stim c) (runTrain (other c) i s) = offs (stim c) s.
Proof.
  assert (Hs : forall s0, ons (stim c) (start_pulse (other c) i s0) = ons (stim c) s0
                     /\ offs (stim c) (start_pulse (other c) i s0) = offs (stim c) s0).
  { intros s0. unfold start_pulse.
    destruct (negb (inPulse s0) && _ && _); [|now split].
    unfold ons, offs. destruct c; split_debug s0; split; reflexivity. }
  assert (He : forall s0, ons (stim c) (end_pulse (other c) i s0) = ons (stim c) s0
                     /\ offs (stim c) (end_pulse (other c) i s0) = offs (stim c) s0).
  { intros s0. unfold end_pulse.
    destruct (inPulse s0 && _); [|now split].
    unfold ons, offs. destruct c; split_debug s0; split; reflexivity. }
  assert (Hc : forall s0, ons (stim c) (count_train (other c) s0) = ons (stim c) s0
                     /\ offs (stim c) (count_train (other c) s0) = offs (stim c) s0).
  { intros s0. unfold count_train, ons, offs.
    destruct c; split_debug s0; split; reflexivity. }
  assert (Hx : forall s0, ons (stim c) (single_train_exit (other c) s0) = ons (stim c) s0
                     /\ offs (stim c) (single_train_exit (other c) s0) = offs (stim c) s0).
  { intros s0. unfold single_train_exit.
    destruct (singleTrainMode s0); [|now split].
    unfold ons, offs.
    destruct (ui (other c) s0); destruct (boss (other c) s0);
      unfold_outputs; destruct c; cbn; split; reflexivity. }
  unfold runTrain, train_complete.
  destruct (param (NUM_PULSES (other c)) _ <=? _).
  - destruct (Hx (count_train (other c)
                    (end_pulse (other c) i (start_pulse (other c) i s))))
      as (-> & ->).
    destruct (Hc (end_pulse (other c) i (start_pulse (other c) i s)))
      as (-> & ->).
    destruct (He (start_pulse (other c) i s)) as (-> & ->).
    apply Hs.
  - destruct (He (start_pulse (other c) i s)) as (-> & ->).
    apply Hs.
Qed.

(** *** A request during a session *)




End Engine.

(** *** The state machine around UPDATE_PARAMS *)

Section Machine.
Context `{AoutIndex}.

Lemma update_params_state_stays (s : Ctx) :
  _command s <> "O"%char -> _command s <> "Q"%char -> held s ->
  exists s', update_params_state s = Ok s'
    /\ _state s' = UPDATE_PARAMS_STATE
    /\ _prevState s' = _prevState s
    /\ _hold s' = true
    /\ _argcopy s' = _argcopy s.
Proof.
  intros HO HQ Hh. unfold update_params_state.
  assert (Hexit : forall s1, _command s1 = _command s -> _hold s1 = true ->
    exists s',
      (let s2 :=
         if Ascii.eqb (_command s1) "O" then
           let s := setB _isParamsUpdateStarted false s1 in
           let s := setB _isParamsUpdateDone true s in
           let s := set__state (_prevState s) s in
           let s := setB _hold false s in
           debug "Parameter update complete." [] s
         else s1 in
       let '(quit, s) := checkQuit s2 in
       if quit then Ok s else
       let '(complete, s) := checkUpdateComplete s in
       if complete then Ok s else
       Ok (set__state UPDATE_PARAMS_STATE s)) = Ok s'
      /\ _state s' = UPDATE_PARAMS_STATE
      /\ _prevState s' = _prevState s1
      /\ _hold s' = true
      /\ _argcopy s' = _argcopy s1).
  { intros s1 Hc Hh1. cbv zeta. rewrite <- Hc in HO, HQ.
    destruct (Ascii.eqb_spec (_command s1) "O"); [congruence|].
    unfold checkQuit.
    destruct (Ascii.eqb_spec (_command s1) "Q"); [congruence|].
    unfold checkUpdateComplete.
    destruct (Ascii.eqb_spec (_command s1) "O"); [congruence|].
    eexists. split; [reflexivity|]. cbn. repeat split; assumption. }
  destruct (_hold s) eqn:Hhold.
  - cbn [bind]. apply (Hexit s eq_refl Hhold).
  - destruct Hh as [Hh|Hh]; [congruence|].
    cbv zeta. rewrite store_param_ok by exact Hh. cbn [bind].
    match goal with |- context [debug ?t ?v ?X] => set (s1 := debug t v X) end.
    assert (Hs1 : _command s1 = _command s /\ _hold s1 = true
                  /\ _prevState s1 = _prevState s /\ _argcopy s1 = _argcopy s).
    { subst s1. unfold debug, param. cbn.
      match goal with |- context [if ?c then _ else _] => destruct c end;
        repeat split; reflexivity. }
    destruct Hs1 as (C1 & C2 & C3 & C4).
    destruct (Hexit s1 C1 C2) as (s' & E0 & E1 & E2 & E3 & E4).
    exists s'. split; [exact E0|]. repeat split; congruence.
Qed.

Lemma update_params_state_complete (s : Ctx) :
  _command s = "O"%char -> held s ->
  exists s', update_params_state s = Ok s'
    /\ _state s' = _prevState s
    /\ _prevState s' = _prevState s
    /\ _hold s' = false.
Proof.
  intros HO Hh. unfold update_params_state.
  assert (Hexit : forall s1, _command s1 = "O"%char ->
    exists s',
      (let s2 :=
         if Ascii.eqb (_command s1) "O" then
           let s := setB _isParamsUpdateStarted false s1 in
           let s := setB _isParamsUpdateDone true s in
           let s := set__state (_prevState s) s in
           let s := setB _hold false s in
           debug "Parameter update complete." [] s
         else s1 in
       let '(quit, s) := checkQuit s2 in
       if quit then Ok s else
       let '(complete, s) := checkUpdateComplete s in
       if complete then Ok s else
       Ok (set__state UPDATE_PARAMS_STATE s)) = Ok s'
      /\ _state s' = _prevState s1
      /\ _prevState s' = _prevState s1
      /\ _hold s' = false).
  { intros s1 Hc. cbv zeta. rewrite Hc. cbn [Ascii.eqb Bool.eqb].
    unfold checkQuit, checkUpdateComplete.
    split_debug s1; repeat (progress (rewrite ?Hc, ?Hd; cbn));
      (eexists; split; [reflexivity|]); cbn; repeat split; reflexivity. }
  destruct (_hold s) eqn:Hhold.
  - cbn [bind]. apply (Hexit s HO).
  - destruct Hh as [Hh|Hh]; [congruence|].
    cbv zeta. rewrite store_param_ok by exact Hh. cbn [bind].
    match goal with |- context [debug ?t ?v ?X] => set (s1 := debug t v X) end.
    assert (Hs1 : _command s1 = _command s
                  /\ _prevState s1 = _prevState s).
    { subst s1. unfold debug, param. cbn.
      match goal with |- context [if ?c then _ else _] => destruct c end;
        repeat split; reflexivity. }
    destruct Hs1 as (C1 & C3).
    destruct (Hexit s1 ltac:(congruence)) as (s' & E0 & E1 & E2 & E3).
    exists s'. split; [exact E0|]. repeat split; congruence.
Qed.

Lemma handleAnalogOutput_out (s : Ctx) :
  exists o, handleAnalogOutput s = set_out o s.
Proof.
  unfold handleAnalogOutput, setAnalogOutput, analogWrite, emit.
  destruct (Ascii.eqb _ _); [|exists (out s); now destruct s].
  destruct (_ =? 1); [eexists; reflexivity|].
  destruct (_ =? 2); [eexists; reflexivity|].
  exists (out s); now destruct s.
Qed.

Lemma loop_body_update_stays (i : Input) (s : Ctx) :
  _state s = UPDATE_PARAMS_STATE -> held s -> passive i ->
  exists s', loop_body i s = Ok s'
    /\ _state s' = UPDATE_PARAMS_STATE
    /\ _prevState s' = _prevState s
    /\ held s'.
Proof.
  intros Hst Hh (HO & HQ & HR). unfold loop_body. cbv zeta.
  cbn [_command set__command set__arguments].
  destruct (Ascii.eqb_spec (command i) "R"); [congruence|].
  destruct (handleAnalogOutput_out
              (set__arguments (args i) (set__command (command i) s)))
    as (o & ->).
  cbn [_state set_out set__arguments set__command]. rewrite Hst.
  destruct (update_params_state_stays
              (set_out o (set__arguments (args i) (set__command (command i) s))))
    as (s' & E0 & E1 & E2 & E3 & E4); try assumption.
  exists s'. split; [exact E0|]. split; [exact E1|]. split; [exact E2|].
  left. exact E3.
Qed.

Lemma loop_body_update_complete (i : Input) (s : Ctx) :
  _state s = UPDATE_PARAMS_STATE -> held s -> command i = "O"%char ->
  exists s', loop_body i s = Ok s'
    /\ _state s' = _prevState s
    /\ _hold s' = false.
Proof.
  intros Hst Hh HO. unfold loop_body. cbv zeta.
  cbn [_command set__command set__arguments]. rewrite HO.
  cbn [Ascii.eqb Bool.eqb].
  destruct (handleAnalogOutput_out
              (set__arguments (args i) (set__command "O" s)))
    as (o & ->).
  cbn [_state set_out set__arguments set__command]. rewrite Hst.
  destruct (update_params_state_complete
              (set_out o (set__arguments (args i) (set__command "O" s))))
    as (s' & E0 & E1 & E2 & E3); try reflexivity; try assumption.
  exists s'. split; [exact E0|]. split; [exact E1|exact E3].
Qed.

Lemma run_update_stays (inputs : list Input) (s : Ctx) :
  _state s = UPDATE_PARAMS_STATE -> held s -> Forall passive inputs ->
  exists s', run inputs s = Ok s'
    /\ _state s' = UPDATE_PARAMS_STATE
    /\ _prevState s' = _prevState s
    /\ held s'.
Proof.
  intros Hst Hh Hall. revert s Hst Hh.
  induction Hall as [|i rest Hi Hrest IH]; intros s Hst Hh.
  - exists s. repeat split; [assumption|assumption].
  - destruct (loop_body_update_stays i s Hst Hh Hi) as (s1 & E0 & E1 & E2 & E3).
    destruct (IH s1 E1 E3) as (s' & F0 & F1 & F2 & F3).
    exists s'. cbn [run]. rewrite E0. cbn [bind].
    split; [exact F0|]. split; [exact F1|]. split; [congruence|exact F3].
Qed.

Lemma checkParamUpdate_accepts (s : Ctx) :
  _command s = "P"%char -> in_range (fst (_arguments s)) ->
  exists s', checkParamUpdate s = Ok (true, s')
    /\ _state s' = UPDATE_PARAMS_STATE
    /\ _prevState s' = _prevState s
    /\ _argcopy s' = _arguments s
    /\ _hold s' = _hold s.
Proof.
  intros Hc Hr. unfold checkParamUpdate. rewrite Hc. cbn [Ascii.eqb Bool.eqb].
  cbv zeta. cbn [_arguments set__argcopy setB].
  rewrite store_param_ok by exact Hr. cbn [bind].
  eexists. split; [reflexivity|].
  unfold debug, param. cbn.
  match goal with |- context [if ?c then _ else _] => destruct c end;
    cbn; destruct (_arguments s); repeat split; reflexivity.
Qed.

Lemma checkPhotometryLED_ctl (i : Input) (s : Ctx) :
  _command s <> "Y"%char ->
  let s' := checkPhotometryLED i s in
  _state s' = _state s /\ _prevState s' = _prevState s
  /\ _command s' = _command s /\ _arguments s' = _arguments s
  /\ _argcopy s' = _argcopy s /\ _hold s' = _hold s.
Proof.
  intros Hc. unfold checkPhotometryLED.
  destruct (Ascii.eqb_spec (_command s) "Y"); [congruence|].
  unfold setPhotometryLED.
  destruct (_ && _); [repeat split; reflexivity|].
  destruct (_ =? 1); cbn; repeat split; reflexivity.
Qed.

Lemma State_beq_eq (a b : State) : State_beq a b = true -> a = b.
Proof. destruct a, b; cbn; congruence. Qed.

Lemma idle_state_accepts (i : Input) (s : Ctx) :
  _command s = "P"%char -> in_range (fst (_arguments s)) ->
  exists s', idle_state i s = Ok s'
    /\ _state s' = UPDATE_PARAMS_STATE
    /\ _prevState s' = _state s
    /\ _argcopy s' = _arguments s
    /\ _hold s' = _hold s.
Proof.
  intros Hc Hr. unfold idle_state. cbv zeta.
  set (s1 := if State_beq (_state s) (_prevState s) then _ else _).
  assert (Hs1 : _command s1 = _command s /\ _arguments s1 = _arguments s
                /\ _prevState s1 = _state s /\ _hold s1 = _hold s).
  { subst s1. destruct (State_beq (_state s) (_prevState s)) eqn:Hb.
    - apply State_beq_eq in Hb. repeat split; congruence.
    - split_debug s; repeat split; reflexivity. }
  clearbody s1. destruct Hs1 as (A1 & A2 & A3 & A4).
  rewrite A1, Hc. cbn [Ascii.eqb Bool.eqb].
  pose proof (checkPhotometryLED_ctl i s1 ltac:(rewrite A1, Hc; congruence))
    as (P1 & P2 & P3 & P4 & P5 & P6).
  destruct (checkParamUpdate_accepts (checkPhotometryLED i s1))
    as (s' & E0 & E1 & E2 & E3 & E4).
  { congruence. }
  { rewrite P4, A2. exact Hr. }
  rewrite E0. cbn [bind]. exists s'. split; [reflexivity|].
  repeat split; congruence.
Qed.

Lemma checkTrialStart_ctl (i : Input) (s : Ctx) :
  let s' := checkTrialStart i s in
  _state s' = _state s /\ _prevState s' = _prevState s
  /\ _command s' = _command s /\ _arguments s' = _arguments s
  /\ _argcopy s' = _argcopy s /\ _hold s' = _hold s.
Proof.
  unfold checkTrialStart.
  destruct (_ && _); [cbn; repeat split; reflexivity|].
  destruct (_ && _); cbn; repeat split; reflexivity.
Qed.

Lemma checkReferenceEvent_ctl (i : Input) (s : Ctx) :
  let s' := checkReferenceEvent i s in
  _state s' = _state s /\ _prevState s' = _prevState s
  /\ _command s' = _command s /\ _arguments s' = _arguments s
  /\ _argcopy s' = _argcopy s /\ _hold s' = _hold s.
Proof.
  unfold checkReferenceEvent.
  destruct (_ && _); cbn; repeat split; reflexivity.
Qed.

Lemma wait_request_state_accepts (i : Input) (s : Ctx) :
  _command s = "P"%char -> in_range (fst (_arguments s)) ->
  exists s', wait_request_state i s = Ok s'
    /\ _state s' = UPDATE_PARAMS_STATE
    /\ _prevState s' = _state s
    /\ _argcopy s' = _arguments s
    /\ _hold s' = _hold s.
Proof.
  intros Hc Hr. unfold wait_request_state. cbv zeta.
  set (s1 := if State_beq (_state s) (_prevState s) then _ else _).
  assert (Hs1 : _command s1 = _command s /\ _arguments s1 = _arguments s
                /\ _prevState s1 = _state s /\ _hold s1 = _hold s).
  { subst s1. destruct (State_beq (_state s) (_prevState s)) eqn:Hb.
    - apply State_beq_eq in Hb. repeat split; congruence.
    - split_debug s; repeat split; reflexivity. }
  clearbody s1. destruct Hs1 as (A1 & A2 & A3 & A4).
  unfold checkQuit. rewrite A1, Hc. cbn [Ascii.eqb Bool.eqb].
  pose proof (checkTrialStart_ctl i s1) as (T1 & T2 & T3 & T4 & T5 & T6).
  set (s2 := checkTrialStart i s1) in *.
  pose proof (checkReferenceEvent_ctl i s2) as (R1 & R2 & R3 & R4 & R5 & R6).
  set (s3 := checkReferenceEvent i s2) in *.
  destruct (checkParamUpdate_accepts s3) as (s' & E0 & E1 & E2 & E3 & E4).
  { congruence. }
  { rewrite R4, T4, A2. exact Hr. }
  rewrite E0. cbn [bind]. exists s'. split; [reflexivity|].
  repeat split; congruence.
Qed.

Lemma loop_body_accepts (i : Input) (s : Ctx) :
  accepting s -> command i = "P"%char -> in_range (fst (args i)) ->
  exists s', loop_body i s = Ok s'
    /\ _state s' = UPDATE_PARAMS_STATE
    /\ _prevState s' = _state s
    /\ held s'.
Proof.
  intros Hacc Hc Hr. unfold loop_body. cbv zeta.
  cbn [_command set__command set__arguments]. rewrite Hc.
  cbn [Ascii.eqb Bool.eqb].
  destruct (handleAnalogOutput_out
              (set__arguments (args i) (set__command "P" s)))
    as (o & ->).
  cbn [_state set_out set__arguments set__command].
  set (s0 := set_out o (set__arguments (args i) (set__command "P" s))).
  assert (H0 : _command s0 = "P"%char /\ _arguments s0 = args i
               /\ _state s0 = _state s) by (repeat split; reflexivity).
  destruct H0 as (C0 & A0 & S0).
  assert (Hidle : exists s', idle_state i s0 = Ok s'
    /\ _state s' = UPDATE_PARAMS_STATE /\ _prevState s' = _state s
    /\ held s').
  { destruct (idle_state_accepts i s0 C0) as (s' & E0 & E1 & E2 & E3 & E4).
    - rewrite A0. exact Hr.
    - exists s'. split; [exact E0|]. split; [exact E1|].
      split; [congruence|]. right. rewrite E3, A0. exact Hr. }
  destruct Hacc as [Hst|[Hst|Hst]]; rewrite Hst in *.
  - exact Hidle.
  - destruct (wait_request_state_accepts i s0 C0) as (s' & E0 & E1 & E2 & E3 & E4).
    + rewrite A0. exact Hr.
    + exists s'. split; [exact E0|]. split; [exact E1|].
      split; [congruence|]. right. rewrite E3, A0. exact Hr.
  - exact Hidle.
Qed.
End Machine.

End SvedbergFacts.

(** ** Facts about the NH variant *)

Module NHFacts.
Import NH NHSpec.

Lemma nh_store_param_ok (id v : Z) (s : Ctx) :
  in_range id ->
  store_param id v s = Ok (set_param (Z.to_nat id) (inject_Z v) s).
Proof.
  unfold in_range, store_param. intros [Hlo Hhi].
  apply Z.leb_le in Hlo. apply Z.ltb_lt in Hhi.
  now rewrite Hlo, Hhi.
Qed.


Lemma nh_debug_off (txt : string) (vals : list Q) (s : Ctx) :
  Qeq_bool (param _DEBUG s) 0 = true -> debug txt vals s = s.
Proof. intros Hd. unfold debug. now rewrite Hd. Qed.

Lemma nh_debug_on (txt : string) (vals : list Q) (s : Ctx) :
  Qeq_bool (param _DEBUG s) 0 = false ->
  debug txt vals s = sendMessage (MsgText txt vals) s.
Proof. intros Hd. unfold debug. now rewrite Hd. Qed.

(** A [debug] call leaves all but the effect log. *)
Lemma nh_debug_out (txt : string) (vals : list Q) (s : Ctx) :
  exists o, debug txt vals s = set_out o s.
Proof.
  unfold debug. destruct (Qeq_bool _ _).
  - exists (out s). now destruct s.
  - eexists. reflexivity.
Qed.

Ltac unfold_outputs :=
  unfold setChrimsonLED, setChR2LED, setChrimsonReceipt, setChR2Receipt,
    setAnalogOutput, sendMessage, digitalWrite, analogWrite, delay, emit.

(** Resolve the [debug] calls on contexts whose [_DEBUG] parameter is
    that of a context for which the test is known. *)
Ltac debug_resolve :=
  repeat match goal with
  | Hd : Qeq_bool (param _DEBUG _) 0 = true |- context [debug ?t ?v ?X] =>
      rewrite (nh_debug_off t v X)
        by (unfold param, set_param, echo in *; cbn;
            rewrite ?list_lookup_insert_ne by discriminate; exact Hd)
  | Hd : Qeq_bool (param _DEBUG _) 0 = false |- context [debug ?t ?v ?X] =>
      rewrite (nh_debug_on t v X)
        by (unfold param, set_param, echo in *; cbn;
            rewrite ?list_lookup_insert_ne by discriminate; exact Hd)
  end.

Ltac split_debug s :=
  let Hd := fresh "Hd" in
  destruct (Qeq_bool (param _DEBUG s) 0) eqn:Hd; cbv zeta;
  debug_resolve; unfold_outputs; cbn.


Lemma nh_checkParamUpdate_accepts (s : Ctx) :
  _command s = "P"%char -> in_range (fst (_arguments s)) ->
  exists s', checkParamUpdate s = Ok (true, s')
    /\ _state s' = UPDATE_PARAMS_STATE
    /\ _prevState s' = _prevState s
    /\ _argcopy s' = _arguments s
    /\ bools s' _hold = bools s _hold.
Proof.
  intros Hc Hr. unfold checkParamUpdate. rewrite Hc. cbn [Ascii.eqb Bool.eqb].
  cbv zeta. cbn [_arguments set__argcopy setB].
  rewrite nh_store_param_ok by exact Hr. cbn [bind].
  eexists. split; [reflexivity|].
  unfold debug, param. cbn.
  match goal with |- context [if ?c then _ else _] => destruct c end;
    cbn; destruct (_arguments s); repeat split; reflexivity.
Qed.

Lemma nh_same_control_refl (s : Ctx) : same_control s s.
Proof. repeat split. Qed.

Lemma nh_same_control_trans (s1 s2 s3 : Ctx) :
  same_control s1 s2 -> same_control s2 s3 -> same_control s1 s3.
Proof.
  intros (A1 & A2 & A3 & A4 & A5) (B1 & B2 & B3 & B4 & B5).
  repeat split; congruence.
Qed.

(** Replace every [debug] call by a write of the effect log. *)
Ltac debug_away :=
  unfold vdebug;
  repeat match goal with
  | |- context [debug ?t ?v ?X] =>
      let o := fresh "o" in destruct (nh_debug_out t v X) as [o ->]
  end.

Lemma nh_recompute_control (t : Triple) (s : Ctx) :
  same_control s (recompute t s).
Proof.
  assert (H1 : forall s, same_control s (on_DUTY_CYCLE t s)).
  { intros s0. unfold on_DUTY_CYCLE. cbv zeta.
    destruct (_ =? _); [|apply nh_same_control_refl].
    unfold vdebug; destruct (verbose t); debug_away; repeat split; reflexivity. }
  assert (H2 : forall s, same_control s (on_UP_TIME t s)).
  { intros s0. unfold on_UP_TIME. cbv zeta.
    destruct (_ =? _); [|apply nh_same_control_refl].
    repeat split; reflexivity. }
  assert (H3 : forall s, same_control s (on_DOWN_TIME t s)).
  { intros s0. unfold on_DOWN_TIME. cbv zeta.
    destruct (_ =? _); [|apply nh_same_control_refl].
    repeat split; reflexivity. }
  assert (H4 : forall s, same_control s (on_FREQUENCY t s)).
  { intros s0. unfold on_FREQUENCY. cbv zeta.
    destruct (_ =? _); [|apply nh_same_control_refl].
    unfold vdebug; destruct (verbose t); debug_away; repeat split; reflexivity. }
  assert (H5 : forall s, same_control s (on_PERIOD t s)).
  { intros s0. unfold on_PERIOD. cbv zeta.
    destruct (_ =? _); [|apply nh_same_control_refl].
    unfold vdebug; destruct (verbose t); debug_away; repeat split; reflexivity. }
  unfold recompute.
  eapply nh_same_control_trans; [|apply H5].
  eapply nh_same_control_trans; [|apply H4].
  eapply nh_same_control_trans; [|apply H3].
  eapply nh_same_control_trans; [|apply H2].
  apply H1.
Qed.

Lemma nh_params_out_only_refl (s : Ctx) : params_out_only s s.
Proof. exists (_params s), (out s). now destruct s. Qed.

Lemma nh_params_out_only_trans (s1 s2 s3 : Ctx) :
  params_out_only s1 s2 -> params_out_only s2 s3 -> params_out_only s1 s3.
Proof.
  intros (p1 & o1 & ->) (p2 & o2 & ->). exists p2, o2. reflexivity.
Qed.

Lemma nh_recompute_shape (t : Triple) (s : Ctx) :
  params_out_only s (recompute t s).
Proof.
  assert (H1 : forall s, params_out_only s (on_DUTY_CYCLE t s)).
  { intros s0. unfold on_DUTY_CYCLE. cbv zeta.
    destruct (_ =? _); [|apply nh_params_out_only_refl].
    unfold vdebug; destruct (verbose t); debug_away;
      eexists; eexists; reflexivity. }
  assert (H2 : forall s, params_out_only s (on_UP_TIME t s)).
  { intros s0. unfold on_UP_TIME. cbv zeta.
    destruct (_ =? _); [|apply nh_params_out_only_refl].
    eexists; eexists; reflexivity. }
  assert (H3 : forall s, params_out_only s (on_DOWN_TIME t s)).
  { intros s0. unfold on_DOWN_TIME. cbv zeta.
    destruct (_ =? _); [|apply nh_params_out_only_refl].
    eexists; eexists; reflexivity. }
  assert (H4 : forall s, params_out_only s (on_FREQUENCY t s)).
  { intros s0. unfold on_FREQUENCY. cbv zeta.
    destruct (_ =? _); [|apply nh_params_out_only_refl].
    unfold vdebug; destruct (verbose t); debug_away;
      eexists; eexists; reflexivity. }
  assert (H5 : forall s, params_out_only s (on_PERIOD t s)).
  { intros s0. unfold on_PERIOD. cbv zeta.
    destruct (_ =? _); [|apply nh_params_out_only_refl].
    unfold vdebug; destruct (verbose t); debug_away;
      eexists; eexists; reflexivity. }
  unfold recompute.
  eapply nh_params_out_only_trans; [|apply H5].
  eapply nh_params_out_only_trans; [|apply H4].
  eapply nh_params_out_only_trans; [|apply H3].
  eapply nh_params_out_only_trans; [|apply H2].
  apply H1.
Qed.

Ltac recompute_away :=
  repeat match goal with
  | |- context [recompute ?t ?X] =>
      let ps := fresh "ps" in let o := fresh "o" in
      destruct (nh_recompute_shape t X) as (ps & o & ->)
  end.

Lemma nh_update_params_state_entry (i : Input) (s : Ctx) :
  let s1 :=
    if _hold s then s else
      let s := sendMessage (MsgState (state_num (_state s))) s in
      let s := checkWarnings i s in
      let s := setB _hold true s in
      let s := debug "The current _argcopy[0], _argcopy[1], CHRIMSON_DUTY_CYCLE"
                 [inject_Z (fst (_argcopy s)); inject_Z (snd (_argcopy s));
                  inject_Z (Z.of_nat CHRIMSON_DUTY_CYCLE)] s in
      let s := recompute chrimson s in
      let s := recompute ui_chrimson s in
      let s :=
        if (Qeq_bool (param PHOTOMETRY_ON s) 1 && negb (_photometry_LED_enabled s))
           || (Qeq_bool (param PHOTOMETRY_ON s) 0 && _photometry_LED_enabled s)
        then
          let s := debug "Photometry LED parameter changed. If there's a toggle delay, the LED state will change after it elapses" [] s in
          let s := setZ _photometry_toggle_timer (signedMillis i) s in
          if Qeq_bool (param PHOTOMETRY_ON s) 1
          then setB _photometry_LED_enabled true s
          else setB _photometry_LED_enabled false s
        else s in
      let s := recompute chr2 s in
      debug "Collecting parameter update from Matlab HOST...holding in update_params_state()" [] s in
  same_control s s1 /\ _hold s1 = true.
Proof.
  cbv zeta. destruct (_hold s) eqn:Hh.
  - split; [apply nh_same_control_refl|exact Hh].
  - recompute_away. debug_away. unfold checkWarnings.
    destruct (_ || _); destruct (_ || _);
    try (destruct (Qeq_bool _ 1)); cbn; repeat split; reflexivity.
Qed.

Lemma nh_update_params_state_stays (i : Input) (s : Ctx) :
  _command s <> "O"%char -> _command s <> "Q"%char ->
  let s' := update_params_state i s in
  _state s' = UPDATE_PARAMS_STATE
  /\ _prevState s' = _prevState s
  /\ _hold s' = true.
Proof.
  intros HO HQ.
  pose proof (nh_update_params_state_entry i s) as He.
  unfold update_params_state. cbv zeta in *.
  set (s1 := if _hold s then s else _) in *.
  clearbody s1. destruct He as ((E1 & E2 & E3 & E4 & E5) & E6).
  unfold checkQuit. rewrite E3.
  destruct (Ascii.eqb_spec (_command s) "Q"); [congruence|].
  unfold checkUpdateComplete. rewrite E3.
  destruct (Ascii.eqb_spec (_command s) "O"); [congruence|].
  cbn. repeat split; assumption.
Qed.

Lemma nh_update_params_state_complete (i : Input) (s : Ctx) :
  _command s = "O"%char ->
  let s' := update_params_state i s in
  _state s' = _prevState s /\ _hold s' = false.
Proof.
  intros HO.
  pose proof (nh_update_params_state_entry i s) as He.
  unfold update_params_state. cbv zeta in *.
  set (s1 := if _hold s then s else _) in *.
  clearbody s1. destruct He as ((E1 & E2 & E3 & E4 & E5) & E6).
  unfold checkQuit. rewrite E3, HO. cbn [Ascii.eqb Bool.eqb].
  unfold checkUpdateComplete. rewrite E3, HO. cbn [Ascii.eqb Bool.eqb].
  cbv zeta. debug_away. cbn. split; [exact E2|reflexivity].
Qed.

Lemma nh_update_params_state_quit (i : Input) (s : Ctx) :
  _command s = "Q"%char ->
  let s' := update_params_state i s in
  _state s' = IDLE_STATE /\ _hold s' = true.
Proof.
  intros HQ.
  pose proof (nh_update_params_state_entry i s) as He.
  unfold update_params_state. cbv zeta in *.
  set (s1 := if _hold s then s else _) in *.
  clearbody s1. destruct He as ((E1 & E2 & E3 & E4 & E5) & E6).
  unfold checkQuit. rewrite E3, HQ. cbn [Ascii.eqb Bool.eqb].
  cbn. split; [reflexivity|exact E6].
Qed.

Lemma nh_loop_body_update_stays (i : Input) (s : Ctx) :
  _state s = UPDATE_PARAMS_STATE -> passive i ->
  exists s', loop_body i s = Ok s'
    /\ _state s' = UPDATE_PARAMS_STATE
    /\ _prevState s' = _prevState s.
Proof.
  intros Hst (HO & HQ & HR). unfold loop_body. cbv zeta.
  cbn [_command set__command set__arguments].
  destruct (Ascii.eqb_spec (command i) "R"); [congruence|].
  cbn [_state set__arguments set__command]. rewrite Hst.
  eexists. split; [reflexivity|].
  pose proof (nh_update_params_state_stays i
                (set__arguments (args i) (set__command (command i) s)))
    as (E1 & E2 & E3); [assumption|assumption|].
  split; [exact E1|exact E2].
Qed.

Lemma nh_loop_body_update_complete (i : Input) (s : Ctx) :
  _state s = UPDATE_PARAMS_STATE -> command i = "O"%char ->
  exists s', loop_body i s = Ok s'
    /\ _state s' = _prevState s
    /\ _hold s' = false.
Proof.
  intros Hst HO. unfold loop_body. cbv zeta.
  cbn [_command set__command set__arguments]. rewrite HO.
  cbn [Ascii.eqb Bool.eqb].
  cbn [_state set__arguments set__command]. rewrite Hst.
  eexists. split; [reflexivity|].
  apply (nh_update_params_state_complete i
           (set__arguments (args i) (set__command "O" s))).
  reflexivity.
Qed.

Lemma nh_run_update_stays (inputs : list Input) (s : Ctx) :
  _state s = UPDATE_PARAMS_STATE -> Forall passive inputs ->
  exists s', run inputs s = Ok s'
    /\ _state s' = UPDATE_PARAMS_STATE
    /\ _prevState s' = _prevState s.
Proof.
  intros Hst Hall. revert s Hst.
  induction Hall as [|i rest Hi Hrest IH]; intros s Hst.
  - exists s. repeat split; assumption.
  - destruct (nh_loop_body_update_stays i s Hst Hi) as (s1 & E0 & E1 & E2).
    destruct (IH s1 E1) as (s' & F0 & F1 & F2).
    exists s'. cbn [run]. rewrite E0. cbn [bind].
    split; [exact F0|]. split; [exact F1|congruence].
Qed.

Lemma nh_State_beq_eq (a b : State) : State_beq a b = true -> a = b.
Proof. destruct a, b; cbn; congruence. Qed.

Lemma nh_checkPhotometryLED_ctl (i : Input) (s : Ctx) :
  _command s <> "Y"%char ->
  let s' := checkPhotometryLED i s in
  _state s' = _state s /\ _prevState s' = _prevState s
  /\ _command s' = _command s /\ _arguments s' = _arguments s
  /\ _argcopy s' = _argcopy s /\ _hold s' = _hold s.
Proof.
  intros Hc. unfold checkPhotometryLED.
  destruct (Ascii.eqb_spec (_command s) "Y"); [congruence|].
  unfold setPhotometryLED.
  destruct (_ && _); [repeat split; reflexivity|].
  destruct (Qeq_bool _ 1); cbn; repeat split; reflexivity.
Qed.

Lemma nh_checkTrialStart_ctl (i : Input) (s : Ctx) :
  let s' := checkTrialStart i s in
  _state s' = _state s /\ _prevState s' = _prevState s
  /\ _command s' = _command s /\ _arguments s' = _arguments s
  /\ _argcopy s' = _argcopy s /\ _hold s' = _hold s.
Proof.
  unfold checkTrialStart.
  destruct (_ && _); [cbn; repeat split; reflexivity|].
  destruct (_ && _); cbn; repeat split; reflexivity.
Qed.

Lemma nh_checkReferenceEvent_ctl (i : Input) (s : Ctx) :
  let s' := checkReferenceEvent i s in
  _state s' = _state s /\ _prevState s' = _prevState s
  /\ _command s' = _command s /\ _arguments s' = _arguments s
  /\ _argcopy s' = _argcopy s /\ _hold s' = _hold s.
Proof.
  unfold checkReferenceEvent.
  destruct (_ && _); cbn; repeat split; reflexivity.
Qed.

Lemma nh_idle_state_accepts (i : Input) (s : Ctx) :
  _command s = "P"%char -> in_range (fst (_arguments s)) ->
  exists s', idle_state i s = Ok s'
    /\ _state s' = UPDATE_PARAMS_STATE
    /\ _prevState s' = _state s
    /\ _argcopy s' = _arguments s.
Proof.
  intros Hc Hr. unfold idle_state. cbv zeta.
  set (s1 := if State_beq (_state s) (_prevState s) then _ else _).
  assert (Hs1 : _command s1 = _command s /\ _arguments s1 = _arguments s
                /\ _prevState s1 = _state s).
  { subst s1. destruct (State_beq (_state s) (_prevState s)) eqn:Hb.
    - apply nh_State_beq_eq in Hb. repeat split; congruence.
    - debug_away. repeat split; reflexivity. }
  clearbody s1. destruct Hs1 as (A1 & A2 & A3).
  rewrite A1, Hc. cbn [Ascii.eqb Bool.eqb].
  pose proof (nh_checkPhotometryLED_ctl i s1 ltac:(rewrite A1, Hc; congruence))
    as (P1 & P2 & P3 & P4 & P5 & P6).
  destruct (nh_checkParamUpdate_accepts (checkPhotometryLED i s1))
    as (s' & E0 & E1 & E2 & E3 & E4).
  { congruence. }
  { rewrite P4, A2. exact Hr. }
  rewrite E0. cbn [bind]. exists s'. split; [reflexivity|].
  repeat split; congruence.
Qed.

Lemma nh_wait_request_state_accepts (i : Input) (s : Ctx) :
  _command s = "P"%char -> in_range (fst (_arguments s)) ->
  exists s', wait_request_state i s = Ok s'
    /\ _state s' = UPDATE_PARAMS_STATE
    /\ _prevState s' = _state s
    /\ _argcopy s' = _arguments s.
Proof.
  intros Hc Hr. unfold wait_request_state. cbv zeta.
  set (s1 := if State_beq (_state s) (_prevState s) then _ else _).
  assert (Hs1 : _command s1 = _command s /\ _arguments s1 = _arguments s
                /\ _prevState s1 = _state s).
  { subst s1. destruct (State_beq (_state s) (_prevState s)) eqn:Hb.
    - apply nh_State_beq_eq in Hb. repeat split; congruence.
    - debug_away. repeat split; reflexivity. }
  clearbody s1. destruct Hs1 as (A1 & A2 & A3).
  unfold checkQuit. rewrite A1, Hc. cbn [Ascii.eqb Bool.eqb].
  pose proof (nh_checkTrialStart_ctl i s1) as (T1 & T2 & T3 & T4 & T5 & T6).
  set (s2 := checkTrialStart i s1) in *.
  pose proof (nh_checkReferenceEvent_ctl i s2) as (R1 & R2 & R3 & R4 & R5 & R6).
  set (s3 := checkReferenceEvent i s2) in *.
  destruct (nh_checkParamUpdate_accepts s3) as (s' & E0 & E1 & E2 & E3 & E4).
  { congruence. }
  { rewrite R4, T4, A2. exact Hr. }
  rewrite E0. cbn [bind]. exists s'. split; [reflexivity|].
  repeat split; congruence.
Qed.

Lemma nh_loop_body_accepts (i : Input) (s : Ctx) :
  accepting s -> command i = "P"%char -> in_range (fst (args i)) ->
  exists s', loop_body i s = Ok s'
    /\ _state s' = UPDATE_PARAMS_STATE
    /\ _prevState s' = _state s.
Proof.
  intros Hacc Hc Hr. unfold loop_body. cbv zeta.
  cbn [_command set__command set__arguments]. rewrite Hc.
  cbn [Ascii.eqb Bool.eqb].
  cbn [_state set__arguments set__command].
  set (s0 := set__arguments (args i) (set__command "P" s)).
  assert (H0 : _command s0 = "P"%char /\ _arguments s0 = args i
               /\ _state s0 = _state s) by (repeat split; reflexivity).
  destruct H0 as (C0 & A0 & S0).
  assert (Hidle : exists s', idle_state i s0 = Ok s'
    /\ _state s' = UPDATE_PARAMS_STATE /\ _prevState s' = _state s).
  { destruct (nh_idle_state_accepts i s0 C0) as (s' & E0 & E1 & E2 & E3).
    - rewrite A0. exact Hr.
    - exists s'. split; [exact E0|]. split; [exact E1|congruence]. }
  destruct Hacc as [Hst|[Hst|Hst]]; rewrite Hst in *.
  - exact Hidle.
  - destruct (nh_wait_request_state_accepts i s0 C0) as (s' & E0 & E1 & E2 & E3).
    + rewrite A0. exact Hr.
    + exists s'. split; [exact E0|]. split; [exact E1|congruence].
  - exact Hidle.
Qed.

Lemma nh_runChrimsonTrain_blocks (i : Input) (s : Ctx) :
  runChrimsonTrain i s = duty_step i (begin_pulse i s).
Proof. reflexivity. Qed.

Lemma nh_begin_pulse_spec (i : Input) (s : Ctx) :
  let s1 := begin_pulse i s in
  same_ladder s s1
  /\ _params s1 = _params s /\ currentTrain s1 = currentTrain s
  /\ delays s1 = delays s
  /\ ((s1 = s /\ negb (inPulse s) && (pulseIndex s <? 5) = false)
      \/ (power_writes PIN_CHRIMSON_PWR s1 = S (power_writes PIN_CHRIMSON_PWR s)
          /\ inPulse s1 = true /\ _duty_state_CHRIMSON s1 = true
          /\ _duty_timer_CHRIMSON s1 = signedMillis i)).
Proof.
  unfold begin_pulse. destruct (_ && _).
  - unfold same_ladder, results, power_writes, delays.
    split_debug s; repeat split; try reflexivity; right; repeat split.
  - cbv zeta. repeat split; try reflexivity. left. split; reflexivity.
Qed.

Lemma nh_duty_step_spec (i : Input) (s : Ctx) :
  let s' := duty_step i s in
  same_ladder s s'
  /\ (power_writes PIN_CHRIMSON_PWR s' <= S (power_writes PIN_CHRIMSON_PWR s))%nat
  /\ ((currentTrain s' = currentTrain s /\ delays s' = delays s)
      \/ (currentTrain s' = currentTrain s + 1 /\ delays s' = S (delays s)
          /\ pulseIndex s' = 0 /\ inPulse s' = false)).
Proof.
  unfold duty_step. cbv zeta.
  destruct (inPulse s).
  2: { repeat split; try reflexivity; try lia; left; split; reflexivity. }
  destruct (_ && _).
  { unfold same_ladder, results, power_writes, delays. unfold_outputs. cbn.
    repeat split; try reflexivity; try lia; left; split; reflexivity. }
  destruct (_ && _).
  2: { repeat split; try reflexivity; try lia; left; split; reflexivity. }
  destruct (_ <? 5); unfold same_ladder, results, power_writes, delays;
    split_debug s; repeat split; try reflexivity; try lia;
    first [left; split; reflexivity | right; repeat split; reflexivity].
Qed.


Lemma nh_runChrimsonTrain_ladder (i : Input) (s : Ctx) :
  same_ladder s (runChrimsonTrain i s).
Proof.
  rewrite nh_runChrimsonTrain_blocks.
  pose proof (nh_begin_pulse_spec i s) as ((A1 & A2 & A3 & A4 & A5) & _).
  pose proof (nh_duty_step_spec i (begin_pulse i s)) as ((B1 & B2 & B3 & B4 & B5) & _).
  unfold same_ladder. repeat split; congruence.
Qed.


Lemma nh_State_beq_neq (a b : State) : State_beq a b = false -> a <> b.
Proof. destruct a, b; cbn; congruence. Qed.

Lemma nh_opto_ladder_state_stuck (i : Input) (s : Ctx) :
  in_first_phase s ->
  let s' := opto_ladder_state i s in
  in_first_phase s' /\ _prevState s' = OPTO_LADDER_STATE
  /\ forall code, results code s' = results code s.
Proof.
  intros (Hst & Hct & Hph). unfold opto_ladder_state. cbv zeta.
  set (s1 := if State_beq (_state s) (_prevState s) then s else _).
  assert (H1 : _state s1 = OPTO_LADDER_STATE /\ _prevState s1 = OPTO_LADDER_STATE
               /\ ladder_phase s1 = 0 /\ ladder_currentTrain s1 = 0
               /\ forall code, results code s1 = results code s).
  { subst s1. destruct (State_beq (_state s) (_prevState s)) eqn:Hb.
    - apply nh_State_beq_eq in Hb.
      repeat split; auto. congruence.
    - unfold resetTrain, results. split_debug s; rewrite ?Hst;
        repeat split; assumption || reflexivity. }
  clearbody s1. destruct H1 as (A1 & A2 & A3 & A4 & A5).
  rewrite A3, A4.
  change (0 =? 0) with true.
  change (0 <? Z.of_nat CHRIMSON_TRAINS_BEFORE_CHR2) with true. cbv iota.
  pose proof (nh_runChrimsonTrain_ladder i s1) as (B1 & B2 & B3 & B4 & B5).
  unfold in_first_phase. repeat split; try congruence.
Qed.

Lemma nh_loop_body_ladder_stuck (i : Input) (s : Ctx) :
  in_first_phase s -> command i <> "R"%char ->
  exists s', loop_body i s = Ok s'
    /\ in_first_phase s'
    /\ forall code, results code s' = results code s.
Proof.
  intros (Hst & Hct & Hph) HR. unfold loop_body. cbv zeta.
  cbn [_command set__command set__arguments].
  destruct (Ascii.eqb_spec (command i) "R"); [congruence|].
  cbn [_state set__arguments set__command]. rewrite Hst.
  eexists. split; [reflexivity|].
  pose proof (nh_opto_ladder_state_stuck i
                (set__arguments (args i) (set__command (command i) s)))
    as (E1 & E2 & E3).
  { repeat split; assumption. }
  split; [exact E1|exact E3].
Qed.

Lemma nh_run_ladder_stuck (inputs : list Input) (s : Ctx) :
  in_first_phase s -> Forall (fun i => command i <> "R"%char) inputs ->
  exists s', run inputs s = Ok s'
    /\ in_first_phase s'
    /\ forall code, results code s' = results code s.
Proof.
  intros Hs Hall. revert s Hs.
  induction Hall as [|i rest Hi Hrest IH]; intros s Hs.
  - exists s. repeat split; try apply Hs.
  - destruct (nh_loop_body_ladder_stuck i s Hs Hi) as (s1 & E0 & E1 & E2).
    destruct (IH s1 E1) as (s' & F0 & F1 & F2).
    exists s'. cbn [run]. rewrite E0. cbn [bind].
    split; [exact F0|]. split; [exact F1|].
    intros code. now rewrite F2, E2.
Qed.

Lemma nh_param_set_param_ne (p q : nat) (v : Q) (s : Ctx) :
  p <> q -> param p (set_param q v s) = param p s.
Proof.
  intros Hne. unfold param, set_param. cbn.
  now rewrite list_lookup_insert_ne by congruence.
Qed.




Lemma nh_recompute_other (t : Triple) (s : Ctx) :
  (forall p, In p (fields t) -> fst (_argcopy s) <> Z.of_nat p) ->
  recompute t s = s.
Proof.
  intros Hne. unfold recompute, fields in *.
  assert (H1 : on_DUTY_CYCLE t s = s).
  { unfold on_DUTY_CYCLE. cbv zeta.
    destruct (Z.eqb_spec (fst (_argcopy s)) (Z.of_nat (DUTY_CYCLE t)));
      [|reflexivity].
    exfalso. apply (Hne (DUTY_CYCLE t)); [cbn; tauto|assumption]. }
  rewrite H1.
  assert (H2 : on_UP_TIME t s = s).
  { unfold on_UP_TIME. cbv zeta.
    destruct (Z.eqb_spec (fst (_argcopy s)) (Z.of_nat (UP_TIME t)));
      [|reflexivity].
    exfalso. apply (Hne (UP_TIME t)); [cbn; tauto|assumption]. }
  rewrite H2.
  assert (H3 : on_DOWN_TIME t s = s).
  { unfold on_DOWN_TIME. cbv zeta.
    destruct (Z.eqb_spec (fst (_argcopy s)) (Z.of_nat (DOWN_TIME t)));
      [|reflexivity].
    exfalso. apply (Hne (DOWN_TIME t)); [cbn; tauto|assumption]. }
  rewrite H3.
  assert (H4 : on_FREQUENCY t s = s).
  { unfold on_FREQUENCY. cbv zeta.
    destruct (Z.eqb_spec (fst (_argcopy s)) (Z.of_nat (FREQUENCY t)));
      [|reflexivity].
    exfalso. apply (Hne (FREQUENCY t)); [cbn; tauto|assumption]. }
  rewrite H4.
  unfold on_PERIOD. cbv zeta.
  destruct (Z.eqb_spec (fst (_argcopy s)) (Z.of_nat (PERIOD t)));
    [|reflexivity].
  exfalso. apply (Hne (PERIOD t)); [cbn; tauto|assumption].
Qed.

(** An update of a parameter that is a field of no handled mode leaves
    all parameters as [checkParamUpdate] wrote them. *)
Lemma nh_update_params_state_other (i : Input) (s : Ctx) :
  (forall t p, In t handled -> In p (fields t) ->
               fst (_argcopy s) <> Z.of_nat p) ->
  _params (update_params_state i s) = _params s.
Proof.
  intros Hne. unfold update_params_state. cbv zeta.
  set (s1 := if _hold s then s else _).
  assert (H1 : _params s1 = _params s).
  { subst s1. destruct (_hold s); [reflexivity|].
    assert (Hr : forall t X, In t handled -> _argcopy X = _argcopy s ->
                        recompute t X = X).
    { intros t X Ht HX. apply nh_recompute_other. intros p Hp. rewrite HX.
      now apply (Hne t p). }
    rewrite (Hr chrimson) by (first [cbn; tauto | debug_away; unfold checkWarnings;
                                     destruct (_ || _); reflexivity]).
    rewrite (Hr ui_chrimson) by (first [cbn; tauto | debug_away; unfold checkWarnings;
                                     destruct (_ || _); reflexivity]).
    rewrite (Hr chr2)
      by (first [cbn; tauto
                | debug_away; unfold checkWarnings;
                  destruct (_ || _); destruct (_ || _);
                  try destruct (Qeq_bool _ 1); reflexivity]).
    debug_away. unfold checkWarnings.
    destruct (_ || _); destruct (_ || _);
      try destruct (Qeq_bool _ 1); reflexivity. }
  clearbody s1. unfold checkQuit, checkUpdateComplete.
  destruct (Ascii.eqb _ "Q"); [exact H1|].
  destruct (Ascii.eqb _ "O"); [|exact H1].
  cbv zeta. debug_away. exact H1.
Qed.

Lemma explicit_list {A : Type} (d : A) (n : nat) (l : list A) :
  length l = n -> l = map (fun k => default d (l !! k)) (seq 0 n).
Proof.
  intros Hn. apply list_eq. intros k.
  destruct (le_lt_dec n k) as [Hge|Hlt].
  - rewrite lookup_ge_None_2 by lia.
    symmetry. apply lookup_ge_None_2. rewrite length_map, length_seq. lia.
  - rewrite list_lookup_fmap.
    rewrite lookup_seq_lt by lia. cbn.
    destruct (l !! k) eqn:Hk; [reflexivity|].
    apply lookup_ge_None_1 in Hk. lia.
Qed.

Lemma nh_recompute_params (t : Triple) (X Y : Ctx) :
  _argcopy X = _argcopy Y -> _params X = _params Y ->
  _argcopy (recompute t X) = _argcopy (recompute t Y)
  /\ _params (recompute t X) = _params (recompute t Y).
Proof.
  assert (H1 : forall X Y, _argcopy X = _argcopy Y -> _params X = _params Y ->
    _argcopy (on_DUTY_CYCLE t X) = _argcopy (on_DUTY_CYCLE t Y)
    /\ _params (on_DUTY_CYCLE t X) = _params (on_DUTY_CYCLE t Y)).
  { intros A B Ha Hp. unfold on_DUTY_CYCLE, vdebug. cbv zeta. rewrite Ha.
    destruct (_ =? _); [|split; assumption].
    destruct (verbose t); debug_away; unfold echo, set_param, param; cbn;
      rewrite Ha, Hp; split; reflexivity. }
  assert (H2 : forall X Y, _argcopy X = _argcopy Y -> _params X = _params Y ->
    _argcopy (on_UP_TIME t X) = _argcopy (on_UP_TIME t Y)
    /\ _params (on_UP_TIME t X) = _params (on_UP_TIME t Y)).
  { intros A B Ha Hp. unfold on_UP_TIME. cbv zeta. rewrite Ha.
    destruct (_ =? _); [|split; assumption].
    unfold echo, set_param, param; cbn; rewrite Ha, Hp; split; reflexivity. }
  assert (H3 : forall X Y, _argcopy X = _argcopy Y -> _params X = _params Y ->
    _argcopy (on_DOWN_TIME t X) = _argcopy (on_DOWN_TIME t Y)
    /\ _params (on_DOWN_TIME t X) = _params (on_DOWN_TIME t Y)).
  { intros A B Ha Hp. unfold on_DOWN_TIME. cbv zeta. rewrite Ha.
    destruct (_ =? _); [|split; assumption].
    unfold echo, set_param, param; cbn; rewrite Ha, Hp; split; reflexivity. }
  assert (H4 : forall X Y, _argcopy X = _argcopy Y -> _params X = _params Y ->
    _argcopy (on_FREQUENCY t X) = _argcopy (on_FREQUENCY t Y)
    /\ _params (on_FREQUENCY t X) = _params (on_FREQUENCY t Y)).
  { intros A B Ha Hp. unfold on_FREQUENCY, vdebug. cbv zeta. rewrite Ha.
    destruct (_ =? _); [|split; assumption].
    destruct (verbose t); debug_away; unfold echo, set_param, param; cbn;
      rewrite Ha, Hp; split; reflexivity. }
  assert (H5 : forall X Y, _argcopy X = _argcopy Y -> _params X = _params Y ->
    _argcopy (on_PERIOD t X) = _argcopy (on_PERIOD t Y)
    /\ _params (on_PERIOD t X) = _params (on_PERIOD t Y)).
  { intros A B Ha Hp. unfold on_PERIOD, vdebug. cbv zeta. rewrite Ha.
    destruct (_ =? _); [|split; assumption].
    destruct (verbose t); debug_away; unfold echo, set_param, param; cbn;
      rewrite Ha, Hp; split; reflexivity. }
  intros Ha Hp. unfold recompute.
  destruct (H1 X Y Ha Hp) as (A1 & P1).
  destruct (H2 _ _ A1 P1) as (A2 & P2).
  destruct (H3 _ _ A2 P2) as (A3 & P3).
  destruct (H4 _ _ A3 P3) as (A4 & P4).
  apply (H5 _ _ A4 P4).
Qed.

Lemma nh_update_params_state_blocks (i : Input) (s : Ctx) :
  update_params_state i s
  = transitions (if _hold s then s else entry_action i s).
Proof.
  unfold update_params_state, transitions, entry_action, announce,
    photometry_changed.
  reflexivity.
Qed.

Lemma nh_announce_params (i : Input) (s : Ctx) :
  _argcopy (announce i s) = _argcopy s /\ _params (announce i s) = _params s.
Proof.
  unfold announce, checkWarnings. cbv zeta. debug_away.
  destruct (_ || _); split; reflexivity.
Qed.

Lemma nh_photometry_changed_params (i : Input) (s : Ctx) :
  _argcopy (photometry_changed i s) = _argcopy s
  /\ _params (photometry_changed i s) = _params s.
Proof.
  unfold photometry_changed. cbv zeta.
  destruct (_ || _); [|split; reflexivity].
  debug_away. destruct (Qeq_bool _ 1); split; reflexivity.
Qed.

Lemma nh_transitions_params (s : Ctx) : _params (transitions s) = _params s.
Proof.
  unfold transitions, checkQuit, checkUpdateComplete.
  destruct (Ascii.eqb _ "Q"); [reflexivity|].
  destruct (Ascii.eqb _ "O"); [|reflexivity].
  cbv zeta. debug_away. reflexivity.
Qed.

Lemma nh_params_set_out (o : list (Effect Q)) (s : Ctx) :
  _params (set_out o s) = _params s.
Proof. reflexivity. Qed.

Lemma nh_entry_action_params (i : Input) (s : Ctx) :
  _params (entry_action i s)
  = _params (recompute chr2 (recompute ui_chrimson (recompute chrimson s))).
Proof.
  unfold entry_action.
  destruct (nh_debug_out "Collecting parameter update from Matlab HOST...holding in update_params_state()" []
              (recompute chr2 (photometry_changed i (recompute ui_chrimson
                 (recompute chrimson (announce i s)))))) as (o & Ho).
  rewrite Ho. clear Ho.
  rewrite nh_params_set_out.
  destruct (nh_announce_params i s) as (A0 & P0).
  destruct (nh_recompute_params chrimson _ _ A0 P0) as (A1 & P1).
  destruct (nh_recompute_params ui_chrimson _ _ A1 P1) as (A2 & P2).
  destruct (nh_photometry_changed_params i
              (recompute ui_chrimson (recompute chrimson (announce i s))))
    as (A3 & P3).
  rewrite <- A3 in A2. rewrite <- P3 in P2.
  exact (proj2 (nh_recompute_params chr2 _ _ A2 P2)).
Qed.

Lemma nh_update_params_state_params (i : Input) (s : Ctx) :
  _hold s = false ->
  _params (update_params_state i s)
  = _params (recompute chr2 (recompute ui_chrimson (recompute chrimson s))).
Proof.
  intros Hh. rewrite nh_update_params_state_blocks, Hh, nh_transitions_params.
  apply nh_entry_action_params.
Qed.

Lemma nh_on_DUTY_CYCLE_spec (t : Triple) (s : Ctx) :
  (fst (_argcopy s) <> Z.of_nat (DUTY_CYCLE t) -> on_DUTY_CYCLE t s = s)
  /\ _argcopy (on_DUTY_CYCLE t s) = _argcopy s
  /\ (fst (_argcopy s) = Z.of_nat (DUTY_CYCLE t) ->
      _params (on_DUTY_CYCLE t s)
      = let value := inject_Z (snd (_argcopy s)) in
        let cycle_time := default 0 (_params s !! PERIOD t) in
        let ps := <[UP_TIME t := value / 100 * cycle_time]> (_params s) in
        <[DOWN_TIME t := cycle_time - default 0 (ps !! UP_TIME t)]> ps)%Q.
Proof.
  unfold on_DUTY_CYCLE, vdebug. cbv zeta.
  destruct (Z.eqb_spec (fst (_argcopy s)) (Z.of_nat (DUTY_CYCLE t))).
  - split; [congruence|]. destruct (verbose t); debug_away; split; reflexivity.
  - split; [reflexivity|]. split; [reflexivity|congruence].
Qed.

Lemma nh_on_UP_TIME_spec (t : Triple) (s : Ctx) :
  (fst (_argcopy s) <> Z.of_nat (UP_TIME t) -> on_UP_TIME t s = s)
  /\ _argcopy (on_UP_TIME t s) = _argcopy s
  /\ (fst (_argcopy s) = Z.of_nat (UP_TIME t) ->
      _params (on_UP_TIME t s)
      = let value := inject_Z (snd (_argcopy s)) in
        let cycle_time := default 0 (_params s !! PERIOD t) in
        let ps := <[DUTY_CYCLE t := 100 * value / cycle_time]> (_params s) in
        <[DOWN_TIME t := cycle_time - value]> ps)%Q.
Proof.
  unfold on_UP_TIME. cbv zeta.
  destruct (Z.eqb_spec (fst (_argcopy s)) (Z.of_nat (UP_TIME t))).
  - split; [congruence|]. split; reflexivity.
  - split; [reflexivity|]. split; [reflexivity|congruence].
Qed.

Lemma nh_on_DOWN_TIME_spec (t : Triple) (s : Ctx) :
  (fst (_argcopy s) <> Z.of_nat (DOWN_TIME t) -> on_DOWN_TIME t s = s)
  /\ _argcopy (on_DOWN_TIME t s) = _argcopy s
  /\ (fst (_argcopy s) = Z.of_nat (DOWN_TIME t) ->
      _params (on_DOWN_TIME t s)
      = let value := inject_Z (snd (_argcopy s)) in
        let cycle_time := default 0 (_params s !! PERIOD t) in
        let ps := <[UP_TIME t := cycle_time - value]> (_params s) in
        <[DUTY_CYCLE t := 100 * default 0 (ps !! UP_TIME t) / cycle_time]> ps)%Q.
Proof.
  unfold on_DOWN_TIME. cbv zeta.
  destruct (Z.eqb_spec (fst (_argcopy s)) (Z.of_nat (DOWN_TIME t))).
  - split; [congruence|]. split; reflexivity.
  - split; [reflexivity|]. split; [reflexivity|congruence].
Qed.

Lemma nh_on_FREQUENCY_spec (t : Triple) (s : Ctx) :
  (fst (_argcopy s) <> Z.of_nat (FREQUENCY t) -> on_FREQUENCY t s = s)
  /\ _argcopy (on_FREQUENCY t s) = _argcopy s
  /\ (fst (_argcopy s) = Z.of_nat (FREQUENCY t) ->
      _params (on_FREQUENCY t s)
      = let value := inject_Z (snd (_argcopy s)) in
        let ps := <[PERIOD t := 1000 / value]> (_params s) in
        let cycle_time := default 0 (ps !! PERIOD t) in
        let ps := <[UP_TIME t := default 0 (ps !! DUTY_CYCLE t) / 100
                                 * cycle_time]> ps in
        <[DOWN_TIME t := cycle_time - default 0 (ps !! UP_TIME t)]> ps)%Q.
Proof.
  unfold on_FREQUENCY, vdebug. cbv zeta.
  destruct (Z.eqb_spec (fst (_argcopy s)) (Z.of_nat (FREQUENCY t))).
  - split; [congruence|]. destruct (verbose t); debug_away; split; reflexivity.
  - split; [reflexivity|]. split; [reflexivity|congruence].
Qed.

Lemma nh_on_PERIOD_spec (t : Triple) (s : Ctx) :
  (fst (_argcopy s) <> Z.of_nat (PERIOD t) -> on_PERIOD t s = s)
  /\ _argcopy (on_PERIOD t s) = _argcopy s
  /\ (fst (_argcopy s) = Z.of_nat (PERIOD t) ->
      _params (on_PERIOD t s)
      = let value := inject_Z (snd (_argcopy s)) in
        let ps := <[FREQUENCY t := 1000 / value]> (_params s) in
        let cycle_time := value in
        let ps := <[UP_TIME t := default 0 (ps !! DUTY_CYCLE t) / 100
                                 * cycle_time]> ps in
        <[DOWN_TIME t := cycle_time - default 0 (ps !! UP_TIME t)]> ps)%Q.
Proof.
  unfold on_PERIOD, vdebug. cbv zeta.
  destruct (Z.eqb_spec (fst (_argcopy s)) (Z.of_nat (PERIOD t))).
  - split; [congruence|]. destruct (verbose t); debug_away; split; reflexivity.
  - split; [reflexivity|]. split; [reflexivity|congruence].
Qed.

Lemma nh_recompute_argcopy (t : Triple) (s : Ctx) :
  _argcopy (recompute t s) = _argcopy s.
Proof. apply nh_recompute_control. Qed.

Lemma nh_on_DUTY_CYCLE_argcopy (t : Triple) (s : Ctx) :
  _argcopy (on_DUTY_CYCLE t s) = _argcopy s.
Proof. apply nh_on_DUTY_CYCLE_spec. Qed.
Lemma nh_on_UP_TIME_argcopy (t : Triple) (s : Ctx) :
  _argcopy (on_UP_TIME t s) = _argcopy s.
Proof. apply nh_on_UP_TIME_spec. Qed.
Lemma nh_on_DOWN_TIME_argcopy (t : Triple) (s : Ctx) :
  _argcopy (on_DOWN_TIME t s) = _argcopy s.
Proof. apply nh_on_DOWN_TIME_spec. Qed.
Lemma nh_on_FREQUENCY_argcopy (t : Triple) (s : Ctx) :
  _argcopy (on_FREQUENCY t s) = _argcopy s.
Proof. apply nh_on_FREQUENCY_spec. Qed.
Lemma nh_on_PERIOD_argcopy (t : Triple) (s : Ctx) :
  _argcopy (on_PERIOD t s) = _argcopy s.
Proof. apply nh_on_PERIOD_spec. Qed.

Ltac argcopy_known Ha :=
  rewrite ?nh_recompute_argcopy, ?nh_on_DUTY_CYCLE_argcopy, ?nh_on_UP_TIME_argcopy,
    ?nh_on_DOWN_TIME_argcopy, ?nh_on_FREQUENCY_argcopy, ?nh_on_PERIOD_argcopy, Ha.

Ltac other_mode Ha :=
  argcopy_known Ha; cbn;
  let p := fresh "p" in let Hin := fresh "Hin" in
  intros p Hin;
  repeat (destruct Hin as [<-|Hin]; [discriminate|]); destruct Hin.

Theorem nh_update_recomputes_handled (t : Triple) (p : nat) (i : Input)
    (s : Ctx) (v : Z) :
  In t handled -> In p (fields t) ->
  wf s -> _hold s = false ->
  _argcopy s = (Z.of_nat p, v) ->
  param p s = inject_Z v ->
  authoritative_ok t p v s ->
  consistent t (update_params_state i s).
Proof.
  intros Ht Hf Hwf Hh Ha Hp Hok.
  unfold consistent, authoritative_ok, param in *.
  rewrite (nh_update_params_state_params i s Hh).
  pose proof (explicit_list 0%Q _ _ Hwf) as Hl.
  cbn [map seq _NUM_PARAMS] in Hl.
  repeat match type of Hl with
  | context [default _ (_ !! ?k)] =>
      let x := fresh "x" in
      set (x := default 0%Q (_params s !! k)) in Hl; clearbody x
  end.
  unfold handled in Ht.
  repeat (destruct Ht as [<-|Ht]; [|]); [..|destruct Ht];
  unfold fields in Hf;
  (repeat (destruct Hf as [<-|Hf]; [|]); [..|destruct Hf]);
  try (rewrite (nh_recompute_other chrimson) by other_mode Ha);
  try (rewrite (nh_recompute_other ui_chrimson) by other_mode Ha);
  try (rewrite (nh_recompute_other chr2) by other_mode Ha);
  unfold recompute;
  try (rewrite (proj1 (nh_on_DUTY_CYCLE_spec _ _))
         by (argcopy_known Ha; discriminate));
  try (rewrite (proj1 (nh_on_UP_TIME_spec _ _))
         by (argcopy_known Ha; discriminate));
  try (rewrite (proj1 (nh_on_DOWN_TIME_spec _ _))
         by (argcopy_known Ha; discriminate));
  try (rewrite (proj1 (nh_on_FREQUENCY_spec _ _))
         by (argcopy_known Ha; discriminate));
  try (rewrite (proj1 (nh_on_PERIOD_spec _ _))
         by (argcopy_known Ha; discriminate));
  first
    [ rewrite (proj2 (proj2 (nh_on_DUTY_CYCLE_spec _ _))) by (rewrite Ha; reflexivity)
    | rewrite (proj2 (proj2 (nh_on_UP_TIME_spec _ _))) by (rewrite Ha; reflexivity)
    | rewrite (proj2 (proj2 (nh_on_DOWN_TIME_spec _ _))) by (rewrite Ha; reflexivity)
    | rewrite (proj2 (proj2 (nh_on_FREQUENCY_spec _ _))) by (rewrite Ha; reflexivity)
    | rewrite (proj2 (proj2 (nh_on_PERIOD_spec _ _))) by (rewrite Ha; reflexivity) ];
  cbv zeta; rewrite Hl, Ha; rewrite Hl in Hp, Hok;
  cbn -[Qmult Qdiv Qplus Qminus Qinv Qopp inject_Z Qeq] in *;
  subst.
  all: try (assert (Hnz : ~ Qeq (inject_Z v) 0)
              by (intros E; apply Hok; unfold Qeq in E; cbn in E; lia)).
  all: try (destruct Hok as (Hper & Hpf)).
  all: repeat split; try assumption; try (field; assumption).
Qed.


End NHFacts.

(** ** The claims *)

Module Claims.
Import Svedberg SvedbergSpec SvedbergFacts.



(** The default Chrimson train (5 pulses of 10 ms, 100 ms apart) on the
    millisecond clock: the fifth pulse ends in the call at 550 ms, and
    that call completes the train. *)
Example default_train_550 :
  currentTrain (advance Chrimson ms_clock 0 550 start) = 0
  /\ ons PIN_CHRIMSON_STIM (advance Chrimson ms_clock 0 550 start) = 5%nat
  /\ currentTrain (advance Chrimson ms_clock 0 551 start) = 1
  /\ ons PIN_CHRIMSON_STIM (advance Chrimson ms_clock 0 551 start) = 5%nat
  /\ offs PIN_CHRIMSON_STIM (advance Chrimson ms_clock 0 551 start)
     = (5 + offs PIN_CHRIMSON_STIM start)%nat.
Proof. vm_compute. repeat split. Qed.




(** A request during a pulse: the flag is cleared and the LED stays on. *)
Example request_during_pulse :
  exists s s',
    run first_pulse_on start = Ok s
    /\ inPulse s = true /\ level PIN_CHRIMSON_STIM s = Some true
    /\ loop_body (msg 1005 "C" 0 0) s = Ok s'
    /\ inPulse s' = false /\ level PIN_CHRIMSON_STIM s' = Some true.
Proof.
  eexists. eexists.
  split; [vm_compute; reflexivity|].
  split; [vm_compute; reflexivity|].
  split; [vm_compute; reflexivity|].
  split; [vm_compute; reflexivity|].
  split; vm_compute; reflexivity.
Qed.

(** C10.  The two channels keep their pulses in the same variables.  A
    pulse that the engine of one channel has started is taken by the
    engine of the other channel for its own: once the other channel's
    pulse width has passed, its engine clears the in-pulse flag, counts
    the pulse (or completes a train with it) and switches its own LED
    off, while the LED that was switched on stays on.  And beginning a
    session of the other channel sets the pulse index, the in-pulse flag
    and the train counter to 0 whatever the first channel had there. *)
Theorem C10_channels_share_bookkeeping `{AoutIndex} (c : Channel)
    (i j : Input) (s : Ctx) :
  inPulse s = false ->
  pulseIndex s < param (NUM_PULSES c) s ->
  pulseIndex s < param (NUM_PULSES (other c)) s ->
  param (IPI c) s <= elapsed (now i) (ipi c s) ->
  0 < param (PULSE_WIDTH c) s ->
  param (PULSE_WIDTH (other c)) s <= elapsed (now j) (now i) ->
  let s1 := engine c i s in
  let s2 := engine (other c) j s1 in
  let s3 := stimulate (other c) s1 in
  (inPulse s1 = true /\ ons (stim c) s1 = S (ons (stim c) s))
  /\ (inPulse s2 = false
      /\ (pulseIndex s2 = pulseIndex s + 1
          \/ (pulseIndex s2 = 0 /\ currentTrain s2 = currentTrain s + 1))
      /\ offs (stim (other c)) s2 = S (offs (stim (other c)) s1)
      /\ offs (stim c) s2 = offs (stim c) s1)
  /\ (inPulse s3 = false /\ pulseIndex s3 = 0 /\ currentTrain s3 = 0
      /\ offs (stim c) s3 = offs (stim c) s1).
Proof.
  intros Hin Hidx Hidx' Hipi Hw Hw'. cbv zeta. rewrite !engine_runTrain.
  pose proof (runTrain_on c i s Hin Hidx Hipi Hw)
    as (A1 & A2 & A3 & A4 & A5 & A6 & A7).
  set (s1 := runTrain c i s) in *.
  assert (Hp : _params s1 = _params s) by apply A7.
  assert (Ht : currentTrain s1 = currentTrain s) by apply A7.
  assert (B : pulseIndex s1 < param (NUM_PULSES (other c)) s1).
  { unfold param. rewrite Hp, A3. exact Hidx'. }
  assert (W : param (PULSE_WIDTH (other c)) s1
              <= elapsed (now j) (pulseTimer s1)).
  { unfold param. rewrite Hp, A2. exact Hw'. }
  pose proof (runTrain_off (other c) j s1 A1 B W) as (O1 & O2 & O3 & O4).
  pose proof (runTrain_other_pin c j s1) as (P1 & P2).
  pose proof (stimulate_resets (other c) s1)
    as (R1 & R2 & R3 & _ & _ & _ & _ & R8).
  split; [split; assumption|]. split.
  - destruct O4 as [(_ & M2 & M3 & _)|(_ & L1 & L2 & L3 & _)].
    + split; [assumption|]. split; [left; congruence|]. split; assumption.
    + split; [assumption|]. split; [right; split; congruence|].
      split; assumption.
  - split; [assumption|]. split; [assumption|]. split; [assumption|].
    apply R8.
Qed.

(** A Chrimson pulse starts at 100 ms; the ChR2 engine, called at 105
    ms, ends it. *)
Lemma C10_witness :
  let s1 := engine Chrimson (tick 100) start in
  let s2 := engine ChR2 (tick 105) s1 in
  let s3 := stimulate ChR2 s1 in
  (inPulse s1 = true
   /\ ons PIN_CHRIMSON_STIM s1 = S (ons PIN_CHRIMSON_STIM start))
  /\ (inPulse s2 = false
      /\ (pulseIndex s2 = pulseIndex start + 1
          \/ (pulseIndex s2 = 0 /\ currentTrain s2 = currentTrain start + 1))
      /\ offs PIN_CHR2_STIM s2 = S (offs PIN_CHR2_STIM s1)
      /\ offs PIN_CHRIMSON_STIM s2 = offs PIN_CHRIMSON_STIM s1)
  /\ (inPulse s3 = false /\ pulseIndex s3 = 0 /\ currentTrain s3 = 0
      /\ offs PIN_CHRIMSON_STIM s3 = offs PIN_CHRIMSON_STIM s1).
Proof.
  apply (C10_channels_share_bookkeeping Chrimson (tick 100) (tick 105) start).
  - vm_compute; reflexivity.
  - vm_compute; reflexivity.
  - vm_compute; reflexivity.
  - vm_compute; congruence.
  - vm_compute; reflexivity.
  - vm_compute; congruence.
Defined.

(** *** Claims that involve the NH variant

    From here on the unqualified names are those of the NH variant. *)
Import NH NHSpec NHFacts.

(** C1.  The host writes 20 to UI_CHR2_FREQUENCY.  After the entry
    action of UPDATE_PARAMS the parameter holds 20 and UI_CHR2_PERIOD still
    holds 100, not 1000/20: the mode UI_CHR2 is recomputed by no block. *)
Theorem C1_ui_chr2_not_recomputed :
  exists s,
    run write_ui_chr2_frequency start = Ok s
    /\ _state s = UPDATE_PARAMS_STATE /\ _hold s = true
    /\ Qeq (param UI_CHR2_FREQUENCY s) 20
    /\ Qeq (param UI_CHR2_PERIOD s) 100
    /\ ~ consistent ui_chr2 s.
Proof.
  eexists.
  split; [vm_compute; reflexivity|].
  split; [vm_compute; reflexivity|].
  split; [vm_compute; reflexivity|].
  split; [vm_compute; reflexivity|].
  split; [vm_compute; reflexivity|].
  unfold consistent. intros (E & _). vm_compute in E. discriminate.
Qed.

(** The same write to CHR2_FREQUENCY is followed by the recomputation. *)
Example chr2_frequency_recomputed :
  exists s,
    run write_chr2_frequency start = Ok s
    /\ Qeq (param CHR2_PERIOD s) 50
    /\ consistent chr2 s.
Proof.
  eexists.
  split; [vm_compute; reflexivity|].
  split; [vm_compute; reflexivity|].
  unfold consistent. repeat split; vm_compute; reflexivity.
Qed.

(** C3.  In both variants: a parameter write with an index of the array,
    seen in IDLE, WAIT_REQUEST or the initial state, takes the machine to
    UPDATE_PARAMS; it is still there after any iterations whose command is
    none of ['O'], ['Q'] and ['R']; the iteration with ['O'] then takes it to
    the state it was in at the request. *)
Theorem C3_held_until_complete `{Svedberg.AoutIndex} :
  (forall (s : Svedberg.Ctx) (request complete : Input) (waiting : list Input),
     SvedbergSpec.accepting s ->
     command request = "P"%char ->
     SvedbergSpec.in_range (fst (args request)) ->
     Forall SvedbergSpec.passive waiting ->
     command complete = "O"%char ->
     exists s1 s2 s3,
       Svedberg.loop_body request s = Ok s1
       /\ Svedberg._state s1 = Svedberg.UPDATE_PARAMS_STATE
       /\ Svedberg.run waiting s1 = Ok s2
       /\ Svedberg._state s2 = Svedberg.UPDATE_PARAMS_STATE
       /\ Svedberg.loop_body complete s2 = Ok s3
       /\ Svedberg._state s3 = Svedberg._state s)
  /\ (forall (s : Ctx) (request complete : Input) (waiting : list Input),
        accepting s ->
        command request = "P"%char ->
        in_range (fst (args request)) ->
        Forall passive waiting ->
        command complete = "O"%char ->
        exists s1 s2 s3,
          loop_body request s = Ok s1
          /\ _state s1 = UPDATE_PARAMS_STATE
          /\ run waiting s1 = Ok s2
          /\ _state s2 = UPDATE_PARAMS_STATE
          /\ loop_body complete s2 = Ok s3
          /\ _state s3 = _state s).
Proof.
  split.
  - intros s request complete waiting Hacc Hp Hr Hw Ho.
    destruct (SvedbergFacts.loop_body_accepts request s Hacc Hp Hr)
      as (s1 & E0 & E1 & E2 & E3).
    destruct (SvedbergFacts.run_update_stays waiting s1 E1 E3 Hw)
      as (s2 & F0 & F1 & F2 & F3).
    destruct (SvedbergFacts.loop_body_update_complete complete s2 F1 F3 Ho)
      as (s3 & G0 & G1 & G2).
    exists s1, s2, s3. repeat split; try assumption. congruence.
  - intros s request complete waiting Hacc Hp Hr Hw Ho.
    destruct (nh_loop_body_accepts request s Hacc Hp Hr) as (s1 & E0 & E1 & E2).
    destruct (nh_run_update_stays waiting s1 E1 Hw) as (s2 & F0 & F1 & F2).
    destruct (nh_loop_body_update_complete complete s2 F1 Ho)
      as (s3 & G0 & G1 & G2).
    exists s1, s2, s3. repeat split; try assumption. congruence.
Qed.

(** A write to parameter 3 after start-up, three iterations (one of
    them with a second write, which is not looked at), then ['O']. *)
Lemma C3_witness :
  (exists s1 s2 s3,
     Svedberg.loop_body (msg 2 "P" 3 5) SvedbergSpec.start = Ok s1
     /\ Svedberg._state s1 = Svedberg.UPDATE_PARAMS_STATE
     /\ Svedberg.run [tick 3; msg 4 "P" 4 7; tick 5] s1 = Ok s2
     /\ Svedberg._state s2 = Svedberg.UPDATE_PARAMS_STATE
     /\ Svedberg.loop_body (msg 9 "O" 0 0) s2 = Ok s3
     /\ Svedberg._state s3 = Svedberg._state SvedbergSpec.start)
  /\ (exists s1 s2 s3,
        loop_body (msg 2 "P" 3 5) start = Ok s1
        /\ _state s1 = UPDATE_PARAMS_STATE
        /\ run [tick 3; msg 4 "P" 4 7; tick 5] s1 = Ok s2
        /\ _state s2 = UPDATE_PARAMS_STATE
        /\ loop_body (msg 9 "O" 0 0) s2 = Ok s3
        /\ _state s3 = _state start).
Proof.
  split.
  - apply (proj1 C3_held_until_complete SvedbergSpec.start (msg 2 "P" 3 5)
             (msg 9 "O" 0 0) [tick 3; msg 4 "P" 4 7; tick 5]).
    + right. right. reflexivity.
    + reflexivity.
    + unfold SvedbergSpec.in_range. vm_compute. split; congruence.
    + repeat constructor; vm_compute; congruence.
    + reflexivity.
  - apply (proj2 C3_held_until_complete start (msg 2 "P" 3 5)
             (msg 9 "O" 0 0) [tick 3; msg 4 "P" 4 7; tick 5]).
    + right. right. reflexivity.
    + reflexivity.
    + unfold in_range. vm_compute. split; congruence.
    + repeat constructor; vm_compute; congruence.
    + reflexivity.
Defined.

(** In both variants ['Q'] takes the machine from UPDATE_PARAMS to IDLE,
    and ['R'] to the initial state, with no ['O'] received. *)
Lemma C3_left_without_complete :
  (exists s1 s2 s3,
     Svedberg.run [tick 1; msg 2 "P" 3 5] SvedbergSpec.start = Ok s1
     /\ Svedberg._state s1 = Svedberg.UPDATE_PARAMS_STATE
     /\ Svedberg.loop_body (msg 3 "Q" 0 0) s1 = Ok s2
     /\ Svedberg._state s2 = Svedberg.IDLE_STATE
     /\ Svedberg.loop_body (msg 3 "R" 0 0) s1 = Ok s3
     /\ Svedberg._state s3 = Svedberg._INIT)
  /\ (exists s1 s2 s3,
        run [tick 1; msg 2 "P" 3 5] start = Ok s1
        /\ _state s1 = UPDATE_PARAMS_STATE
        /\ loop_body (msg 3 "Q" 0 0) s1 = Ok s2
        /\ _state s2 = IDLE_STATE
        /\ loop_body (msg 3 "R" 0 0) s1 = Ok s3
        /\ _state s3 = _INIT).
Proof.
  split.
  - eexists. eexists. eexists.
    split; [vm_compute; reflexivity|].
    split; [vm_compute; reflexivity|].
    split; [vm_compute; reflexivity|].
    split; [vm_compute; reflexivity|].
    split; vm_compute; reflexivity.
  - eexists. eexists. eexists.
    split; [vm_compute; reflexivity|].
    split; [vm_compute; reflexivity|].
    split; [vm_compute; reflexivity|].
    split; [vm_compute; reflexivity|].
    split; vm_compute; reflexivity.
Qed.







(** C7.  Svedberg: UPDATE_PARAMS is entered with the Chrimson session
    flag of the host set, and no warning event is sent.  NH: it is entered
    with the ChR2 session flag of the host set, and no warning event is
    sent. *)
Theorem C7_entry_without_warning :
  (exists s,
     Svedberg.run SvedbergSpec.update_during_session SvedbergSpec.start = Ok s
     /\ Svedberg._state s = Svedberg.UPDATE_PARAMS_STATE
     /\ Svedberg._hold s = true
     /\ Svedberg._UI_CHRIMSON_stim_in_progress s = true
     /\ SvedbergSpec.warnings s = 0%nat)
  /\ (exists s,
        run (update_during_session "D" 1) start = Ok s
        /\ _state s = UPDATE_PARAMS_STATE
        /\ _hold s = true
        /\ _UI_CHR2_stim_in_progress s = true
        /\ warnings s = 0%nat).
Proof.
  split.
  - eexists.
    split; [vm_compute; reflexivity|].
    split; [vm_compute; reflexivity|].
    split; [vm_compute; reflexivity|].
    split; vm_compute; reflexivity.
  - eexists.
    split; [vm_compute; reflexivity|].
    split; [vm_compute; reflexivity|].
    split; [vm_compute; reflexivity|].
    split; vm_compute; reflexivity.
Qed.

(** NH, Chrimson session flag set: one warning event at the entry, none
    in the iterations that follow. *)
Example chrimson_warning_once :
  warnings (after (update_during_session "C" 0)) = 0%nat
  /\ warnings (after (update_during_session "C" 1)) = 1%nat
  /\ warnings (after (update_during_session "C" 5)) = 1%nat.
Proof. vm_compute. repeat split. Qed.

(** C8.  NH: once the ladder has been asked for after start-up, whatever
    iterations follow short of a reset, the machine is in OPTO_LADDER with
    the ladder in its first phase, and no result code has been sent. *)
Theorem C8_nh_ladder_stays_in_first_phase (inputs : list Input) :
  Forall (fun i => command i <> "R"%char) inputs ->
  exists s,
    run (ladder_request ++ inputs) start = Ok s
    /\ _state s = OPTO_LADDER_STATE
    /\ ladder_phase s = 0
    /\ forall code, results code s = 0%nat.
Proof.
  intros Hall.
  assert (H0 : exists s0, run ladder_request start = Ok s0
                          /\ in_first_phase s0
                          /\ forall code, results code s0 = 0%nat).
  { eexists. split; [vm_compute; reflexivity|].
    split; [repeat split; vm_compute; reflexivity|].
    intros code. vm_compute. reflexivity. }
  destruct H0 as (s0 & R0 & I0 & Z0).
  destruct (nh_run_ladder_stuck inputs s0 I0 Hall) as (s & R1 & (I1 & I2 & I3) & Z1).
  exists s. split.
  - clear - R0 R1. revert R0. generalize start.
    induction ladder_request as [|i rest IH]; intros s1 R0.
    + cbn in *. injection R0 as ->. exact R1.
    + cbn [app run] in *. destruct (loop_body i s1); cbn [bind] in *.
      * now apply IH.
      * discriminate.
  - split; [exact I1|]. split; [exact I3|].
    intros code. now rewrite Z1.
Qed.

Lemma C8_witness :
  exists s,
    run (ladder_request ++ ticks 3 3) start = Ok s
    /\ _state s = OPTO_LADDER_STATE
    /\ ladder_phase s = 0
    /\ forall code, results code s = 0%nat.
Proof.
  apply (C8_nh_ladder_stays_in_first_phase (ticks 3 3)).
  repeat constructor; vm_compute; congruence.
Defined.

(** Svedberg, default parameters: the ladder goes through its three
    phases (10 Chrimson pulses, 5 ChR2 pulses, 10 Chrimson pulses, the
    delays begun at 1101 and 2268 ms) and ends in WAIT_REQUEST with the
    code CODE_OPTOTAG; asked for after a session that was left with ['Q'],
    it ends after its first train, with no such code. *)
Example svedberg_ladder :
  (let s := SvedbergSpec.after (ladder 4500) in
   Svedberg._state s = Svedberg.WAIT_REQUEST_STATE
   /\ SvedbergSpec.results Svedberg.CODE_OPTOTAG s = 1%nat
   /\ ons PIN_CHRIMSON_STIM s = 20%nat /\ ons PIN_CHR2_STIM s = 5%nat)
  /\ (let s := SvedbergSpec.after (ladder_after_session 600) in
      Svedberg._state s = Svedberg.WAIT_REQUEST_STATE
      /\ SvedbergSpec.results Svedberg.CODE_OPTOTAG s = 0%nat
      /\ ons PIN_CHRIMSON_STIM s = 5%nat).
Proof. vm_compute. repeat split. Qed.



(** From start-up: the message [P 99 1] indexes outside the array in
    both variants, and [P 3 7] sets parameter 3. *)
Example write_from_start :
  Svedberg.run [tick 1; msg 2 "P" 99 1] SvedbergSpec.start = OutOfBounds
  /\ run [tick 1; msg 2 "P" 99 1] start = OutOfBounds
  /\ Svedberg.param 3 (SvedbergSpec.after [tick 1; msg 2 "P" 3 7]) = 7
  /\ Qeq (param 3 (after [tick 1; msg 2 "P" 3 7])) 7.
Proof. vm_compute. repeat split. Qed.

End Claims.
